(** * CodeaUniTech-back: catalogue and profile rules, embedded and verified

    A shallow embedding of the Django models, serializers and views of
    [apps/users] and [apps/courses], followed by the properties the
    specification states about them.

    Conventions of the embedding.
    - A Python [str] is a [string] of 8-bit characters, [None] is the
      [None] of [option]; truthiness is written out ([truthy_str],
      [truthy_opt_str], ...).
    - A database table is the list of its rows together with the last
      value of its id sequence; a model instance is a row whose [id] is
      [None] until it has been inserted.
    - Code that reads or writes the database runs in the monad [M], which
      threads the database and carries Python exceptions.  The database
      travels with a raised exception, so that writes done before the
      exception are still there: it is [atomic] that undoes them.
    - What the repository delegates to Django or to the REST framework
      (the clock, the password policy, URL and e-mail syntax, uuid4) is
      gathered in the class [Framework], together with the rendering of
      the response of the composite endpoints, on which no property
      below depends: the properties hold whatever these are.
    - Request data is taken as the declared fields of a serializer
      deliver it: a record with one optional entry per key, [None] for
      a key that is absent; values present are not null, and a text is
      the text of the request once the field has trimmed the blanks
      around it.
    - The [fecha_creacion] / [fecha_actualizacion] stamps and the uuid of
      a user are not modelled. *)

From Stdlib Require Import ZArith List String Ascii Bool Lia Arith.
From Stdlib Require Import DecimalString DecimalNat FinFun.
Import ListNotations.

Local Open Scope string_scope.
Local Open Scope Z_scope.

(* ================================================================== *)
(** * Python values *)
(* ================================================================== *)

Module Py.

(** [bool(s)] for a string. *)
Definition truthy_str (s : string) : bool :=
  match s with EmptyString => false | String _ _ => true end.

(** [bool(x)] for a nullable string attribute. *)
Definition truthy_opt_str (o : option string) : bool :=
  match o with None => false | Some s => truthy_str s end.

(** [bool(x)] for an attribute that is [None] or an object that is
    always true (a [datetime.date]). *)
Definition truthy_opt {A : Type} (o : option A) : bool :=
  match o with None => false | Some _ => true end.

Definition is_upper (c : ascii) : bool :=
  ((65 <=? nat_of_ascii c) && (nat_of_ascii c <=? 90))%nat.

Definition is_lower (c : ascii) : bool :=
  ((97 <=? nat_of_ascii c) && (nat_of_ascii c <=? 122))%nat.

Definition is_digit (c : ascii) : bool :=
  ((48 <=? nat_of_ascii c) && (nat_of_ascii c <=? 57))%nat.

Definition lower_char (c : ascii) : ascii :=
  if is_upper c then ascii_of_nat (nat_of_ascii c + 32) else c.

(** [s.lower()] *)
Fixpoint lower (s : string) : string :=
  match s with
  | EmptyString => EmptyString
  | String c r => String (lower_char c) (lower r)
  end.

(** [s.split('@')[0]]: what precedes the first ['@'], the whole string
    when there is none. *)
Fixpoint split_arroba_0 (s : string) : string :=
  match s with
  | EmptyString => EmptyString
  | String c r =>
      if Ascii.eqb c "@" then EmptyString else String c (split_arroba_0 r)
  end.

(** The characters kept by [re.sub(r'[^a-z0-9._]', '', s)]. *)
Definition permitido (c : ascii) : bool :=
  is_lower c || is_digit c || Ascii.eqb c "." || Ascii.eqb c "_".

Fixpoint re_sub_no_permitidos (s : string) : string :=
  match s with
  | EmptyString => EmptyString
  | String c r =>
      if permitido c then String c (re_sub_no_permitidos r)
      else re_sub_no_permitidos r
  end.

(** [re.match(r'^[a-zA-Z0-9._]+$', s)] *)
Definition permitido_mixto (c : ascii) : bool :=
  is_lower c || is_upper c || is_digit c || Ascii.eqb c "." || Ascii.eqb c "_".

Fixpoint todos (p : ascii -> bool) (s : string) : bool :=
  match s with
  | EmptyString => true
  | String c r => p c && todos p r
  end.

Definition re_match_usuario (s : string) : bool :=
  truthy_str s && todos permitido_mixto s.

(** [f"{n}"] for a counter. *)
Definition str_of_nat (n : nat) : string :=
  NilEmpty.string_of_uint (Nat.to_uint n).

Definition opt_eqb {A : Type} (eqb : A -> A -> bool) (x y : option A) : bool :=
  match x, y with
  | Some a, Some b => eqb a b
  | None, None => true
  | _, _ => false
  end.

(** [datetime.date] *)
Record date := mkdate { year : Z; month : Z; day : Z }.

(** [(a1, a2) < (b1, b2)] on pairs of integers. *)
Definition tuple_lt (a b : Z * Z) : bool :=
  (fst a <? fst b) || ((fst a =? fst b) && (snd a <? snd b)).

(** [a > b] on dates. *)
Definition date_gt (a b : date) : bool :=
  (year b <? year a)
  || ((year b =? year a) && tuple_lt (month b, day b) (month a, day a)).

(** A [bool] used as an integer. *)
Definition int_of_bool (b : bool) : Z := if b then 1 else 0.

End Py.

(* ================================================================== *)
(** * Rows of the tables, named by [Meta.db_table] *)
(* ================================================================== *)

Module usuarios.
Record fila := mk {
  id : option Z;
  username : string;
  email : string;
  password : string;
  first_name : string;
  last_name : string;
  fecha_nacimiento : option Py.date;
  edad : option Z;
  usuario_unico : option string;
  pais : option string;
  avatar_url : option string;
  portada_url : option string;
  biografia : option string;
  facebook_url : option string;
  linkedin_url : option string;
  instagram_url : option string;
  tipo_usuario : string;
  telefono : option string;
  perfil_completo : bool;
  activo : bool
}.

Definition set_id (v : option Z) (u : fila) : fila :=
  mk v (username u) (email u) (password u) (first_name u) (last_name u)
     (fecha_nacimiento u) (edad u) (usuario_unico u) (pais u)
     (avatar_url u) (portada_url u) (biografia u) (facebook_url u)
     (linkedin_url u) (instagram_url u) (tipo_usuario u) (telefono u)
     (perfil_completo u) (activo u).

Definition set_edad (v : option Z) (u : fila) : fila :=
  mk (id u) (username u) (email u) (password u) (first_name u) (last_name u)
     (fecha_nacimiento u) v (usuario_unico u) (pais u)
     (avatar_url u) (portada_url u) (biografia u) (facebook_url u)
     (linkedin_url u) (instagram_url u) (tipo_usuario u) (telefono u)
     (perfil_completo u) (activo u).

Definition set_perfil_completo (v : bool) (u : fila) : fila :=
  mk (id u) (username u) (email u) (password u) (first_name u) (last_name u)
     (fecha_nacimiento u) (edad u) (usuario_unico u) (pais u)
     (avatar_url u) (portada_url u) (biografia u) (facebook_url u)
     (linkedin_url u) (instagram_url u) (tipo_usuario u) (telefono u)
     v (activo u).

Definition set_activo (v : bool) (u : fila) : fila :=
  mk (id u) (username u) (email u) (password u) (first_name u) (last_name u)
     (fecha_nacimiento u) (edad u) (usuario_unico u) (pais u)
     (avatar_url u) (portada_url u) (biografia u) (facebook_url u)
     (linkedin_url u) (instagram_url u) (tipo_usuario u) (telefono u)
     (perfil_completo u) v.

(** [Usuario(username=..., email=...)], the other attributes taking
    the defaults of the model. *)
Definition nuevo (username email : string) : fila :=
  mk None username email "" "" "" None None None None None None None
     None None None "estudiante" None false true.
End usuarios.

Module docentes.
Record fila := mk {
  id : option Z;
  usuario : Z;
  especialidad : string;
  biografia_extendida : string;
  experiencia_anos : option Z;
  titulo_profesional : option string;
  certificaciones : option string;
  github_url : option string
}.
End docentes.

Module categorias.
Record fila := mk {
  id : option Z;
  nombre : string;
  descripcion : option string;
  color_hex : string;
  activa : bool
}.
End categorias.

Module cursos.
(** [precio] and [valoracion_promedio] are decimals with two places,
    kept as a number of hundredths. *)
Record fila := mk {
  id : option Z;
  titulo : string;
  descripcion : string;
  descripcion_corta : option string;
  categoria : Z;
  docente_principal : Z;
  imagen_portada : option string;
  video_intro_url : option string;
  modalidad : string;
  nivel : string;
  duracion_horas : option Z;
  precio : Z;
  es_gratuito : bool;
  valoracion_promedio : option Z;
  destacado : bool;
  activo : bool;
  uuid : string
}.

Definition set_id (v : option Z) (c : fila) : fila :=
  mk v (titulo c) (descripcion c) (descripcion_corta c) (categoria c)
     (docente_principal c) (imagen_portada c) (video_intro_url c)
     (modalidad c) (nivel c) (duracion_horas c) (precio c) (es_gratuito c)
     (valoracion_promedio c) (destacado c) (activo c) (uuid c).

Definition set_precio (v : Z) (c : fila) : fila :=
  mk (id c) (titulo c) (descripcion c) (descripcion_corta c) (categoria c)
     (docente_principal c) (imagen_portada c) (video_intro_url c)
     (modalidad c) (nivel c) (duracion_horas c) v (es_gratuito c)
     (valoracion_promedio c) (destacado c) (activo c) (uuid c).

End cursos.

Module modulos.
(** [curso] is the column [curso_id]; an instance built without it
    carries [None]. *)
Record fila := mk {
  id : option Z;
  curso : option Z;
  titulo : string;
  descripcion : option string;
  orden : Z;
  duracion_minutos : option Z;
  expandible : bool;
  activo : bool
}.

Definition set_id (v : option Z) (m : fila) : fila :=
  mk v (curso m) (titulo m) (descripcion m) (orden m) (duracion_minutos m)
     (expandible m) (activo m).
End modulos.

Module lecciones.
Record fila := mk {
  id : option Z;
  modulo : option Z;
  titulo : string;
  contenido : option string;
  tipo_contenido : string;
  video_url : option string;
  duracion_minutos : option Z;
  duracion_segundos : option Z;
  orden : Z;
  es_gratuita : bool;
  activa : bool
}.

Definition set_id (v : option Z) (l : fila) : fila :=
  mk v (modulo l) (titulo l) (contenido l) (tipo_contenido l) (video_url l)
     (duracion_minutos l) (duracion_segundos l) (orden l) (es_gratuita l)
     (activa l).

Definition set_tipo_contenido (v : string) (l : fila) : fila :=
  mk (id l) (modulo l) (titulo l) (contenido l) v (video_url l)
     (duracion_minutos l) (duracion_segundos l) (orden l) (es_gratuita l)
     (activa l).
End lecciones.

(* ================================================================== *)
(** * The database, exceptions and the monad of database code *)
(* ================================================================== *)

Record DB := mkDB {
  t_usuarios : list usuarios.fila;     seq_usuarios : Z;
  t_docentes : list docentes.fila;     seq_docentes : Z;
  t_categorias : list categorias.fila; seq_categorias : Z;
  t_cursos : list cursos.fila;         seq_cursos : Z;
  t_modulos : list modulos.fila;       seq_modulos : Z;
  t_lecciones : list lecciones.fila;   seq_lecciones : Z
}.

Definition con_usuarios (t : list usuarios.fila) (s : Z) (db : DB) : DB :=
  mkDB t s (t_docentes db) (seq_docentes db) (t_categorias db)
       (seq_categorias db) (t_cursos db) (seq_cursos db) (t_modulos db)
       (seq_modulos db) (t_lecciones db) (seq_lecciones db).

Definition con_cursos (t : list cursos.fila) (s : Z) (db : DB) : DB :=
  mkDB (t_usuarios db) (seq_usuarios db) (t_docentes db) (seq_docentes db)
       (t_categorias db) (seq_categorias db) t s (t_modulos db)
       (seq_modulos db) (t_lecciones db) (seq_lecciones db).

Definition con_modulos (t : list modulos.fila) (s : Z) (db : DB) : DB :=
  mkDB (t_usuarios db) (seq_usuarios db) (t_docentes db) (seq_docentes db)
       (t_categorias db) (seq_categorias db) (t_cursos db) (seq_cursos db)
       t s (t_lecciones db) (seq_lecciones db).

Definition con_lecciones (t : list lecciones.fila) (s : Z) (db : DB) : DB :=
  mkDB (t_usuarios db) (seq_usuarios db) (t_docentes db) (seq_docentes db)
       (t_categorias db) (seq_categorias db) (t_cursos db) (seq_cursos db)
       (t_modulos db) (seq_modulos db) t s.

Definition db_vacia : DB := mkDB [] 0 [] 0 [] 0 [] 0 [] 0 [] 0.

(** Python exceptions met in the modelled code. *)
Inductive excepcion :=
| ValidationError (campo mensaje : string)
| IntegrityError (mensaje : string)
| DatabaseError (mensaje : string)
| ValueError (mensaje : string)
| AttributeError (mensaje : string)
| Http404
(** not a Python exception: the bound the model puts on a loop was
    reached (shown never to happen) *)
| SinCombustible.

Inductive resultado (A : Type) :=
| Ok (a : A)
| Raise (e : excepcion).
Arguments Ok {A} a.
Arguments Raise {A} e.

Definition M (A : Type) : Type := DB -> resultado A * DB.

Definition ret {A} (a : A) : M A := fun db => (Ok a, db).
Definition raise {A} (e : excepcion) : M A := fun db => (Raise e, db).
Definition bind {A B} (m : M A) (k : A -> M B) : M B :=
  fun db =>
    match m db with
    | (Ok a, db') => k a db'
    | (Raise e, db') => (Raise e, db')
    end.
Definition leer : M DB := fun db => (Ok db, db).
Definition escribir (db' : DB) : M unit := fun _ => (Ok tt, db').

Notation "x <- m ;; k" := (bind m (fun x => k))
  (at level 61, m at next level, right associativity).
Notation "m ;; k" := (bind m (fun _ => k))
  (at level 61, right associativity).

(** [with transaction.atomic(): body]: the writes of a body that leaves
    by an exception are undone, and the exception goes on. *)
Definition atomic {A} (body : M A) : M A :=
  fun db =>
    match body db with
    | (Ok a, db') => (Ok a, db')
    | (Raise e, _) => (Raise e, db)
    end.

(** [try: body / except Exception as e: handler(e)] *)
Definition try_except {A} (body : M A) (handler : excepcion -> M A) : M A :=
  fun db =>
    match body db with
    | (Ok a, db') => (Ok a, db')
    | (Raise e, db') => handler e db'
    end.

(** What the code takes from Django and the REST framework. *)
Class Framework := {
  (** [date.today()] *)
  today : Py.date;
  (** [validate_password(p)] does not raise *)
  validate_password : string -> bool;
  (** the hash stored by [set_password] *)
  make_password : string -> string;
  (** Django's [URLValidator] *)
  URLValidator : string -> bool;
  (** the syntax and length checks of a serializer [EmailField] *)
  EmailField : string -> bool;
  (** [uuid.uuid4()], as drawn for the row inserted under a given id *)
  uuid4 : Z -> string;
  (** [CursoDetailSerializer(curso).data] for the course of a given id:
      the rendering of the response, which may raise *)
  CursoDetailSerializer_data : DB -> Z -> resultado unit
}.

(** HTTP responses.  An exception that leaves a view is turned into a
    response by the REST framework ([status_de]). *)
Inductive cuerpo :=
| CuerpoError (mensaje : string)
| CuerpoPerfil (mensaje : string) (usuario : usuarios.fila) (completo : bool)
| CuerpoCurso (mensaje : string) (curso_id : Z).

Record Response := mkResponse { status : Z; data : cuerpo }.

Definition HTTP_200_OK : Z := 200.
Definition HTTP_201_CREATED : Z := 201.
Definition HTTP_400_BAD_REQUEST : Z := 400.

Definition status_de (r : resultado Response) : Z :=
  match r with
  | Ok resp => status resp
  | Raise (ValidationError _ _) => 400
  | Raise Http404 => 404
  | Raise _ => 500
  end.

Definition id_eqb (a b : option Z) : bool := Py.opt_eqb Z.eqb a b.

(** [while ocupado(nombre): nombre = f"{base}{counter}"; counter += 1],
    the loop shared by the two name generators, run for at most [fuel]
    tests of its condition. *)
Fixpoint while_ocupado (ocupado : string -> bool) (base : string)
    (fuel : nat) (nombre : string) (counter : nat) : option string :=
  match fuel with
  | O => None
  | S fuel' =>
      if ocupado nombre
      then while_ocupado ocupado base fuel'
             (base ++ Py.str_of_nat counter) (S counter)
      else Some nombre
  end.

(* ================================================================== *)
(** * apps/users/models.py *)
(* ================================================================== *)

Module Usuario.
Import usuarios.

Section Metodos.
Context {fw : Framework}.

Definition campos_obligatorios (self : fila) : list bool :=
  [ Py.truthy_str (first_name self);
    Py.truthy_str (last_name self);
    Py.truthy_opt (fecha_nacimiento self);
    Py.truthy_opt_str (usuario_unico self);
    Py.truthy_opt_str (pais self) ].

Definition verificar_perfil_completo (self : fila) : fila :=
  set_perfil_completo (forallb (fun campo => campo) (campos_obligatorios self)) self.

(** The age computed by [save] and by the two birth-date validators. *)
Definition calcular_edad (hoy value : Py.date) : Z :=
  Py.year hoy - Py.year value
  - Py.int_of_bool (Py.tuple_lt (Py.month hoy, Py.day hoy)
                                (Py.month value, Py.day value)).

(** The unique columns of the table: [username] and, when not null,
    [usuario_unico]. *)
Definition choca (self r : fila) : bool :=
  negb (id_eqb (id r) (id self))
  && (String.eqb (username r) (username self)
      || match usuario_unico self, usuario_unico r with
         | Some a, Some b => String.eqb a b
         | _, _ => false
         end).

(** The columns of the table that the rows here carry and that
    [update_fields] may name; the primary key is not among the names
    it accepts. *)
Definition columnas : list string :=
  [ "username"; "email"; "password"; "first_name"; "last_name";
    "fecha_nacimiento"; "edad"; "usuario_unico"; "pais"; "avatar_url";
    "portada_url"; "biografia"; "facebook_url"; "linkedin_url";
    "instagram_url"; "tipo_usuario"; "telefono"; "perfil_completo"; "activo" ].

(** The other columns of the table, which the rows here do not carry:
    those of [AbstractUser] and of [TimeStampedModel], and [uuid]. *)
Definition otras_columnas : list string :=
  [ "last_login"; "is_superuser"; "is_staff"; "is_active"; "date_joined";
    "fecha_creacion"; "fecha_actualizacion"; "uuid" ].

(** [campo in update_fields] *)
Definition nombrado (campos : list string) (campo : string) : bool :=
  existsb (String.eqb campo) campos.

(** One column after the UPDATE of a save with [update_fields]: the
    value of the instance when the column is named, that of the row
    otherwise. *)
Definition de {A : Type} (campos : list string) (desde hacia : fila)
    (campo : string) (columna : fila -> A) : A :=
  if nombrado campos campo then columna desde else columna hacia.

Definition copiar_campos (campos : list string) (desde hacia : fila) : fila :=
  let de {A} := @de A campos desde hacia in
  mk (id hacia) (de "username" username) (de "email" email) (de "password" password)
     (de "first_name" first_name) (de "last_name" last_name)
     (de "fecha_nacimiento" fecha_nacimiento) (de "edad" edad)
     (de "usuario_unico" usuario_unico) (de "pais" pais)
     (de "avatar_url" avatar_url) (de "portada_url" portada_url)
     (de "biografia" biografia) (de "facebook_url" facebook_url)
     (de "linkedin_url" linkedin_url) (de "instagram_url" instagram_url)
     (de "tipo_usuario" tipo_usuario) (de "telefono" telefono)
     (de "perfil_completo" perfil_completo) (de "activo" activo).

(** The unique columns among those that an UPDATE of [campos] writes. *)
Definition choca_en (campos : list string) (self r : fila) : bool :=
  negb (id_eqb (id r) (id self))
  && ((nombrado campos "username" && String.eqb (username r) (username self))
      || (nombrado campos "usuario_unico"
          && match usuario_unico self, usuario_unico r with
             | Some a, Some b => String.eqb a b
             | _, _ => false
             end)).

(** [models.Model.save].  Without [update_fields]: UPDATE of the row
    of this id when there is one, INSERT otherwise.  With an empty
    [update_fields] nothing is done; with names that are not columns a
    [ValueError] is raised; otherwise the columns named are written to
    the row of this id, which must exist. *)
Definition super_save (update_fields : option (list string)) (self : fila)
  : M fila :=
  fun db =>
    let t := t_usuarios db in
    match update_fields with
    | Some [] => (Ok self, db)
    | Some campos =>
        if negb (forallb (nombrado (columnas ++ otras_columnas)) campos)
        then (Raise (ValueError "The following fields do not exist in this model, are m2m fields, or are non-concrete fields"), db)
        else
          match id self with
          | None => (Raise (ValueError "Cannot force an update in save() with no primary key."), db)
          | Some k =>
              if existsb (fun r => id_eqb (id r) (Some k)) t
              then
                if existsb (choca_en campos self) t
                then (Raise (IntegrityError "UNIQUE constraint failed: usuarios"), db)
                else (Ok self,
                      con_usuarios
                        (map (fun r => if id_eqb (id r) (Some k)
                                       then copiar_campos campos self r else r) t)
                        (seq_usuarios db) db)
              else (Raise (DatabaseError "Save with update_fields did not affect any rows."), db)
          end
    | None =>
        if existsb (choca self) t
        then (Raise (IntegrityError "UNIQUE constraint failed: usuarios"), db)
        else
          match id self with
          | Some k =>
              if existsb (fun r => id_eqb (id r) (Some k)) t
              then (Ok self,
                    con_usuarios
                      (map (fun r => if id_eqb (id r) (Some k) then self else r) t)
                      (seq_usuarios db) db)
              else (Ok self, con_usuarios (t ++ [self]) (seq_usuarios db) db)
          | None =>
              let k := seq_usuarios db + 1 in
              let self' := set_id (Some k) self in
              (Ok self', con_usuarios (t ++ [self']) k db)
          end
    end.

(** What [save] does to the instance before it is written. *)
Definition antes_de_guardar (self : fila) : fila :=
  let self :=
    match fecha_nacimiento self with
    | Some nacimiento => set_edad (Some (calcular_edad today nacimiento)) self
    | None => self
    end in
  verificar_perfil_completo self.

Definition save (update_fields : option (list string)) (self : fila) : M fila :=
  super_save update_fields (antes_de_guardar self).

Definition activar_perfil (self : fila) : M fila :=
  save (Some ["activo"]) (set_activo true self).

Definition desactivar_perfil (self : fila) : M fila :=
  save (Some ["activo"]) (set_activo false self).

(** [Usuario.objects.filter(usuario_unico=nombre).exclude(id=self.id).exists()] *)
Definition usuario_unico_ocupado (self : fila) (db : DB) (nombre : string) : bool :=
  existsb (fun r => Py.opt_eqb String.eqb (usuario_unico r) (Some nombre)
                    && negb (id_eqb (id r) (id self)))
          (t_usuarios db).

(** The base handle: the argument when it is given and not empty,
    otherwise made of the names or of the e-mail; then cleaned. *)
Definition base_username (self : fila) (base : option string) : string :=
  let base_username :=
    if Py.truthy_opt_str base
    then match base with Some b => b | None => "" end
    else if Py.truthy_str (first_name self) && Py.truthy_str (last_name self)
         then Py.lower (first_name self) ++ "." ++ Py.lower (last_name self)
         else Py.lower (Py.split_arroba_0 (email self)) in
  Py.re_sub_no_permitidos base_username.

(** [None] only if the loop were still running after one test per
    row of the table and one more; [generar_usuario_unico_termina]
    shows that it never is. *)
Definition generar_usuario_unico (self : fila) (base : option string) (db : DB)
  : option string :=
  let base_username := base_username self base in
  while_ocupado (usuario_unico_ocupado self db) base_username
    (S (List.length (t_usuarios db))) base_username 1.

End Metodos.
End Usuario.

Module Docente.
Import docentes.

(** [self.usuario]: the row the one-to-one key points to. *)
Definition usuario_de (self : fila) (db : DB) : option usuarios.fila :=
  find (fun u => id_eqb (usuarios.id u) (Some (usuario self))) (t_usuarios db).

Definition perfil_docente_completo (self : fila) (db : DB) : bool :=
  let campos_obligatorios :=
    [ Py.truthy_str (especialidad self);
      Py.truthy_str (biografia_extendida self);
      Py.truthy_opt (experiencia_anos self) ] in
  forallb (fun campo => campo) campos_obligatorios
  && match usuario_de self db with
     | Some u => usuarios.perfil_completo u
     | None => false
     end.
End Docente.

(* ================================================================== *)
(** * apps/users/serializers.py and apps/users/views.py *)
(* ================================================================== *)

(** How a serializer class is read.  A model serializer takes from the
    request the keys named in [Meta.fields] that can be written, and no
    other key: a key of the request that is not a field of the
    serializer never reaches [validated_data].  A field must be given
    when the column has no default, is not nullable and may not be
    blank, or when [extra_kwargs] says so; a field that is given goes
    through its own checks (length, choices, sign) and then through
    the method [validate_<field>] of the class, and when every field
    has passed, through [validate].  [is_valid(raise_exception=True)]
    raises at the first failure found in that order.  [save()] on a
    serializer without instance is [create], on one with an instance
    [update]. *)

(** One field of a serializer: a key that is present goes through the
    checks of the field and its [validate_<field>] hook; a key that is
    absent is an error when the field is required and the update is not
    partial. *)
Definition campo {A : Type} (nombre : string) (requerido parcial : bool)
    (valor : option A) (validar : A -> M A) : M (option A) :=
  match valor with
  | Some x => y <- validar x ;; ret (Some y)
  | None =>
      if requerido && negb parcial
      then raise (ValidationError nombre "This field is required.")
      else ret None
  end.

(** A [CharField(max_length=n)]. *)
Definition max_length (nombre : string) (n : nat) (value : string) : M string :=
  if (String.length value <=? n)%nat then ret value
  else raise (ValidationError nombre "Ensure this field has no more characters.").

Definition min_length (nombre : string) (n : nat) (value : string) : M string :=
  if (n <=? String.length value)%nat then ret value
  else raise (ValidationError nombre "Ensure this field has at least the characters.").

Module DocenteCreateSerializer.
Section Metodos.
Context {fw : Framework}.

Definition validate_fecha_nacimiento (value : Py.date) : resultado Py.date :=
  if Py.date_gt value today
  then Raise (ValidationError "fecha_nacimiento"
                "La fecha de nacimiento no puede ser en el futuro.")
  else
    let edad := Usuario.calcular_edad today value in
    if edad <? 18
    then Raise (ValidationError "fecha_nacimiento"
                  "Los docentes deben tener al menos 18 años.")
    else Ok value.
End Metodos.
End DocenteCreateSerializer.

Module RegistroInicialSerializer.

Record datos := mk {
  email : option string;
  password : option string;
  confirm_password : option string
}.

(** [validated_data] once [validate] has popped [confirm_password]. *)
Record validados := mkv { v_email : string; v_password : string }.

Section Metodos.
Context {fw : Framework}.

Definition validate_email (value : string) : M string :=
  db <- leer ;;
  if existsb (fun r => String.eqb (usuarios.email r) value) (t_usuarios db)
  then raise (ValidationError "email" "Este email ya está registrado.")
  else ret (Py.lower value).

Definition validate (email password confirm_password : string) : M validados :=
  if negb (String.eqb password confirm_password)
  then raise (ValidationError "confirm_password" "Las contraseñas no coinciden.")
  else
    if Py.truthy_str password && negb (validate_password password)
    then raise (ValidationError "password" "password policy")
    else ret (mkv email password).

(** [is_valid(raise_exception=True)] *)
Definition is_valid (d : datos) : M validados :=
  e <- campo "email" true false (email d)
         (fun value =>
            if EmailField value then validate_email value
            else raise (ValidationError "email" "Enter a valid email address.")) ;;
  p <- campo "password" true false (password d) (min_length "password" 8) ;;
  c <- campo "confirm_password" true false (confirm_password d) ret ;;
  match e, p, c with
  | Some e, Some p, Some c => validate e p c
  | _, _, _ => raise (ValidationError "non_field_errors" "This field is required.")
  end.

(** [Usuario.objects.filter(username=username).exists()] *)
Definition username_ocupado (db : DB) (username : string) : bool :=
  existsb (fun r => String.eqb (usuarios.username r) username) (t_usuarios db).

Definition set_password (raw : string) (u : usuarios.fila) : usuarios.fila :=
  usuarios.mk (usuarios.id u) (usuarios.username u) (usuarios.email u)
    (make_password raw) (usuarios.first_name u) (usuarios.last_name u)
    (usuarios.fecha_nacimiento u) (usuarios.edad u) (usuarios.usuario_unico u)
    (usuarios.pais u) (usuarios.avatar_url u) (usuarios.portada_url u)
    (usuarios.biografia u) (usuarios.facebook_url u) (usuarios.linkedin_url u)
    (usuarios.instagram_url u) (usuarios.tipo_usuario u) (usuarios.telefono u)
    (usuarios.perfil_completo u) (usuarios.activo u).

Definition create (validated_data : validados) : M usuarios.fila :=
  let password := v_password validated_data in
  let email := v_email validated_data in
  let username := Py.lower (Py.split_arroba_0 email) in
  db <- leer ;;
  match while_ocupado (username_ocupado db) username
          (S (List.length (t_usuarios db))) username 1 with
  | None => raise SinCombustible
  | Some username =>
      let usuario := usuarios.set_perfil_completo false
                       (usuarios.nuevo username email) in
      let usuario := set_password password usuario in
      Usuario.save None usuario
  end.
End Metodos.
End RegistroInicialSerializer.

Module RegistroInicialView.
Section Metodos.
Context {fw : Framework}.

Definition create (request_data : RegistroInicialSerializer.datos) : M Response :=
  validados <- RegistroInicialSerializer.is_valid request_data ;;
  usuario <- RegistroInicialSerializer.create validados ;;
  ret (mkResponse HTTP_201_CREATED
         (CuerpoPerfil "Registro inicial exitoso. Ahora completa tu perfil."
            usuario (usuarios.perfil_completo usuario))).
End Metodos.
End RegistroInicialView.

Module CompletarPerfilSerializer.

Record datos := mk {
  first_name : option string;
  last_name : option string;
  fecha_nacimiento : option Py.date;
  usuario_unico : option string;
  pais : option string;
  avatar_url : option string;
  portada_url : option string;
  biografia : option string;
  telefono : option string;
  facebook_url : option string;
  linkedin_url : option string;
  instagram_url : option string
}.

Section Metodos.
Context {fw : Framework}.

Definition validate_usuario_unico (instance : option usuarios.fila)
    (value : string) : M string :=
  db <- leer ;;
  let propio := match instance with Some i => usuarios.id i | None => None end in
  if existsb (fun r => Py.opt_eqb String.eqb (usuarios.usuario_unico r) (Some value)
                       && negb (id_eqb (usuarios.id r) propio))
             (t_usuarios db)
  then raise (ValidationError "usuario_unico" "Este nombre de usuario ya está en uso.")
  else
    if negb (Py.re_match_usuario value)
    then raise (ValidationError "usuario_unico"
                  "El nombre de usuario solo puede contener letras, números, puntos y guiones bajos.")
    else ret (Py.lower value).

Definition validate_fecha_nacimiento (value : Py.date) : resultado Py.date :=
  if Py.date_gt value today
  then Raise (ValidationError "fecha_nacimiento"
                "La fecha de nacimiento no puede ser en el futuro.")
  else
    let edad := Usuario.calcular_edad today value in
    if edad <? 13
    then Raise (ValidationError "fecha_nacimiento"
                  "Debes tener al menos 13 años para registrarte.")
    else Ok value.

Definition validate (instance : option usuarios.fila) (attrs : datos) : M datos :=
  match instance with
  | Some i =>
      if usuarios.perfil_completo i
      then raise (ValidationError "non_field_errors" "El perfil ya está completo.")
      else ret attrs
  | None => ret attrs
  end.

(** A [URLField(max_length=n, blank=True)]. *)
Definition url (nombre : string) (n : nat) (value : string) : M string :=
  if Py.truthy_str value
  then if URLValidator value then max_length nombre n value
       else raise (ValidationError nombre "Enter a valid URL.")
  else ret value.

(** The [RegexValidator] of [telefono]: an optional [+], an optional
    [1], then nine to fifteen digits. *)
Definition regex_telefono (value : string) : bool :=
  let resto := match value with
               | String "+" r => r
               | _ => value
               end in
  let n := String.length resto in
  Py.todos Py.is_digit resto
  && (((9 <=? n) && (n <=? 15))
      || (match resto with String "1" _ => true | _ => false end
          && (10 <=? n) && (n <=? 16)))%nat.

Definition campo_telefono (value : string) : M string :=
  if Py.truthy_str value
  then if regex_telefono value then max_length "telefono" 20 value
       else raise (ValidationError "telefono" "Ingrese un número de teléfono válido")
  else ret value.

Definition lift {A} (r : resultado A) : M A := fun db => (r, db).

(** [is_valid(raise_exception=True)]: the fields in the order of
    [Meta.fields], then [validate]. *)
Definition is_valid (instance : option usuarios.fila) (partial : bool)
    (d : datos) : M datos :=
  v1 <- campo "first_name" true partial (first_name d) (max_length "first_name" 150) ;;
  v2 <- campo "last_name" true partial (last_name d) (max_length "last_name" 150) ;;
  v3 <- campo "fecha_nacimiento" true partial (fecha_nacimiento d)
          (fun value => lift (validate_fecha_nacimiento value)) ;;
  v4 <- campo "usuario_unico" true partial (usuario_unico d)
          (fun value => value <- max_length "usuario_unico" 100 value ;;
                        validate_usuario_unico instance value) ;;
  v5 <- campo "pais" true partial (pais d) (max_length "pais" 100) ;;
  v6 <- campo "avatar_url" false partial (avatar_url d) (url "avatar_url" 500) ;;
  v7 <- campo "portada_url" false partial (portada_url d) (url "portada_url" 500) ;;
  v8 <- campo "biografia" false partial (biografia d) ret ;;
  v9 <- campo "telefono" false partial (telefono d) campo_telefono ;;
  v10 <- campo "facebook_url" false partial (facebook_url d) (url "facebook_url" 300) ;;
  v11 <- campo "linkedin_url" false partial (linkedin_url d) (url "linkedin_url" 300) ;;
  v12 <- campo "instagram_url" false partial (instagram_url d) (url "instagram_url" 300) ;;
  validate instance (mk v1 v2 v3 v4 v5 v6 v7 v8 v9 v10 v11 v12).

Definition o {A} (nuevo : option A) (viejo : A) : A :=
  match nuevo with Some v => v | None => viejo end.

Definition oo {A} (nuevo : option A) (viejo : option A) : option A :=
  match nuevo with Some v => Some v | None => viejo end.

(** [for attr, value in validated_data.items(): setattr(instance, attr, value)] *)
Definition setattrs (instance : usuarios.fila) (v : datos) : usuarios.fila :=
  usuarios.mk (usuarios.id instance) (usuarios.username instance)
    (usuarios.email instance) (usuarios.password instance)
    (o (first_name v) (usuarios.first_name instance))
    (o (last_name v) (usuarios.last_name instance))
    (oo (fecha_nacimiento v) (usuarios.fecha_nacimiento instance))
    (usuarios.edad instance)
    (oo (usuario_unico v) (usuarios.usuario_unico instance))
    (oo (pais v) (usuarios.pais instance))
    (oo (avatar_url v) (usuarios.avatar_url instance))
    (oo (portada_url v) (usuarios.portada_url instance))
    (oo (biografia v) (usuarios.biografia instance))
    (oo (facebook_url v) (usuarios.facebook_url instance))
    (oo (linkedin_url v) (usuarios.linkedin_url instance))
    (oo (instagram_url v) (usuarios.instagram_url instance))
    (usuarios.tipo_usuario instance)
    (oo (telefono v) (usuarios.telefono instance))
    (usuarios.perfil_completo instance) (usuarios.activo instance).

Definition update (instance : usuarios.fila) (validated_data : datos)
  : M usuarios.fila :=
  Usuario.save None (setattrs instance validated_data).
End Metodos.
End CompletarPerfilSerializer.

Module CompletarPerfilView.
Section Metodos.
Context {fw : Framework}.

(** [instance] is [request.user], the row of the authenticated user. *)
Definition update (partial : bool) (instance : usuarios.fila)
    (request_data : CompletarPerfilSerializer.datos) : M Response :=
  if negb partial && usuarios.perfil_completo instance
  then ret (mkResponse HTTP_400_BAD_REQUEST
              (CuerpoError "El perfil ya está completo. Usa PATCH para actualizaciones parciales."))
  else
    validados <- CompletarPerfilSerializer.is_valid (Some instance) partial request_data ;;
    usuario <- CompletarPerfilSerializer.update instance validados ;;
    let mensaje := if usuarios.perfil_completo usuario
                   then "Perfil completado exitosamente"
                   else "Perfil actualizado" in
    ret (mkResponse HTTP_200_OK
           (CuerpoPerfil mensaje usuario (usuarios.perfil_completo usuario))).

Definition put := update false.
Definition patch := update true.
End Metodos.
End CompletarPerfilView.

(* ================================================================== *)
(** * apps/courses/models.py *)
(* ================================================================== *)

Module Modulo.
Import modulos.

(** [models.Model.save] on the table [modulos]: the column [curso_id]
    is NOT NULL, [orden] is a positive integer column and
    [(curso, orden)] is unique together. *)
Definition super_save (self : fila) : M fila :=
  fun db =>
    let t := t_modulos db in
    match curso self with
    | None => (Raise (IntegrityError "NOT NULL constraint failed: modulos.curso_id"), db)
    | Some c =>
        if orden self <? 0
        then (Raise (IntegrityError "CHECK constraint failed: orden"), db)
        else
          if existsb (fun r => negb (id_eqb (id r) (id self))
                               && id_eqb (curso r) (Some c)
                               && (orden r =? orden self)) t
          then (Raise (IntegrityError "UNIQUE constraint failed: modulos.curso_id, modulos.orden"), db)
          else
            match id self with
            | Some k =>
                if existsb (fun r => id_eqb (id r) (Some k)) t
                then (Ok self,
                      con_modulos (map (fun r => if id_eqb (id r) (Some k) then self else r) t)
                                  (seq_modulos db) db)
                else (Ok self, con_modulos (t ++ [self]) (seq_modulos db) db)
            | None =>
                let k := seq_modulos db + 1 in
                let self' := set_id (Some k) self in
                (Ok self', con_modulos (t ++ [self']) k db)
            end
    end.

Definition save := super_save.

(** [self.lecciones]: the related manager. *)
Definition lecciones (self : fila) (db : DB) : list lecciones.fila :=
  filter (fun l => id_eqb (lecciones.modulo l) (id self)) (t_lecciones db).

Definition total_lecciones (self : fila) (db : DB) : nat :=
  List.length (filter lecciones.activa (lecciones self db)).
End Modulo.

Module Leccion.
Import lecciones.

Definition super_save (self : fila) : M fila :=
  fun db =>
    let t := t_lecciones db in
    match modulo self with
    | None => (Raise (IntegrityError "NOT NULL constraint failed: lecciones.modulo_id"), db)
    | Some m =>
        if orden self <? 0
        then (Raise (IntegrityError "CHECK constraint failed: orden"), db)
        else
          if existsb (fun r => negb (id_eqb (id r) (id self))
                               && id_eqb (modulo r) (Some m)
                               && (orden r =? orden self)) t
          then (Raise (IntegrityError "UNIQUE constraint failed: lecciones.modulo_id, lecciones.orden"), db)
          else
            match id self with
            | Some k =>
                if existsb (fun r => id_eqb (id r) (Some k)) t
                then (Ok self,
                      con_lecciones (map (fun r => if id_eqb (id r) (Some k) then self else r) t)
                                    (seq_lecciones db) db)
                else (Ok self, con_lecciones (t ++ [self]) (seq_lecciones db) db)
            | None =>
                let k := seq_lecciones db + 1 in
                let self' := set_id (Some k) self in
                (Ok self', con_lecciones (t ++ [self']) k db)
            end
    end.

(** What [save] does to the instance before it is written. *)
Definition antes_de_guardar (self : fila) : fila :=
  if String.eqb (tipo_contenido self) "video" && negb (Py.truthy_opt_str (video_url self))
  then set_tipo_contenido "texto" self
  else self.

Definition save (self : fila) : M fila :=
  super_save (antes_de_guardar self).

Definition duracion_total_segundos (self : fila) : Z :=
  let minutos := match duracion_minutos self with Some m => m | None => 0 end in
  let segundos := match duracion_segundos self with Some s => s | None => 0 end in
  (minutos * 60) + segundos.
End Leccion.

Module Curso.
Import cursos.

(** [models.Model.save] on the table [cursos]; [uuid] is unique.  The
    rows [categoria] and [docente_principal] point to are looked up by
    the serializer before an instance is built. *)
Definition super_save (self : fila) : M fila :=
  fun db =>
    let t := t_cursos db in
    if existsb (fun r => negb (id_eqb (id r) (id self))
                         && String.eqb (uuid r) (uuid self)) t
    then (Raise (IntegrityError "UNIQUE constraint failed: cursos.uuid"), db)
    else
      match id self with
      | Some k =>
          if existsb (fun r => id_eqb (id r) (Some k)) t
          then (Ok self,
                con_cursos (map (fun r => if id_eqb (id r) (Some k) then self else r) t)
                           (seq_cursos db) db)
          else (Ok self, con_cursos (t ++ [self]) (seq_cursos db) db)
      | None =>
          let k := seq_cursos db + 1 in
          let self' := set_id (Some k) self in
          (Ok self', con_cursos (t ++ [self']) k db)
      end.

(** What [save] does to the instance before it is written. *)
Definition antes_de_guardar (self : fila) : fila :=
  if es_gratuito self then set_precio 0 self else self.

Definition save (self : fila) : M fila :=
  super_save (antes_de_guardar self).

(** [self.modulos]: the related manager. *)
Definition modulos (self : fila) (db : DB) : list modulos.fila :=
  filter (fun m => id_eqb (modulos.curso m) (id self)) (t_modulos db).

Definition total_modulos (self : fila) (db : DB) : nat :=
  List.length (filter modulos.activo (modulos self db)).

Definition total_lecciones (self : fila) (db : DB) : nat :=
  list_sum (map (fun modulo =>
                   List.length (filter lecciones.activa (Modulo.lecciones modulo db)))
                (filter modulos.activo (modulos self db))).

Definition total_estudiantes (self : fila) : nat := 0%nat.

(** [self.modulos.all().delete()], with the cascade from [modulos] to
    [lecciones]: a lesson goes when its module goes. *)
Definition modulos_all_delete (self : fila) : M unit :=
  fun db =>
    let borrados := modulos self db in
    let es_borrado (l : lecciones.fila) :=
      existsb (fun m => id_eqb (lecciones.modulo l) (modulos.id m)) borrados in
    (Ok tt,
     con_lecciones (filter (fun l => negb (es_borrado l)) (t_lecciones db))
                   (seq_lecciones db)
       (con_modulos (filter (fun m => negb (id_eqb (modulos.curso m) (id self)))
                            (t_modulos db))
                    (seq_modulos db) db)).
End Curso.

(* ================================================================== *)
(** * apps/courses/serializers.py *)
(* ================================================================== *)

(** A required [CharField]: not blank. *)
Definition no_vacio (nombre : string) (value : string) : M string :=
  if Py.truthy_str value then ret value
  else raise (ValidationError nombre "This field may not be blank.").

(** An integer field of a positive integer column. *)
Definition no_negativo (nombre : string) (value : Z) : M Z :=
  if value <? 0
  then raise (ValidationError nombre "Ensure this value is greater than or equal to 0.")
  else ret value.

Definition opcion (nombre : string) (opciones : list string) (value : string) : M string :=
  if existsb (String.eqb value) opciones then ret value
  else raise (ValidationError nombre "Not a valid choice.").

Definition o_ {A} (nuevo : option A) (viejo : A) : A :=
  match nuevo with Some v => v | None => viejo end.

Definition oo_ {A} (nuevo : option A) (viejo : option A) : option A :=
  match nuevo with Some v => Some v | None => viejo end.

Module LeccionSerializer.

(** The keys of a lesson of a request that matter: those of
    [Meta.fields] that can be written, and [modulo], which the views
    add.  [Meta.fields] has no [modulo]. *)
Record datos := mk {
  titulo : option string;
  contenido : option string;
  tipo_contenido : option string;
  video_url : option string;
  duracion_minutos : option Z;
  orden : option Z;
  activa : option bool;
  modulo : option Z
}.

(** [leccion_data['modulo'] = v] *)
Definition set_modulo (v : Z) (d : datos) : datos :=
  mk (titulo d) (contenido d) (tipo_contenido d) (video_url d)
     (duracion_minutos d) (orden d) (activa d) (Some v).

(** [validated_data]: one entry per writable field of [Meta.fields]. *)
Record validados := mkv {
  v_titulo : option string;
  v_contenido : option string;
  v_tipo_contenido : option string;
  v_video_url : option string;
  v_duracion_minutos : option Z;
  v_orden : option Z;
  v_activa : option bool
}.

Section Metodos.
Context {fw : Framework}.

Definition TIPO_CONTENIDO_CHOICES : list string :=
  ["video"; "texto"; "quiz"; "proyecto"].

Definition url (nombre : string) (n : nat) (value : string) : M string :=
  if Py.truthy_str value
  then if URLValidator value then max_length nombre n value
       else raise (ValidationError nombre "Enter a valid URL.")
  else ret value.

Definition is_valid (d : datos) : M validados :=
  v1 <- campo "titulo" true false (titulo d)
          (fun value => value <- no_vacio "titulo" value ;; max_length "titulo" 200 value) ;;
  v2 <- campo "contenido" false false (contenido d) ret ;;
  v3 <- campo "tipo_contenido" false false (tipo_contenido d)
          (opcion "tipo_contenido" TIPO_CONTENIDO_CHOICES) ;;
  v4 <- campo "video_url" false false (video_url d) (url "video_url" 500) ;;
  v5 <- campo "duracion_minutos" false false (duracion_minutos d)
          (no_negativo "duracion_minutos") ;;
  v6 <- campo "orden" false false (orden d) (no_negativo "orden") ;;
  v7 <- campo "activa" false false (activa d) ret ;;
  ret (mkv v1 v2 v3 v4 v5 v6 v7).

(** [Leccion.objects.create] on the validated data: the attributes that
    are not among the validated data take the defaults of the
    model, and [modulo] is not among them. *)
Definition create (v : validados) : M lecciones.fila :=
  Leccion.save
    (lecciones.mk None None
       (o_ (v_titulo v) "") (v_contenido v)
       (o_ (v_tipo_contenido v) "video") (v_video_url v)
       (v_duracion_minutos v) None (o_ (v_orden v) 0) false
       (o_ (v_activa v) true)).

Definition save := create.
End Metodos.
End LeccionSerializer.

Module ModuloSerializer.

(** The keys of a module of a request that matter: the writable ones
    of [Meta.fields], [lecciones], which the views pop, and [curso],
    which the views add.  [Meta.fields] has no [curso], and its
    [lecciones] is read-only. *)
Record datos := mk {
  titulo : option string;
  descripcion : option string;
  orden : option Z;
  lecciones : option (list LeccionSerializer.datos);
  curso : option Z
}.

(** [modulo_data.pop('lecciones', [])]: the value and what is left. *)
Definition pop_lecciones (d : datos) : list LeccionSerializer.datos * datos :=
  (match lecciones d with Some ls => ls | None => [] end,
   mk (titulo d) (descripcion d) (orden d) None (curso d)).

(** [modulo_data['curso'] = v] *)
Definition set_curso (v : Z) (d : datos) : datos :=
  mk (titulo d) (descripcion d) (orden d) (lecciones d) (Some v).

Record validados := mkv {
  v_titulo : option string;
  v_descripcion : option string;
  v_orden : option Z
}.

Definition is_valid (d : datos) : M validados :=
  v1 <- campo "titulo" true false (titulo d)
          (fun value => value <- no_vacio "titulo" value ;; max_length "titulo" 200 value) ;;
  v2 <- campo "descripcion" false false (descripcion d) ret ;;
  v3 <- campo "orden" false false (orden d) (no_negativo "orden") ;;
  ret (mkv v1 v2 v3).

(** [Modulo.objects.create] on the validated data: [curso] is not among
    the validated data, so the instance is built without it. *)
Definition create (v : validados) : M modulos.fila :=
  Modulo.save
    (modulos.mk None None (o_ (v_titulo v) "") (v_descripcion v)
       (o_ (v_orden v) 0) None true true).

Definition save := create.
End ModuloSerializer.

Module CursoCreateSerializer.

Record datos := mk {
  titulo : option string;
  descripcion : option string;
  descripcion_corta : option string;
  categoria : option Z;
  docente_principal : option Z;
  precio : option Z;
  es_gratuito : option bool;
  nivel : option string;
  imagen_portada : option string;
  video_intro_url : option string;
  destacado : option bool
}.

Section Metodos.
Context {fw : Framework}.

Definition NIVEL_CHOICES : list string :=
  ["principiante"; "intermedio"; "avanzado"].

(** The primary-key field of [categoria]: the row must exist. *)
Definition campo_categoria (value : Z) : M Z :=
  db <- leer ;;
  if existsb (fun c => id_eqb (categorias.id c) (Some value)) (t_categorias db)
  then ret value
  else raise (ValidationError "categoria" "Invalid pk - object does not exist.").

(** The queryset of the field [docente_principal]:
    [filter(usuario__activo=True, usuario__perfil_completo=True)]. *)
Definition docente_elegible (db : DB) (d : docentes.fila) : bool :=
  match Docente.usuario_de d db with
  | Some u => usuarios.activo u && usuarios.perfil_completo u
  | None => false
  end.

Definition validate_docente_principal (value : docentes.fila) : M docentes.fila :=
  db <- leer ;;
  match Docente.usuario_de value db with
  | None => raise (AttributeError "usuario")
  | Some u =>
      if negb (usuarios.activo u)
      then raise (ValidationError "docente_principal" "El docente seleccionado no está activo")
      else if negb (usuarios.perfil_completo u)
      then raise (ValidationError "docente_principal" "El docente debe tener su perfil completo")
      else if negb (Docente.perfil_docente_completo value db)
      then raise (ValidationError "docente_principal"
                    "El docente debe tener su perfil profesional completo")
      else ret value
  end.

Definition campo_docente_principal (value : Z) : M Z :=
  db <- leer ;;
  match find (fun d => id_eqb (docentes.id d) (Some value) && docente_elegible db d)
             (t_docentes db) with
  | None => raise (ValidationError "docente_principal" "Invalid pk - object does not exist.")
  | Some d => validate_docente_principal d ;; ret value
  end.

(** [DecimalField(max_digits=10, decimal_places=2)], in hundredths. *)
Definition campo_precio (value : Z) : M Z :=
  if Z.abs value <? 10 ^ 10 then ret value
  else raise (ValidationError "precio" "Ensure that there are no more than 10 digits in total.").

Definition url (nombre : string) (n : nat) (value : string) : M string :=
  if Py.truthy_str value
  then if URLValidator value then max_length nombre n value
       else raise (ValidationError nombre "Enter a valid URL.")
  else ret value.

(** [is_valid(raise_exception=True)]; the result has the shape of
    the data, with the entries of the fields that were given. *)
Definition is_valid (partial : bool) (d : datos) : M datos :=
  v1 <- campo "titulo" true partial (titulo d)
          (fun value => value <- no_vacio "titulo" value ;; max_length "titulo" 200 value) ;;
  v2 <- campo "descripcion" true partial (descripcion d) (no_vacio "descripcion") ;;
  v3 <- campo "descripcion_corta" false partial (descripcion_corta d)
          (max_length "descripcion_corta" 500) ;;
  v4 <- campo "categoria" true partial (categoria d) campo_categoria ;;
  v5 <- campo "docente_principal" true partial (docente_principal d)
          campo_docente_principal ;;
  v6 <- campo "precio" false partial (precio d) campo_precio ;;
  v7 <- campo "es_gratuito" false partial (es_gratuito d) ret ;;
  v8 <- campo "nivel" false partial (nivel d) (opcion "nivel" NIVEL_CHOICES) ;;
  v9 <- campo "imagen_portada" false partial (imagen_portada d) (url "imagen_portada" 500) ;;
  v10 <- campo "video_intro_url" false partial (video_intro_url d)
           (url "video_intro_url" 500) ;;
  v11 <- campo "destacado" false partial (destacado d) ret ;;
  ret (mk v1 v2 v3 v4 v5 v6 v7 v8 v9 v10 v11).

(** [Curso.objects.create] on the validated data *)
Definition create (v : datos) : M cursos.fila :=
  db <- leer ;;
  Curso.save
    (cursos.mk None (o_ (titulo v) "") (o_ (descripcion v) "")
       (descripcion_corta v) (o_ (categoria v) 0) (o_ (docente_principal v) 0)
       (imagen_portada v) (video_intro_url v) "asincrono"
       (o_ (nivel v) "principiante") None (o_ (precio v) 0)
       (o_ (es_gratuito v) true) None (o_ (destacado v) false) true
       (uuid4 (seq_cursos db + 1))).

(** [setattr] of each validated entry, then [instance.save()]. *)
Definition update (instance : cursos.fila) (v : datos) : M cursos.fila :=
  Curso.save
    (cursos.mk (cursos.id instance)
       (o_ (titulo v) (cursos.titulo instance))
       (o_ (descripcion v) (cursos.descripcion instance))
       (oo_ (descripcion_corta v) (cursos.descripcion_corta instance))
       (o_ (categoria v) (cursos.categoria instance))
       (o_ (docente_principal v) (cursos.docente_principal instance))
       (oo_ (imagen_portada v) (cursos.imagen_portada instance))
       (oo_ (video_intro_url v) (cursos.video_intro_url instance))
       (cursos.modalidad instance)
       (o_ (nivel v) (cursos.nivel instance))
       (cursos.duracion_horas instance)
       (o_ (precio v) (cursos.precio instance))
       (o_ (es_gratuito v) (cursos.es_gratuito instance))
       (cursos.valoracion_promedio instance)
       (o_ (destacado v) (cursos.destacado instance))
       (cursos.activo instance) (cursos.uuid instance)).
End Metodos.
End CursoCreateSerializer.

(* ================================================================== *)
(** * apps/courses/views.py *)
(* ================================================================== *)

(** [request.data] of the two composite endpoints: its two top-level
    keys. *)
Module data.
Record request := mk {
  curso : option CursoCreateSerializer.datos;
  modulos : option (list ModuloSerializer.datos)
}.
End data.

Module CursoViewSet.

Section Metodos.
Context {fw : Framework}.

(** [for leccion_data in lecciones_data: ...] *)
Fixpoint crear_lecciones (modulo : modulos.fila)
    (lecciones_data : list LeccionSerializer.datos) : M (list lecciones.fila) :=
  match lecciones_data with
  | [] => ret []
  | leccion_data :: resto =>
      let leccion_data :=
        LeccionSerializer.set_modulo (o_ (modulos.id modulo) 0) leccion_data in
      validados <- LeccionSerializer.is_valid leccion_data ;;
      leccion <- LeccionSerializer.save validados ;;
      lecciones_creadas <- crear_lecciones modulo resto ;;
      ret (leccion :: lecciones_creadas)
  end.

(** [for modulo_data in modulos_data: ...] *)
Fixpoint crear_modulos (curso : cursos.fila)
    (modulos_data : list ModuloSerializer.datos)
  : M (list (modulos.fila * list lecciones.fila)) :=
  match modulos_data with
  | [] => ret []
  | modulo_data :: resto =>
      let (lecciones_data, modulo_data) := ModuloSerializer.pop_lecciones modulo_data in
      let modulo_data := ModuloSerializer.set_curso (o_ (cursos.id curso) 0) modulo_data in
      validados <- ModuloSerializer.is_valid modulo_data ;;
      modulo <- ModuloSerializer.save validados ;;
      lecciones_creadas <- crear_lecciones modulo lecciones_data ;;
      modulos_creados <- crear_modulos curso resto ;;
      ret ((modulo, lecciones_creadas) :: modulos_creados)
  end.

(** [Curso.objects...get(id=curso.id)] and the rendering of the
    response by [CursoDetailSerializer]. *)
Definition respuesta (curso : cursos.fila) : M unit :=
  db <- leer ;;
  match find (fun c => id_eqb (cursos.id c) (cursos.id curso)) (t_cursos db) with
  | None => raise (DatabaseError "Curso matching query does not exist.")
  | Some curso_completo =>
      fun db => (CursoDetailSerializer_data db (o_ (cursos.id curso_completo) 0), db)
  end.

(** The body of [with transaction.atomic():] in [crear_completo]. *)
Definition crear_completo_atomic (request_data : data.request) : M Response :=
  match data.curso request_data with
  | None => ret (mkResponse HTTP_400_BAD_REQUEST
                   (CuerpoError "Falta información del curso"))
  | Some curso_data =>
      match data.modulos request_data with
      | None => ret (mkResponse HTTP_400_BAD_REQUEST
                       (CuerpoError "Debe incluir al menos un módulo"))
      | Some modulos_data =>
          validados <- CursoCreateSerializer.is_valid false curso_data ;;
          curso <- CursoCreateSerializer.create validados ;;
          modulos_creados <- crear_modulos curso modulos_data ;;
          respuesta curso ;;
          ret (mkResponse HTTP_201_CREATED
                 (CuerpoCurso "creado exitosamente" (o_ (cursos.id curso) 0)))
      end
  end.

Definition crear_completo (request_data : data.request) : M Response :=
  try_except (atomic (crear_completo_atomic request_data))
    (fun e => ret (mkResponse HTTP_400_BAD_REQUEST
                     (CuerpoError "Error creando curso completo"))).

(** [self.get_object()]: the queryset of the viewset keeps the
    active courses, the lookup field is [uuid]. *)
Definition get_object (uuid : string) : M cursos.fila :=
  db <- leer ;;
  match find (fun c => cursos.activo c && String.eqb (cursos.uuid c) uuid)
             (t_cursos db) with
  | Some c => ret c
  | None => raise Http404
  end.

(** The body of [with transaction.atomic():] in [actualizar_completo]. *)
Definition actualizar_completo_atomic (request_data : data.request) (uuid : string)
  : M Response :=
  curso <- get_object uuid ;;
  curso <- match data.curso request_data with
           | Some curso_data =>
               validados <- CursoCreateSerializer.is_valid true curso_data ;;
               CursoCreateSerializer.update curso validados
           | None => ret curso
           end ;;
  match data.modulos request_data with
  | Some modulos_data =>
      Curso.modulos_all_delete curso ;;
      crear_modulos curso modulos_data ;;
      ret tt
  | None => ret tt
  end ;;
  respuesta curso ;;
  ret (mkResponse HTTP_200_OK
         (CuerpoCurso "actualizado exitosamente" (o_ (cursos.id curso) 0))).

Definition actualizar_completo (request_data : data.request) (uuid : string)
  : M Response :=
  try_except (atomic (actualizar_completo_atomic request_data uuid))
    (fun e => ret (mkResponse HTTP_400_BAD_REQUEST
                     (CuerpoError "Error actualizando curso"))).
End Metodos.
End CursoViewSet.

(* ================================================================== *)
(** * A framework and a database to run the code on *)
(* ================================================================== *)

Module Ejemplo.

(** 15 June 2025; every password passes the policy, every URL and
    e-mail is well formed, and rendering a response does not raise. *)
#[export] Instance fw : Framework := {|
  today := Py.mkdate 2025 6 15;
  validate_password := fun _ => true;
  make_password := fun raw => "pbkdf2$" ++ raw;
  URLValidator := fun _ => true;
  EmailField := fun _ => true;
  uuid4 := fun k => "uuid-" ++ Py.str_of_nat (Z.to_nat k);
  CursoDetailSerializer_data := fun _ _ => Ok tt
|}.

(** A teacher with a complete profile. *)
Definition profesora : usuarios.fila :=
  usuarios.mk (Some 1) "lucia" "lucia@codea.pe" "pbkdf2$x" "Lucia" "Rojas"
    (Some (Py.mkdate 1985 3 2)) (Some 40) (Some "lucia.rojas") (Some "Peru")
    None None None None None None "docente" None true true.

(** Another user, who holds the handle [ana.gomez]. *)
Definition otra_ana : usuarios.fila :=
  usuarios.mk (Some 2) "ana" "ana@codea.pe" "pbkdf2$y" "Ana" "Gomez"
    (Some (Py.mkdate 1999 1 20)) (Some 26) (Some "ana.gomez") (Some "Peru")
    None None None None None None "estudiante" None true true.

(** A user after step 1, named like her. *)
Definition ana_nueva : usuarios.fila :=
  usuarios.mk (Some 3) "ana1" "ana@otro.pe" "pbkdf2$z" "Ana" "Gomez"
    None None None None
    None None None None None None "estudiante" None false true.

Definition docente_lucia : docentes.fila :=
  docentes.mk (Some 1) 1 "Backend" "Quince años enseñando." (Some 15)
    None None None.

Definition categoria_web : categorias.fila :=
  categorias.mk (Some 1) "Desarrollo web" None "#007bff" true.

(** A course with two modules, the first with two lessons and the
    second with one; the second lesson and the second module are
    inactive. *)
Definition curso_django : cursos.fila :=
  cursos.mk (Some 1) "Django" "API con Django" None 1 1 None None
    "asincrono" "principiante" None 0 true None false true "uuid-1".

Definition modulo_1 : modulos.fila :=
  modulos.mk (Some 1) (Some 1) "Modelos" None 1 None true true.
Definition modulo_2 : modulos.fila :=
  modulos.mk (Some 2) (Some 1) "Vistas" None 2 None true false.

Definition leccion_1 : lecciones.fila :=
  lecciones.mk (Some 1) (Some 1) "Campos" None "video" (Some "https://v.pe/1")
    (Some 10) None 1 false true.
Definition leccion_2 : lecciones.fila :=
  lecciones.mk (Some 2) (Some 1) "Meta" None "texto" None None None 2 false false.
Definition leccion_3 : lecciones.fila :=
  lecciones.mk (Some 3) (Some 2) "ViewSets" None "texto" None None None 1 false true.

Definition db : DB :=
  mkDB [profesora; otra_ana; ana_nueva] 3 [docente_lucia] 1 [categoria_web] 1
       [curso_django] 1 [modulo_1; modulo_2] 2
       [leccion_1; leccion_2; leccion_3] 3.

Definition curso_data : CursoCreateSerializer.datos :=
  CursoCreateSerializer.mk (Some "React") (Some "Interfaces con React") None
    (Some 1) (Some 1) (Some 24999) (Some false) None None None None.

Definition leccion_data (titulo : string) (orden : Z) : LeccionSerializer.datos :=
  LeccionSerializer.mk (Some titulo) None (Some "texto") None None (Some orden)
    None None.

Definition modulo_data (titulo : string) (orden : Z)
    (lecciones : list LeccionSerializer.datos) : ModuloSerializer.datos :=
  ModuloSerializer.mk (Some titulo) None (Some orden) (Some lecciones) None.

(** [otra_ana] once her country has been cleared in memory, the flag
    still set. *)
Definition ana_sin_pais : usuarios.fila :=
  usuarios.mk (Some 2) "ana" "ana@codea.pe" "pbkdf2$y" "Ana" "Gomez"
    (Some (Py.mkdate 1999 1 20)) (Some 26) (Some "ana.gomez") None
    None None None None None None "estudiante" None true true.

(** [ana_nueva] once her last missing fields have been filled in
    memory, the flag still clear. *)
Definition ana_nueva_llena : usuarios.fila :=
  usuarios.mk (Some 3) "ana1" "ana@otro.pe" "pbkdf2$z" "Ana" "Gomez"
    (Some (Py.mkdate 2001 9 9)) None (Some "ana.gomez1") (Some "Chile")
    None None None None None None "estudiante" None false true.

(** [PATCH {"biografia": "Hola"}] *)
Definition solo_biografia : CompletarPerfilSerializer.datos :=
  CompletarPerfilSerializer.mk None None None None None None None (Some "Hola")
    None None None None.

(** [uuid] of [curso_django]. *)
Definition uuid_django : string := "uuid-1".

End Ejemplo.

(* ================================================================== *)
(** * More of the code: helpers *)
(* ================================================================== *)

Module PyStr.

(** [c.isspace()] for an 8-bit character. *)
Definition isspace (c : ascii) : bool :=
  let n := nat_of_ascii c in
  (((9 <=? n) && (n <=? 13)) || ((28 <=? n) && (n <=? 32))
   || (n =? 133) || (n =? 160))%nat.

(** [s.lstrip()] *)
Fixpoint lstrip (s : string) : string :=
  match s with
  | EmptyString => EmptyString
  | String c r => if isspace c then lstrip r else s
  end.

(** [s.rstrip()] *)
Fixpoint rstrip (s : string) : string :=
  match s with
  | EmptyString => EmptyString
  | String c r =>
      match rstrip r with
      | EmptyString => if isspace c then EmptyString else String c EmptyString
      | r' => String c r'
      end
  end.

(** [s.strip()] *)
Definition strip (s : string) : string := lstrip (rstrip s).

(** [s[:n]] *)
Definition hasta (n : nat) (s : string) : string := String.substring 0 n s.

End PyStr.

Definition con_docentes (t : list docentes.fila) (s : Z) (db : DB) : DB :=
  mkDB (t_usuarios db) (seq_usuarios db) t s (t_categorias db) (seq_categorias db)
       (t_cursos db) (seq_cursos db) (t_modulos db) (seq_modulos db)
       (t_lecciones db) (seq_lecciones db).

(** [usuario.tipo_usuario = v] *)
Definition usuario_con_tipo (v : string) (u : usuarios.fila) : usuarios.fila :=
  usuarios.mk (usuarios.id u) (usuarios.username u) (usuarios.email u)
    (usuarios.password u) (usuarios.first_name u) (usuarios.last_name u)
    (usuarios.fecha_nacimiento u) (usuarios.edad u) (usuarios.usuario_unico u)
    (usuarios.pais u) (usuarios.avatar_url u) (usuarios.portada_url u)
    (usuarios.biografia u) (usuarios.facebook_url u) (usuarios.linkedin_url u)
    (usuarios.instagram_url u) v (usuarios.telefono u)
    (usuarios.perfil_completo u) (usuarios.activo u).

(* ================================================================== *)
(** * More of apps/users/models.py *)
(* ================================================================== *)

Module UsuarioProps.

(** [Usuario.es_docente] *)
Definition es_docente (self : usuarios.fila) : bool :=
  String.eqb (usuarios.tipo_usuario self) "docente".

End UsuarioProps.

Module DocenteModel.
Import docentes.

(** [models.Model.save] on the table [docentes]: [usuario] is a
    one-to-one key, so no two rows share it, and [experiencia_anos] is
    a positive integer column that is not nullable. *)
Definition super_save (self : fila) : M fila :=
  fun db =>
    let t := t_docentes db in
    match experiencia_anos self with
    | None => (Raise (IntegrityError "NOT NULL constraint failed: docentes.experiencia_anos"), db)
    | Some e =>
        if e <? 0
        then (Raise (IntegrityError "CHECK constraint failed: experiencia_anos"), db)
        else
          if existsb (fun r => negb (id_eqb (id r) (id self)) && (usuario r =? usuario self)) t
          then (Raise (IntegrityError "UNIQUE constraint failed: docentes.usuario_id"), db)
          else
            match id self with
            | Some k =>
                if existsb (fun r => id_eqb (id r) (Some k)) t
                then (Ok self,
                      con_docentes (map (fun r => if id_eqb (id r) (Some k) then self else r) t)
                                   (seq_docentes db) db)
                else (Ok self, con_docentes (t ++ [self]) (seq_docentes db) db)
            | None =>
                let k := seq_docentes db + 1 in
                let self' := mk (Some k) (usuario self) (especialidad self)
                               (biografia_extendida self) (experiencia_anos self)
                               (titulo_profesional self) (certificaciones self)
                               (github_url self) in
                (Ok self', con_docentes (t ++ [self']) k db)
            end
    end.

Section Metodos.
Context {fw : Framework}.

(** [Docente.save].  [self_usuario] is the object [self.usuario]: the
    user the instance was built or loaded with. *)
Definition save (self : fila) (self_usuario : usuarios.fila) : M fila :=
  (if negb (String.eqb (usuarios.tipo_usuario self_usuario) "docente")
   then Usuario.save None (usuario_con_tipo "docente" self_usuario) ;; ret tt
   else ret tt) ;;
  super_save self.

End Metodos.

(** [user.docente], the reverse of the one-to-one key: [None] stands
    for [Docente.DoesNotExist]. *)
Definition docente_de (user : usuarios.fila) (db : DB) : option fila :=
  find (fun d => id_eqb (Some (usuario d)) (usuarios.id user)) (t_docentes db).

End DocenteModel.

(* ================================================================== *)
(** * More of apps/users/serializers.py *)
(* ================================================================== *)

(** A serializer [URLField]: not blank, and a URL. *)
Definition campo_url {fw : Framework} (nombre : string) (value : string) : M string :=
  if Py.truthy_str value
  then if URLValidator value then ret value
       else raise (ValidationError nombre "Enter a valid URL.")
  else raise (ValidationError nombre "This field may not be blank.").

(** A serializer [IntegerField(min_value=a, max_value=b)]. *)
Definition campo_entero (nombre : string) (a b : Z) (value : Z) : M Z :=
  if value <? a
  then raise (ValidationError nombre "Ensure this value is greater than or equal to the minimum.")
  else if b <? value
  then raise (ValidationError nombre "Ensure this value is less than or equal to the maximum.")
  else ret value.

(** The rest of [DocenteCreateSerializer]: its fields, [validate_email],
    [validate_username], [validate] and [create]. *)
Module DocenteCreate.

Record datos := mk {
  email : option string;
  username : option string;
  first_name : option string;
  last_name : option string;
  fecha_nacimiento : option Py.date;
  pais : option string;
  password : option string;
  confirm_password : option string;
  avatar_url : option string;
  biografia : option string;
  telefono : option string;
  linkedin_url : option string;
  especialidad : option string;
  biografia_extendida : option string;
  experiencia_anos : option Z;
  titulo_profesional : option string;
  certificaciones : option string;
  github_url : option string
}.

Section Metodos.
Context {fw : Framework}.

Definition validate_email (value : string) : M string :=
  db <- leer ;;
  if existsb (fun r => String.eqb (usuarios.email r) value) (t_usuarios db)
  then raise (ValidationError "email" "Este email ya está registrado.")
  else ret (Py.lower value).

Definition validate_username (value : string) : M string :=
  db <- leer ;;
  if existsb (fun r => String.eqb (usuarios.username r) value) (t_usuarios db)
  then raise (ValidationError "username" "Este nombre de usuario ya está en uso.")
  else ret (Py.lower value).

(** [validate]: the passwords must agree and pass the policy; the
    result is [attrs] without [confirm_password]. *)
Definition validate (attrs : datos) : M datos :=
  if negb (Py.opt_eqb String.eqb (password attrs) (confirm_password attrs))
  then raise (ValidationError "confirm_password" "Las contraseñas no coinciden.")
  else
    if Py.truthy_opt_str (password attrs)
       && negb (validate_password (match password attrs with Some p => p | None => "" end))
    then raise (ValidationError "password" "password policy")
    else ret (mk (email attrs) (username attrs) (first_name attrs) (last_name attrs)
                 (fecha_nacimiento attrs) (pais attrs) (password attrs) None
                 (avatar_url attrs) (biografia attrs) (telefono attrs) (linkedin_url attrs)
                 (especialidad attrs) (biografia_extendida attrs) (experiencia_anos attrs)
                 (titulo_profesional attrs) (certificaciones attrs) (github_url attrs)).

(** A plain [CharField]: not blank. *)
Definition texto (nombre : string) (value : string) : M string := no_vacio nombre value.

Definition texto_max (nombre : string) (n : nat) (value : string) : M string :=
  value <- no_vacio nombre value ;; max_length nombre n value.

Definition lift {A} (r : resultado A) : M A := fun db => (r, db).

(** [is_valid(raise_exception=True)]: the fields in the order of the
    class, then [validate]. *)
Definition is_valid (d : datos) : M datos :=
  v1 <- campo "email" true false (email d)
          (fun value => value <- no_vacio "email" value ;;
                        if EmailField value then validate_email value
                        else raise (ValidationError "email" "Enter a valid email address.")) ;;
  v2 <- campo "username" true false (username d)
          (fun value => value <- texto_max "username" 150 value ;; validate_username value) ;;
  v3 <- campo "first_name" true false (first_name d) (texto_max "first_name" 150) ;;
  v4 <- campo "last_name" true false (last_name d) (texto_max "last_name" 150) ;;
  v5 <- campo "fecha_nacimiento" true false (fecha_nacimiento d)
          (fun value => lift (DocenteCreateSerializer.validate_fecha_nacimiento value)) ;;
  v6 <- campo "pais" true false (pais d) (texto_max "pais" 100) ;;
  v7 <- campo "password" true false (password d)
          (fun value => value <- no_vacio "password" value ;; min_length "password" 8 value) ;;
  v8 <- campo "confirm_password" true false (confirm_password d) (texto "confirm_password") ;;
  v9 <- campo "avatar_url" false false (avatar_url d) (campo_url "avatar_url") ;;
  v10 <- campo "biografia" false false (biografia d) (texto "biografia") ;;
  v11 <- campo "telefono" false false (telefono d) (texto "telefono") ;;
  v12 <- campo "linkedin_url" false false (linkedin_url d) (campo_url "linkedin_url") ;;
  v13 <- campo "especialidad" true false (especialidad d) (texto_max "especialidad" 200) ;;
  v14 <- campo "biografia_extendida" true false (biografia_extendida d)
           (texto "biografia_extendida") ;;
  v15 <- campo "experiencia_anos" true false (experiencia_anos d)
           (campo_entero "experiencia_anos" 0 60) ;;
  v16 <- campo "titulo_profesional" false false (titulo_profesional d)
           (texto_max "titulo_profesional" 200) ;;
  v17 <- campo "certificaciones" false false (certificaciones d) (texto "certificaciones") ;;
  v18 <- campo "github_url" false false (github_url d) (campo_url "github_url") ;;
  validate (mk v1 v2 v3 v4 v5 v6 v7 v8 v9 v10 v11 v12 v13 v14 v15 v16 v17 v18).

(** The user built by [create]: [Usuario] of the validated data, with
    [tipo_usuario], [perfil_completo] and [usuario_unico] as [create]
    sets them, and the password hashed. *)
Definition usuario_nuevo (v : datos) : usuarios.fila :=
  usuarios.mk None (o_ (username v) "") (o_ (email v) "")
    (make_password (o_ (password v) ""))
    (o_ (first_name v) "") (o_ (last_name v) "") (fecha_nacimiento v) None
    (username v) (pais v) (avatar_url v) None (biografia v) None (linkedin_url v) None
    "docente" (telefono v) true true.

Definition create (validated_data : datos) : M docentes.fila :=
  atomic
    (usuario <- Usuario.save None (usuario_nuevo validated_data) ;;
     DocenteModel.save
       (docentes.mk None (o_ (usuarios.id usuario) 0)
          (o_ (especialidad validated_data) "")
          (o_ (biografia_extendida validated_data) "")
          (experiencia_anos validated_data)
          (titulo_profesional validated_data)
          (certificaciones validated_data)
          (github_url validated_data))
       usuario).

End Metodos.
End DocenteCreate.

(** [CompletarPerfilSerializer.get_usuario_unico_sugerido].  The outer
    [option] is that of [generar_usuario_unico]; the inner one is the
    [None] returned when a name is missing. *)
Definition get_usuario_unico_sugerido (obj : usuarios.fila) (db : DB)
  : option (option string) :=
  if Py.truthy_str (usuarios.first_name obj) && Py.truthy_str (usuarios.last_name obj)
  then option_map Some (Usuario.generar_usuario_unico obj None db)
  else Some None.

Module PerfilUpdateSerializer.

(** [Meta.fields]: none is required, the columns being nullable or
    allowed blank. *)
Record datos := mk {
  first_name : option string;
  last_name : option string;
  fecha_nacimiento : option Py.date;
  pais : option string;
  avatar_url : option string;
  portada_url : option string;
  biografia : option string;
  telefono : option string;
  facebook_url : option string;
  linkedin_url : option string;
  instagram_url : option string
}.

Section Metodos.
Context {fw : Framework}.

Definition validate_fecha_nacimiento (value : Py.date) : resultado Py.date :=
  if Py.date_gt value today
  then Raise (ValidationError "fecha_nacimiento"
                "La fecha de nacimiento no puede ser en el futuro.")
  else Ok value.

Definition is_valid (partial : bool) (d : datos) : M datos :=
  v1 <- campo "first_name" false partial (first_name d) (max_length "first_name" 150) ;;
  v2 <- campo "last_name" false partial (last_name d) (max_length "last_name" 150) ;;
  v3 <- campo "fecha_nacimiento" false partial (fecha_nacimiento d)
          (fun value => CompletarPerfilSerializer.lift (validate_fecha_nacimiento value)) ;;
  v4 <- campo "pais" false partial (pais d) (max_length "pais" 100) ;;
  v5 <- campo "avatar_url" false partial (avatar_url d)
          (CompletarPerfilSerializer.url "avatar_url" 500) ;;
  v6 <- campo "portada_url" false partial (portada_url d)
          (CompletarPerfilSerializer.url "portada_url" 500) ;;
  v7 <- campo "biografia" false partial (biografia d) ret ;;
  v8 <- campo "telefono" false partial (telefono d) CompletarPerfilSerializer.campo_telefono ;;
  v9 <- campo "facebook_url" false partial (facebook_url d)
          (CompletarPerfilSerializer.url "facebook_url" 300) ;;
  v10 <- campo "linkedin_url" false partial (linkedin_url d)
           (CompletarPerfilSerializer.url "linkedin_url" 300) ;;
  v11 <- campo "instagram_url" false partial (instagram_url d)
           (CompletarPerfilSerializer.url "instagram_url" 300) ;;
  ret (mk v1 v2 v3 v4 v5 v6 v7 v8 v9 v10 v11).

(** The [update] every model serializer has: [setattr] of each
    validated entry, then [instance.save()]. *)
Definition update (instance : usuarios.fila) (v : datos) : M usuarios.fila :=
  Usuario.save None
    (CompletarPerfilSerializer.setattrs instance
       (CompletarPerfilSerializer.mk (first_name v) (last_name v) (fecha_nacimiento v)
          None (pais v) (avatar_url v) (portada_url v) (biografia v) (telefono v)
          (facebook_url v) (linkedin_url v) (instagram_url v))).

End Metodos.
End PerfilUpdateSerializer.

(* ================================================================== *)
(** * More of apps/users/views.py *)
(* ================================================================== *)

Module PerfilView.
Section Metodos.
Context {fw : Framework}.

(** [update]: the update of the generic view, answered 200 with the
    rendering of the user, which is what is returned here.  [instance]
    is [request.user]. *)
Definition update (partial : bool) (instance : usuarios.fila)
    (request_data : PerfilUpdateSerializer.datos) : M usuarios.fila :=
  validados <- PerfilUpdateSerializer.is_valid partial request_data ;;
  PerfilUpdateSerializer.update instance validados.

Definition put := update false.
Definition patch := update true.

End Metodos.
End PerfilView.

Module DocenteCreateView.
Section Metodos.
Context {fw : Framework}.

(** [create]: answered 201 with the docente created. *)
Definition create (request_data : DocenteCreate.datos) : M docentes.fila :=
  validados <- DocenteCreate.is_valid request_data ;;
  DocenteCreate.create validados.

End Metodos.
End DocenteCreateView.

Module DocenteDetailView.
Section Metodos.
Context {fw : Framework}.

(** [get_object]: the docente of this id, with its user. *)
Definition get_object (id : Z) : M (docentes.fila * usuarios.fila) :=
  db <- leer ;;
  match find (fun d => id_eqb (docentes.id d) (Some id)) (t_docentes db) with
  | None => raise Http404
  | Some docente =>
      match Docente.usuario_de docente db with
      | None => raise (AttributeError "usuario")
      | Some usuario => ret (docente, usuario)
      end
  end.

(** [delete]: the user of the docente is made inactive; the answer is
    200 with a message, which is what is returned here. *)
Definition delete (id : Z) : M string :=
  par <- get_object id ;;
  Usuario.save None (usuarios.set_activo false (snd par)) ;;
  ret "Docente desactivado exitosamente".

End Metodos.
End DocenteDetailView.

Module EstadoPerfilView.

Record estado := mk {
  perfil_completo : bool;
  campos_faltantes : list string;
  siguiente_paso : option string;
  usuario_unico_sugerido : option string;
  es_docente : bool;
  perfil_docente_completo : option bool
}.

(** [campos_requeridos], in the order of the dictionary, each with the
    truth value of the attribute of the user. *)
Definition campos_requeridos (user : usuarios.fila) : list (string * bool) :=
  [ ("Nombre", Py.truthy_str (usuarios.first_name user));
    ("Apellido", Py.truthy_str (usuarios.last_name user));
    ("Fecha de nacimiento", Py.truthy_opt (usuarios.fecha_nacimiento user));
    ("Nombre de usuario", Py.truthy_opt_str (usuarios.usuario_unico user));
    ("País", Py.truthy_opt_str (usuarios.pais user)) ].

Definition faltantes (user : usuarios.fila) : list string :=
  map fst (filter (fun par => negb (snd par)) (campos_requeridos user)).

(** [get]; [None] only if the handle generator ran out of fuel. *)
Definition get (user : usuarios.fila) (db : DB) : option estado :=
  let sugerido :=
    if negb (Py.truthy_opt_str (usuarios.usuario_unico user))
       && Py.truthy_str (usuarios.first_name user)
       && Py.truthy_str (usuarios.last_name user)
    then option_map Some (Usuario.generar_usuario_unico user None db)
    else Some None in
  let perfil_docente_completo :=
    if UsuarioProps.es_docente user
    then match DocenteModel.docente_de user db with
         | Some docente =>
             (* [docente.usuario] is [user] itself here *)
             Some (forallb (fun campo => campo)
                     [ Py.truthy_str (docentes.especialidad docente);
                       Py.truthy_str (docentes.biografia_extendida docente);
                       Py.truthy_opt (docentes.experiencia_anos docente) ]
                   && usuarios.perfil_completo user)
         | None => Some false
         end
    else None in
  match sugerido with
  | None => None
  | Some sugerido =>
      Some (mk (usuarios.perfil_completo user) (faltantes user)
              (if usuarios.perfil_completo user then None else Some "completar_perfil")
              sugerido (UsuarioProps.es_docente user) perfil_docente_completo)
  end.

End EstadoPerfilView.

Module VerificarUsuarioUnicoView.

Inductive respuesta :=
| Error400 (error : string)
| Disponibilidad (disponible : bool) (usuario_unico mensaje : string).

(** [get]; [query] is the parameter [usuario_unico], [None] when the
    request has none, and [user] is [request.user]. *)
Definition get (user : usuarios.fila) (query : option string) (db : DB) : respuesta :=
  let usuario_unico := PyStr.strip (match query with Some q => q | None => "" end) in
  if negb (Py.truthy_str usuario_unico)
  then Error400 "Parámetro usuario_unico es requerido"
  else
    if negb (Py.re_match_usuario usuario_unico)
    then Disponibilidad false usuario_unico
           "El nombre de usuario solo puede contener letras, números, puntos y guiones bajos"
    else
      let existe :=
        existsb (fun r => Py.opt_eqb String.eqb (usuarios.usuario_unico r)
                            (Some (Py.lower usuario_unico))
                          && negb (id_eqb (usuarios.id r) (usuarios.id user)))
                (t_usuarios db) in
      Disponibilidad (negb existe) (Py.lower usuario_unico)
        (if negb existe then "Disponible" else "Ya está en uso").

(** The flag [disponible] of an answer, when it has one. *)
Definition disponible_de (r : respuesta) : option bool :=
  match r with
  | Error400 _ => None
  | Disponibilidad d _ _ => Some d
  end.

End VerificarUsuarioUnicoView.

Module VerificarEmailExistenteView.

Inductive respuesta :=
| Error400 (error : string)
| Existencia (existe : bool) (email message : string).

Definition get (query : option string) (db : DB) : respuesta :=
  let email := Py.lower (PyStr.strip (match query with Some q => q | None => "" end)) in
  if negb (Py.truthy_str email)
  then Error400 "Parámetro email es requerido"
  else
    let existe := existsb (fun r => String.eqb (usuarios.email r) email) (t_usuarios db) in
    Existencia existe email (if existe then "Email encontrado" else "Email disponible").

End VerificarEmailExistenteView.

(* ================================================================== *)
(** * More of apps/courses *)
(* ================================================================== *)

Module ModuloViewSet.

(** [create], the one every [ModelViewSet] has, with the serializer
    that [get_serializer_class] gives for it: [is_valid], then [save];
    it is answered 201 with the module created, which is what is
    returned here. *)
Definition create (request_data : ModuloSerializer.datos) : M modulos.fila :=
  validados <- ModuloSerializer.is_valid request_data ;;
  ModuloSerializer.save validados.

Inductive respuesta :=
| Creado (mensaje : string) (modulo_id : Z)
| Error400 (error : string).

Section Metodos.
Context {fw : Framework}.

(** [ModuloSerializer(modulo).data], the rendering of the answer, which
    may raise. *)
Variable ModuloSerializer_data : DB -> modulos.fila -> resultado unit.

(** The body of [with transaction.atomic():] in [crear_con_lecciones]. *)
Definition crear_con_lecciones_atomic (request_data : ModuloSerializer.datos)
  : M respuesta :=
  let (lecciones_data, data) := ModuloSerializer.pop_lecciones request_data in
  validados <- ModuloSerializer.is_valid data ;;
  modulo <- ModuloSerializer.save validados ;;
  CursoViewSet.crear_lecciones modulo lecciones_data ;;
  (fun db => (ModuloSerializer_data db modulo, db)) ;;
  ret (Creado "Módulo con lecciones creado exitosamente" (o_ (modulos.id modulo) 0)).

Definition crear_con_lecciones (request_data : ModuloSerializer.datos) : M respuesta :=
  try_except (atomic (crear_con_lecciones_atomic request_data))
    (fun e => ret (Error400 "Error creando módulo")).

End Metodos.
End ModuloViewSet.

Module LeccionViewSet.
Section Metodos.
Context {fw : Framework}.

(** [create] of the [ModelViewSet], with [LeccionSerializer]. *)
Definition create (request_data : LeccionSerializer.datos) : M lecciones.fila :=
  validados <- LeccionSerializer.is_valid request_data ;;
  LeccionSerializer.save validados.

End Metodos.
End LeccionViewSet.

Module CategoriaAdmin.

(** [descripcion_corta] *)
Definition descripcion_corta (obj : categorias.fila) : string :=
  match categorias.descripcion obj with
  | Some descripcion =>
      if Py.truthy_str descripcion
      then if (50 <? String.length descripcion)%nat
           then PyStr.hasta 50 descripcion ++ "..."
           else descripcion
      else "-"
  | None => "-"
  end.

(** [total_cursos], also [CategoriaSerializer.get_total_cursos]. *)
Definition total_cursos (obj : categorias.fila) (db : DB) : nat :=
  List.length
    (filter cursos.activo
       (filter (fun c => id_eqb (Some (cursos.categoria c)) (categorias.id obj))
               (t_cursos db))).

End CategoriaAdmin.

(* ================================================================== *)
(** * Login: apps/users/serializers.py and apps/users/views.py *)
(* ================================================================== *)

(** What the login takes from Django: [user.check_password(raw)], as a
    function of the raw password and the stored hash, and the column
    [is_active] of [AbstractUser], which no code of the repository
    writes. *)
Class Autenticacion := {
  check_password : string -> string -> bool;
  is_active : usuarios.fila -> bool
}.

Module CustomTokenObtainPairSerializer.

Record datos := mk {
  email : option string;
  password : option string
}.

(** The outcome of the validation: the user found, a validation
    error, or the exception of [Usuario.objects.get] when several rows
    have the e-mail, which is not a validation error. *)
Inductive veredicto :=
| Valido (user : usuarios.fila)
| Invalido (campo mensaje : string)
| MultipleObjectsReturned.

Section Metodos.
Context {fw : Framework} {au : Autenticacion}.

Definition validate (email password : string) (db : DB) : veredicto :=
  if negb (Py.truthy_str email) || negb (Py.truthy_str password)
  then Invalido "non_field_errors" "Email y contraseña son requeridos."
  else
    match filter (fun r => String.eqb (usuarios.email r) email) (t_usuarios db) with
    | [] => Invalido "non_field_errors" "Credenciales inválidas."
    | [user] =>
        if negb (check_password password (usuarios.password user))
        then Invalido "non_field_errors" "Credenciales inválidas."
        else
          if negb (is_active user) || negb (usuarios.activo user)
          then Invalido "non_field_errors" "Esta cuenta está desactivada."
          else Valido user
    | _ => MultipleObjectsReturned
    end.

(** [is_valid()]: the two fields, both required and not blank, then
    [validate]; of several field errors the first is kept. *)
Definition is_valid (d : datos) (db : DB) : veredicto :=
  match email d with
  | None => Invalido "email" "This field is required."
  | Some e =>
      if negb (Py.truthy_str e) then Invalido "email" "This field may not be blank."
      else
        if negb (EmailField e) then Invalido "email" "Enter a valid email address."
        else
          match password d with
          | None => Invalido "password" "This field is required."
          | Some p =>
              if negb (Py.truthy_str p)
              then Invalido "password" "This field may not be blank."
              else validate e p db
          end
  end.

End Metodos.
End CustomTokenObtainPairSerializer.

Module CustomTokenObtainPairView.

(** The answers of [post]: 200 with the user, its flag and the next
    step (the tokens are made by the JWT library from the user), 400
    with the errors of the serializer, or the exception that comes out
    of it. *)
Inductive respuesta :=
| Login (usuario : usuarios.fila) (perfil_completo : bool) (siguiente_paso : option string)
| Error400 (campo mensaje : string)
| Excepcion.

Section Metodos.
Context {fw : Framework} {au : Autenticacion}.

Definition post (request_data : CustomTokenObtainPairSerializer.datos) (db : DB)
  : respuesta :=
  match CustomTokenObtainPairSerializer.is_valid request_data db with
  | CustomTokenObtainPairSerializer.Valido user =>
      let siguiente_paso :=
        if usuarios.perfil_completo user then None else Some "completar_perfil" in
      Login user (usuarios.perfil_completo user) siguiente_paso
  | CustomTokenObtainPairSerializer.Invalido campo mensaje => Error400 campo mensaje
  | CustomTokenObtainPairSerializer.MultipleObjectsReturned => Excepcion
  end.

End Metodos.
End CustomTokenObtainPairView.

(* ================================================================== *)
(** * The lists of teachers and the courses of a teacher *)
(* ================================================================== *)

Module DocenteListView.

(** The key of [order_by('usuario__first_name', 'usuario__last_name')]. *)
Definition clave (db : DB) (d : docentes.fila) : string * string :=
  match Docente.usuario_de d db with
  | Some u => (usuarios.first_name u, usuarios.last_name u)
  | None => ("", "")
  end.

(** The order of two keys, strings being compared character by
    character. *)
Definition antes (a b : string * string) : bool :=
  match String.compare (fst a) (fst b) with
  | Lt => true
  | Gt => false
  | Eq => String.leb (snd a) (snd b)
  end.

Fixpoint insertar (db : DB) (x : docentes.fila) (l : list docentes.fila)
  : list docentes.fila :=
  match l with
  | [] => [x]
  | y :: resto =>
      if antes (clave db x) (clave db y) then x :: l else y :: insertar db x resto
  end.

(** [order_by]: rows with equal keys come in an order the database
    chooses; here, that of the table. *)
Definition order_by (db : DB) (l : list docentes.fila) : list docentes.fila :=
  fold_right (insertar db) [] l.

(** [get_queryset], which is also the queryset of
    [DocentesPublicosView] and of [CursoViewSet.docentes_disponibles]:
    the teachers whose user is active with a complete profile, by
    name. *)
Definition get_queryset (db : DB) : list docentes.fila :=
  order_by db (filter (CursoCreateSerializer.docente_elegible db) (t_docentes db)).

End DocenteListView.

Module PorDocente.

(** The answers of [CursoViewSet.por_docente]: 404, or the teacher with
    the count of its courses (the courses themselves are rendered by
    [CursoListSerializer]). *)
Inductive respuesta :=
| NoEncontrado (error : string)
| Encontrado (docente : docentes.fila) (total_cursos : nat).

(** [Docente.objects.get(id=docente_id, usuario__activo=True)], [id]
    being the primary key and [docente_id] the number in the path. *)
Definition docente_activo (docente_id : Z) (db : DB) : option docentes.fila :=
  find (fun d => id_eqb (docentes.id d) (Some docente_id)
                 && match Docente.usuario_de d db with
                    | Some u => usuarios.activo u
                    | None => false
                    end)
       (t_docentes db).

(** [self.get_queryset()] of [CursoViewSet]: the active courses. *)
Definition get_queryset (db : DB) : list cursos.fila :=
  filter cursos.activo (t_cursos db).

Definition por_docente (docente_id : Z) (db : DB) : respuesta :=
  match docente_activo docente_id db with
  | None => NoEncontrado "Docente no encontrado"
  | Some docente =>
      let cursos :=
        filter (fun c => id_eqb (Some (cursos.docente_principal c)) (docentes.id docente))
               (get_queryset db) in
      Encontrado docente (List.length cursos)
  end.

End PorDocente.

(* ================================================================== *)
(** * Requests and conditions named in the statements below *)
(* ================================================================== *)

(** No other row of the table has the login name or the handle of
    [self]: the two unique columns allow it to be written. *)
Definition sin_choque (self : usuarios.fila) (db : DB) : Prop :=
  forall r, In r (t_usuarios db) -> Usuario.choca self r = false.

(** [PATCH {"fecha_nacimiento": f}] on the profile. *)
Definition solo_fecha (f : Py.date) : PerfilUpdateSerializer.datos :=
  PerfilUpdateSerializer.mk None None (Some f) None None None None None None None None.

(** [PATCH {"first_name": s}] on the profile. *)
Definition solo_nombre (s : string) : PerfilUpdateSerializer.datos :=
  PerfilUpdateSerializer.mk (Some s) None None None None None None None None None None.

(** The five mandatory keys of profile completion, for an Ana Gomez
    born on 9 September 2001 who lives in Chile and asks for [handle]. *)
Definition perfil_ana (handle : string) : CompletarPerfilSerializer.datos :=
  CompletarPerfilSerializer.mk (Some "Ana") (Some "Gomez") (Some (Py.mkdate 2001 9 9))
    (Some handle) (Some "Chile") None None None None None None None.

(** The request that creates the teacher Maria Soto, born on 5 May
    1990, with the login name [username]. *)
Definition docente_data (username : string) : DocenteCreate.datos :=
  DocenteCreate.mk (Some "maria@codea.pe") (Some username) (Some "Maria") (Some "Soto")
    (Some (Py.mkdate 1990 5 5)) (Some "Peru") (Some "Secreta123") (Some "Secreta123")
    None None None None (Some "Datos") (Some "Analista de datos.") (Some 8)
    None None None.

(** A password check that goes with the hashing of the example, and no
    account disabled. *)
Definition autenticacion_ejemplo : Autenticacion := {|
  check_password := fun raw hash => String.eqb hash ("pbkdf2$" ++ raw);
  is_active := fun _ => true
|}.

(** A list is in the order of [antes] on the keys of its rows: each
    row comes before the next. *)
Fixpoint ordenada (db : DB) (l : list docentes.fila) : Prop :=
  match l with
  | x :: (y :: _) as resto =>
      DocenteListView.antes (DocenteListView.clave db x) (DocenteListView.clave db y) = true
      /\ ordenada db resto
  | _ => True
  end.

(* ================================================================== *)
(** * Vocabulary of the statements *)
(* ================================================================== *)

(** The birthday of [value] has not yet occurred in the year of [hoy]. *)
Definition cumple_pendiente (hoy value : Py.date) : Prop :=
  Py.month hoy < Py.month value
  \/ (Py.month hoy = Py.month value /\ Py.day hoy < Py.day value).

(** [value] is a day after [hoy]. *)
Definition en_el_futuro (hoy value : Py.date) : Prop :=
  Py.year hoy < Py.year value
  \/ (Py.year hoy = Py.year value
      /\ (Py.month hoy < Py.month value
          \/ (Py.month hoy = Py.month value /\ Py.day hoy < Py.day value))).

Definition rechazado {A : Type} (r : resultado A) : Prop :=
  exists campo mensaje, r = Raise (ValidationError campo mensaje).

(** The five mandatory fields of a profile are not empty. *)
Definition obligatorios_presentes (u : usuarios.fila) : Prop :=
  usuarios.first_name u <> ""
  /\ usuarios.last_name u <> ""
  /\ usuarios.fecha_nacimiento u <> None
  /\ (exists s, usuarios.usuario_unico u = Some s /\ s <> "")
  /\ (exists s, usuarios.pais u = Some s /\ s <> "").

(** The stored flag of a row agrees with its mandatory fields. *)
Definition perfil_coherente (u : usuarios.fila) : Prop :=
  usuarios.perfil_completo u = true <-> obligatorios_presentes u.

(** The columns that the flag of a profile depends on, and the flag. *)
Definition columnas_del_perfil : list string :=
  ["first_name"; "last_name"; "fecha_nacimiento"; "usuario_unico"; "pais";
   "perfil_completo"].

(** A save with these [update_fields] cannot part the stored flag from
    the stored fields: it writes every column ([None]), or none of the
    columns of the profile. *)
Definition deja_el_perfil (update_fields : option (list string)) : Prop :=
  match update_fields with
  | None => True
  | Some campos =>
      forall campo, In campo columnas_del_perfil -> Usuario.nombrado campos campo = false
  end.

(** A lesson has no video reference: [video_url] is null or empty. *)
Definition sin_video_url (l : lecciones.fila) : Prop :=
  lecciones.video_url l = None \/ lecciones.video_url l = Some "".

(** A lesson of type video has a video reference that is not empty. *)
Definition video_con_url (l : lecciones.fila) : Prop :=
  lecciones.tipo_contenido l = "video" ->
  exists s, lecciones.video_url l = Some s /\ s <> "".

(** A course marked free has price zero. *)
Definition gratuito_a_cero (c : cursos.fila) : Prop :=
  cursos.es_gratuito c = true -> cursos.precio c = 0.

(** A module counts for a course: it belongs to it and is active. *)
Definition modulo_cuenta (c : cursos.fila) (m : modulos.fila) : bool :=
  id_eqb (modulos.curso m) (cursos.id c) && modulos.activo m.

(** A lesson counts for a course: it is active and belongs to a module
    that counts. *)
Definition leccion_cuenta (c : cursos.fila) (db : DB) (l : lecciones.fila) : bool :=
  lecciones.activa l
  && existsb (fun m => id_eqb (lecciones.modulo l) (modulos.id m) && modulo_cuenta c m)
             (t_modulos db).

(** The [k]-th name the loop of a name generator tries: the base, then
    the base followed by 1, 2, ... *)
Definition candidato (base : string) (k : nat) : string :=
  match k with
  | O => base
  | S _ => base ++ Py.str_of_nat k
  end.

(** Another user than [self] holds the handle [s]. *)
Definition lo_tiene_otro (self : usuarios.fila) (db : DB) (s : string) : Prop :=
  exists r, In r (t_usuarios db)
            /\ usuarios.usuario_unico r = Some s
            /\ usuarios.id r <> usuarios.id self.

(** Some user holds the login name [s]. *)
Definition username_tomado (db : DB) (s : string) : Prop :=
  exists r, In r (t_usuarios db) /\ usuarios.username r = s.

(** A computation that only validates: it leaves the database as it
    was, and either returns or raises a [ValidationError]. *)
Definition solo_valida {A : Type} (m : M A) : Prop :=
  forall db, (exists a, m db = (Ok a, db))
             \/ (exists c msg, m db = (Raise (ValidationError c msg), db)).

(** A computation that always raises a [ValidationError] and leaves the
    database as it was. *)
Definition siempre_rechaza {A : Type} (m : M A) : Prop :=
  forall db, exists c msg, m db = (Raise (ValidationError c msg), db).

(** The payload of a module, of a lesson, does not pass the validation
    of its serializer. *)
Definition modulo_invalido (d : ModuloSerializer.datos) : Prop :=
  forall db, exists e db', ModuloSerializer.is_valid d db = (Raise e, db').

Definition leccion_invalida {fw : Framework} (d : LeccionSerializer.datos) : Prop :=
  forall db, exists e db', LeccionSerializer.is_valid d db = (Raise e, db').

(** The lessons that come with the payload of a module. *)
Definition lecciones_de (d : ModuloSerializer.datos) : list LeccionSerializer.datos :=
  match ModuloSerializer.lecciones d with Some ls => ls | None => [] end.

(** A computation that leaves the stored modules and lessons as they
    are, whether it returns or raises. *)
Definition conserva_contenido {A : Type} (m : M A) : Prop :=
  forall db, t_modulos (snd (m db)) = t_modulos db
             /\ t_lecciones (snd (m db)) = t_lecciones db.

(** A computation that does not write: the database after it is the
    database before it, whether it returns or raises. *)
Definition no_escribe {A : Type} (m : M A) : Prop := forall db, snd (m db) = db.

(** What the validated data of a teacher are known to hold. *)
Record docente_validado {fw : Framework} (d v : DocenteCreate.datos) (db : DB) : Prop := {
  dv_email : exists e, DocenteCreate.email d = Some e
                       /\ DocenteCreate.email v = Some (Py.lower e);
  dv_username : exists un, DocenteCreate.username d = Some un
                           /\ DocenteCreate.username v = Some (Py.lower un)
                           /\ un <> "" /\ ~ username_tomado db un;
  dv_first_name : exists s, DocenteCreate.first_name v = Some s /\ s <> "";
  dv_last_name : exists s, DocenteCreate.last_name v = Some s /\ s <> "";
  dv_fecha : exists f, DocenteCreate.fecha_nacimiento v = Some f
                       /\ 18 <= Usuario.calcular_edad today f;
  dv_pais : exists s, DocenteCreate.pais v = Some s /\ s <> "";
  dv_especialidad : exists s, DocenteCreate.especialidad d = Some s
                              /\ DocenteCreate.especialidad v = Some s /\ s <> "";
  dv_biografia : exists s, DocenteCreate.biografia_extendida v = Some s /\ s <> "";
  dv_experiencia : exists x, DocenteCreate.experiencia_anos v = Some x /\ 0 <= x <= 60
}.

(* ================================================================== *)
(** * Properties *)
(* ================================================================== *)

(** ** Birth dates *)

Lemma tuple_lt_spec (a b c d : Z) :
  Py.tuple_lt (a, b) (c, d) = true <-> a < c \/ (a = c /\ b < d).
Proof.
  unfold Py.tuple_lt; simpl.
  rewrite orb_true_iff, andb_true_iff, !Z.ltb_lt, Z.eqb_eq. tauto.
Qed.

Lemma cumple_pendiente_spec (hoy value : Py.date) :
  Py.tuple_lt (Py.month hoy, Py.day hoy) (Py.month value, Py.day value) = true
  <-> cumple_pendiente hoy value.
Proof. apply tuple_lt_spec. Qed.

Lemma date_gt_spec (hoy value : Py.date) :
  Py.date_gt value hoy = true <-> en_el_futuro hoy value.
Proof.
  unfold Py.date_gt, en_el_futuro.
  rewrite orb_true_iff, andb_true_iff, Z.ltb_lt, Z.eqb_eq, tuple_lt_spec. tauto.
Qed.

Lemma calcular_edad_cases (hoy value : Py.date) :
  (cumple_pendiente hoy value
   /\ Usuario.calcular_edad hoy value = Py.year hoy - Py.year value - 1)
  \/ (~ cumple_pendiente hoy value
      /\ Usuario.calcular_edad hoy value = Py.year hoy - Py.year value).
Proof.
  unfold Usuario.calcular_edad.
  destruct (Py.tuple_lt (Py.month hoy, Py.day hoy) (Py.month value, Py.day value)) eqn:E.
  - left. split; [now apply cumple_pendiente_spec | simpl; lia].
  - right. split; [| simpl; lia].
    intros H. apply cumple_pendiente_spec in H. congruence.
Qed.

Lemma futuro_edad_no_positiva (hoy value : Py.date) :
  en_el_futuro hoy value -> Usuario.calcular_edad hoy value <= 0.
Proof.
  intros F.
  destruct (calcular_edad_cases hoy value) as [[P E] | [P E]]; rewrite E.
  - destruct F as [F | [F _]]; lia.
  - destruct F as [F | [F G]]; [lia |]. exfalso. apply P. exact G.
Qed.

Lemma docente_fecha_spec {fw : Framework} (value : Py.date) :
  (en_el_futuro today value \/ Usuario.calcular_edad today value < 18
   -> rechazado (DocenteCreateSerializer.validate_fecha_nacimiento value))
  /\ (18 <= Usuario.calcular_edad today value
      -> DocenteCreateSerializer.validate_fecha_nacimiento value = Ok value).
Proof.
  unfold DocenteCreateSerializer.validate_fecha_nacimiento, rechazado.
  destruct (Py.date_gt value today) eqn:G.
  - split; [intros _; eauto |].
    intros H. apply date_gt_spec in G. apply futuro_edad_no_positiva in G. lia.
  - destruct (Usuario.calcular_edad today value <? 18) eqn:L.
    + split; [intros _; eauto |]. apply Z.ltb_lt in L. lia.
    + apply Z.ltb_ge in L. split; [| reflexivity].
      intros [F | F]; [| lia].
      apply date_gt_spec in F. congruence.
Qed.

Lemma perfil_fecha_spec {fw : Framework} (value : Py.date) :
  (en_el_futuro today value \/ Usuario.calcular_edad today value < 13
   -> rechazado (CompletarPerfilSerializer.validate_fecha_nacimiento value))
  /\ (13 <= Usuario.calcular_edad today value
      -> CompletarPerfilSerializer.validate_fecha_nacimiento value = Ok value).
Proof.
  unfold CompletarPerfilSerializer.validate_fecha_nacimiento, rechazado.
  destruct (Py.date_gt value today) eqn:G.
  - split; [intros _; eauto |].
    intros H. apply date_gt_spec in G. apply futuro_edad_no_positiva in G. lia.
  - destruct (Usuario.calcular_edad today value <? 13) eqn:L.
    + split; [intros _; eauto |]. apply Z.ltb_lt in L. lia.
    + apply Z.ltb_ge in L. split; [| reflexivity].
      intros [F | F]; [| lia].
      apply date_gt_spec in F. congruence.
Qed.

(** C9.  With the age of a birth date being the difference of the
    calendar years, less one when the birthday has not yet occurred this
    year: the validator of instructor creation rejects every birth date
    of age 17 or less and accepts age 18; the validator of profile
    completion rejects every birth date of age 12 or less and accepts
    age 13; both reject a birth date in the future. *)
Theorem validate_fecha_nacimiento_edad_minima {fw : Framework} (value : Py.date) :
  let edad := Usuario.calcular_edad today value in
  (cumple_pendiente today value -> edad = Py.year today - Py.year value - 1)
  /\ (~ cumple_pendiente today value -> edad = Py.year today - Py.year value)
  /\ (edad <= 17 -> rechazado (DocenteCreateSerializer.validate_fecha_nacimiento value))
  /\ (edad = 18 -> DocenteCreateSerializer.validate_fecha_nacimiento value = Ok value)
  /\ (edad <= 12 -> rechazado (CompletarPerfilSerializer.validate_fecha_nacimiento value))
  /\ (edad = 13 -> CompletarPerfilSerializer.validate_fecha_nacimiento value = Ok value)
  /\ (en_el_futuro today value
      -> rechazado (DocenteCreateSerializer.validate_fecha_nacimiento value)
         /\ rechazado (CompletarPerfilSerializer.validate_fecha_nacimiento value)).
Proof.
  intros edad. subst edad.
  destruct (docente_fecha_spec value) as [D1 D2].
  destruct (perfil_fecha_spec value) as [P1 P2].
  destruct (calcular_edad_cases today value) as [[C E] | [C E]].
  - repeat split; intros; try tauto;
      try (apply D1; right; lia); try (apply D2; lia);
      try (apply P1; right; lia); try (apply P2; lia);
      try (apply D1; left; assumption); try (apply P1; left; assumption).
  - repeat split; intros; try tauto;
      try (apply D1; right; lia); try (apply D2; lia);
      try (apply P1; right; lia); try (apply P2; lia);
      try (apply D1; left; assumption); try (apply P1; left; assumption).
Qed.

(** On 15 June 2025: born 16 June 2007 is 17 (rejected for an
    instructor), born 15 June 2007 is 18 (accepted); born 16 June 2012
    is 12 (rejected for a profile), born 15 June 2012 is 13 (accepted);
    16 June 2025 is in the future. *)
Lemma validate_fecha_nacimiento_edad_minima_witness :
  rechazado (DocenteCreateSerializer.validate_fecha_nacimiento (fw := Ejemplo.fw)
               (Py.mkdate 2007 6 16))
  /\ DocenteCreateSerializer.validate_fecha_nacimiento (fw := Ejemplo.fw)
       (Py.mkdate 2007 6 15) = Ok (Py.mkdate 2007 6 15)
  /\ rechazado (CompletarPerfilSerializer.validate_fecha_nacimiento (fw := Ejemplo.fw)
                  (Py.mkdate 2012 6 16))
  /\ CompletarPerfilSerializer.validate_fecha_nacimiento (fw := Ejemplo.fw)
       (Py.mkdate 2012 6 15) = Ok (Py.mkdate 2012 6 15)
  /\ rechazado (DocenteCreateSerializer.validate_fecha_nacimiento (fw := Ejemplo.fw)
                  (Py.mkdate 2025 6 16)).
Proof.
  pose proof (validate_fecha_nacimiento_edad_minima (fw := Ejemplo.fw)
                (Py.mkdate 2007 6 16)) as (_ & _ & D17 & _).
  pose proof (validate_fecha_nacimiento_edad_minima (fw := Ejemplo.fw)
                (Py.mkdate 2007 6 15)) as (_ & _ & _ & D18 & _).
  pose proof (validate_fecha_nacimiento_edad_minima (fw := Ejemplo.fw)
                (Py.mkdate 2012 6 16)) as (_ & _ & _ & _ & P12 & _).
  pose proof (validate_fecha_nacimiento_edad_minima (fw := Ejemplo.fw)
                (Py.mkdate 2012 6 15)) as (_ & _ & _ & _ & _ & P13 & _).
  pose proof (validate_fecha_nacimiento_edad_minima (fw := Ejemplo.fw)
                (Py.mkdate 2025 6 16)) as (_ & _ & _ & _ & _ & _ & F).
  split; [| split; [| split; [| split]]].
  - apply D17. vm_compute. intros H. discriminate H.
  - apply D18. reflexivity.
  - apply P12. vm_compute. intros H. discriminate H.
  - apply P13. reflexivity.
  - apply F. right. simpl. split; [reflexivity |]. right. split; [reflexivity | lia].
Defined.

(** ** The completeness flag of a user *)

Lemma truthy_str_spec (s : string) : Py.truthy_str s = true <-> s <> "".
Proof. destruct s; simpl; split; congruence. Qed.

Lemma truthy_opt_str_spec (o : option string) :
  Py.truthy_opt_str o = true <-> exists s, o = Some s /\ s <> "".
Proof.
  destruct o as [s |]; simpl.
  - rewrite truthy_str_spec. split.
    + intros H. exists s. split; [reflexivity | exact H].
    + intros (s' & E & H). congruence.
  - split; [discriminate | intros (s & E & _); discriminate].
Qed.

Lemma truthy_opt_spec {A : Type} (o : option A) :
  Py.truthy_opt o = true <-> o <> None.
Proof. destruct o; simpl; split; congruence. Qed.

Lemma campos_obligatorios_spec (u : usuarios.fila) :
  forallb (fun campo => campo) (Usuario.campos_obligatorios u) = true
  <-> obligatorios_presentes u.
Proof.
  unfold Usuario.campos_obligatorios, obligatorios_presentes. simpl.
  rewrite !andb_true_iff, !truthy_str_spec, !truthy_opt_str_spec, truthy_opt_spec.
  tauto.
Qed.

Lemma verificar_perfil_completo_coherente (u : usuarios.fila) :
  perfil_coherente (Usuario.verificar_perfil_completo u).
Proof.
  unfold perfil_coherente, Usuario.verificar_perfil_completo.
  unfold usuarios.set_perfil_completo at 1. cbn [usuarios.perfil_completo].
  rewrite campos_obligatorios_spec. unfold obligatorios_presentes. simpl. tauto.
Qed.

Lemma antes_de_guardar_obligatorios {fw : Framework} (u : usuarios.fila) :
  obligatorios_presentes (Usuario.antes_de_guardar u) <-> obligatorios_presentes u.
Proof.
  unfold Usuario.antes_de_guardar, Usuario.verificar_perfil_completo,
    obligatorios_presentes.
  destruct (usuarios.fecha_nacimiento u) eqn:E; simpl; rewrite ?E; tauto.
Qed.

Lemma antes_de_guardar_coherente {fw : Framework} (u : usuarios.fila) :
  perfil_coherente (Usuario.antes_de_guardar u).
Proof. apply verificar_perfil_completo_coherente. Qed.

Lemma perfil_coherente_set_id (k : option Z) (u : usuarios.fila) :
  perfil_coherente u -> perfil_coherente (usuarios.set_id k u).
Proof. unfold perfil_coherente, obligatorios_presentes. simpl. tauto. Qed.

Lemma perfil_coherente_copiar (campos : list string) (desde hacia : usuarios.fila) :
  deja_el_perfil (Some campos) ->
  perfil_coherente hacia -> perfil_coherente (Usuario.copiar_campos campos desde hacia).
Proof.
  intros D. unfold Usuario.copiar_campos, Usuario.de, perfil_coherente, obligatorios_presentes.
  cbn [usuarios.perfil_completo usuarios.first_name usuarios.last_name
       usuarios.fecha_nacimiento usuarios.usuario_unico usuarios.pais].
  rewrite !D by (simpl; tauto). tauto.
Qed.

(** What [super_save] hands back is the instance, with its new id when
    it had none. *)
Lemma super_save_usuario_devuelve (uf : option (list string)) (self u' : usuarios.fila)
    (db db' : DB) :
  Usuario.super_save uf self db = (Ok u', db') ->
  u' = self \/ exists k, u' = usuarios.set_id (Some k) self.
Proof.
  unfold Usuario.super_save. intros H.
  destruct uf as [[| campo campos] |].
  - inversion H. auto.
  - destruct (negb _); [discriminate |].
    destruct (usuarios.id self); [| discriminate].
    destruct (existsb _ _); [| discriminate].
    destruct (existsb _ _); inversion H; auto.
  - destruct (existsb (Usuario.choca self) _); [discriminate |].
    destruct (usuarios.id self).
    + destruct (existsb _ _); inversion H; auto.
    + inversion H. right. eauto.
Qed.

Lemma super_save_usuario_escribe (self u' : usuarios.fila) (db db' : DB) :
  Usuario.super_save None self db = (Ok u', db') -> In u' (t_usuarios db').
Proof.
  unfold Usuario.super_save. intros H.
  destruct (existsb (Usuario.choca self) _); [discriminate |].
  destruct (usuarios.id self) as [k |] eqn:Ek.
  - destruct (existsb _ _) eqn:Ex; inversion H; subst; simpl.
    + apply existsb_exists in Ex. destruct Ex as (r & Hr & Er).
      apply in_map_iff. exists r. rewrite Er. auto.
    + apply in_or_app. right. simpl. auto.
  - inversion H; subst; simpl. apply in_or_app. right. simpl. auto.
Qed.

Lemma super_save_usuario_invariante (uf : option (list string)) (self : usuarios.fila)
    (db : DB) :
  deja_el_perfil uf ->
  perfil_coherente self ->
  Forall perfil_coherente (t_usuarios db) ->
  Forall perfil_coherente (t_usuarios (snd (Usuario.super_save uf self db))).
Proof.
  intros D Hs Hdb. unfold Usuario.super_save.
  destruct uf as [[| campo campos] |].
  - exact Hdb.
  - destruct (negb _); [exact Hdb |].
    destruct (usuarios.id self); [| exact Hdb].
    destruct (existsb _ _); [| exact Hdb].
    destruct (existsb _ _); [exact Hdb |]. simpl.
    apply Forall_forall. intros x Hx. apply in_map_iff in Hx.
    destruct Hx as (r & <- & Hr).
    rewrite Forall_forall in Hdb.
    destruct (id_eqb _ _); [apply perfil_coherente_copiar |]; auto.
  - destruct (existsb (Usuario.choca self) _); [exact Hdb |].
    destruct (usuarios.id self).
    + destruct (existsb _ _); simpl.
      * apply Forall_forall. intros x Hx. apply in_map_iff in Hx.
        destruct Hx as (r & <- & Hr).
        rewrite Forall_forall in Hdb.
        destruct (id_eqb _ _); auto.
      * apply Forall_app. split; [exact Hdb | constructor; auto].
    + simpl. apply Forall_app. split; [exact Hdb |].
      constructor; [apply perfil_coherente_set_id; exact Hs | constructor].
Qed.

(** C3.  Every save of a user recomputes [perfil_completo] as "the five
    mandatory fields are not empty": on the instance before it is
    written, hence on the instance handed back, whatever
    [update_fields] is, and on the row a full save writes; the
    mandatory fields themselves are left as they were, so a save after
    one of them was cleared gives [false] and a save after the last
    missing one was filled gives [true], whatever the flag was.  And if
    every stored row agreed with its fields before the save, every
    stored row does after it, for a save that writes every column and
    for one whose [update_fields] names none of the columns of the
    profile, as [['activo']] does, the only [update_fields] of the
    repository. *)
Theorem save_recalcula_perfil_completo {fw : Framework}
    (update_fields : option (list string)) (self : usuarios.fila) (db : DB) :
  perfil_coherente (Usuario.antes_de_guardar self)
  /\ (forall u' db',
        Usuario.save update_fields self db = (Ok u', db') ->
        (usuarios.perfil_completo u' = true <-> obligatorios_presentes u')
        /\ (obligatorios_presentes u' <-> obligatorios_presentes self)
        /\ (~ obligatorios_presentes self -> usuarios.perfil_completo u' = false)
        /\ (obligatorios_presentes self -> usuarios.perfil_completo u' = true)
        /\ (update_fields = None -> In u' (t_usuarios db')))
  /\ (deja_el_perfil update_fields ->
      Forall perfil_coherente (t_usuarios db) ->
      Forall perfil_coherente
        (t_usuarios (snd (Usuario.save update_fields self db)))).
Proof.
  split; [apply antes_de_guardar_coherente |]. split.
  - intros u' db' H. unfold Usuario.save in H.
    pose proof (antes_de_guardar_coherente self) as Hc.
    pose proof (antes_de_guardar_obligatorios self) as Ho.
    assert (Hu : perfil_coherente u'
                 /\ (obligatorios_presentes u'
                     <-> obligatorios_presentes (Usuario.antes_de_guardar self))).
    { destruct (super_save_usuario_devuelve _ _ _ _ _ H) as [-> | (k & ->)].
      - tauto.
      - split; [apply perfil_coherente_set_id; exact Hc |].
        unfold obligatorios_presentes. simpl. tauto. }
    destruct Hu as [Hu1 Hu2]. unfold perfil_coherente in Hu1.
    split; [exact Hu1 |]. split; [tauto |]. split; [| split].
    + intros Hn. destruct (usuarios.perfil_completo u'); [| reflexivity].
      exfalso. tauto.
    + tauto.
    + intros ->. eapply super_save_usuario_escribe; eassumption.
  - intros D Hdb. unfold Usuario.save.
    apply super_save_usuario_invariante;
      [exact D | apply antes_de_guardar_coherente | exact Hdb].
Qed.

(** The rows of the example agree with their fields. *)
Lemma ejemplo_coherente : Forall perfil_coherente (t_usuarios Ejemplo.db).
Proof.
  assert (C : forall u, usuarios.perfil_completo u = true ->
                        obligatorios_presentes u -> perfil_coherente u)
    by (intros u E O; unfold perfil_coherente; tauto).
  repeat apply Forall_cons; [| | | apply Forall_nil].
  - apply C; [reflexivity |]. unfold obligatorios_presentes. simpl.
    repeat split; try discriminate; eexists; split; try reflexivity; discriminate.
  - apply C; [reflexivity |]. unfold obligatorios_presentes. simpl.
    repeat split; try discriminate; eexists; split; try reflexivity; discriminate.
  - unfold perfil_coherente, obligatorios_presentes. simpl.
    split; [discriminate | intros (_ & _ & N & _); contradiction].
Qed.

(** Saving [ana_sin_pais] turns her flag off, saving [ana_nueva_llena]
    turns hers on, and the rows written say so; saving only [activo]
    from [ana_sin_pais] leaves every stored row in agreement with its
    fields. *)
Lemma save_recalcula_perfil_completo_witness :
  (exists u' db',
     Usuario.save (fw := Ejemplo.fw) None Ejemplo.ana_sin_pais Ejemplo.db = (Ok u', db')
     /\ usuarios.perfil_completo Ejemplo.ana_sin_pais = true
     /\ usuarios.perfil_completo u' = false
     /\ In u' (t_usuarios db'))
  /\ (exists u' db',
        Usuario.save (fw := Ejemplo.fw) None Ejemplo.ana_nueva_llena Ejemplo.db
        = (Ok u', db')
        /\ usuarios.perfil_completo Ejemplo.ana_nueva_llena = false
        /\ usuarios.perfil_completo u' = true
        /\ In u' (t_usuarios db'))
  /\ Forall perfil_coherente
       (t_usuarios (snd (Usuario.save (fw := Ejemplo.fw) (Some ["activo"])
                           Ejemplo.ana_sin_pais Ejemplo.db))).
Proof.
  pose proof (save_recalcula_perfil_completo (fw := Ejemplo.fw) None
                Ejemplo.ana_sin_pais Ejemplo.db) as (_ & A & _).
  pose proof (save_recalcula_perfil_completo (fw := Ejemplo.fw) None
                Ejemplo.ana_nueva_llena Ejemplo.db) as (_ & B & _).
  pose proof (save_recalcula_perfil_completo (fw := Ejemplo.fw) (Some ["activo"])
                Ejemplo.ana_sin_pais Ejemplo.db) as (_ & _ & C).
  split; [| split].
  - eexists. eexists. split; [vm_compute; reflexivity |]. split; [reflexivity |].
    match goal with
    | |- usuarios.perfil_completo ?u = _ /\ In _ (t_usuarios ?d) =>
        destruct (A u d eq_refl) as (_ & _ & A3 & _ & A5)
    end.
    split; [apply A3 | apply A5; reflexivity].
    unfold obligatorios_presentes. simpl.
    intros (_ & _ & _ & _ & (s & E & _)). discriminate E.
  - eexists. eexists. split; [vm_compute; reflexivity |]. split; [reflexivity |].
    match goal with
    | |- usuarios.perfil_completo ?u = _ /\ In _ (t_usuarios ?d) =>
        destruct (B u d eq_refl) as (_ & _ & _ & B4 & B5)
    end.
    split; [apply B4 | apply B5; reflexivity].
    unfold obligatorios_presentes. simpl.
    repeat split; try discriminate; eexists; split; try reflexivity; discriminate.
  - apply C; [| exact ejemplo_coherente].
    intros campo Hc. simpl in Hc.
    destruct Hc as [<- | [<- | [<- | [<- | [<- | [<- | []]]]]]]; reflexivity.
Defined.

(** Where the stored flag is not kept in step: a save whose
    [update_fields] names a mandatory field and not the flag writes the
    field alone.  From [ana_sin_pais], [save(update_fields=['pais'])]
    hands back an instance whose flag is false and leaves her row with
    no country and the flag still true. *)
Lemma save_update_fields_pais_no_escribe_perfil_completo :
  exists u' db' r,
    Usuario.save (fw := Ejemplo.fw) (Some ["pais"]) Ejemplo.ana_sin_pais Ejemplo.db
    = (Ok u', db')
    /\ usuarios.perfil_completo u' = false
    /\ In r (t_usuarios db')
    /\ usuarios.id r = usuarios.id Ejemplo.ana_sin_pais
    /\ usuarios.pais r = None
    /\ usuarios.perfil_completo r = true
    /\ ~ perfil_coherente r.
Proof.
  eexists. eexists. eexists. split; [vm_compute; reflexivity |].
  split; [reflexivity |]. split; [simpl; right; left; reflexivity |].
  split; [reflexivity |]. split; [reflexivity |]. split; [reflexivity |].
  unfold perfil_coherente, obligatorios_presentes. simpl.
  intros [H _]. destruct (H eq_refl) as (_ & _ & _ & _ & (s & E & _)). discriminate E.
Qed.

(** ** Lessons of type video *)

Lemma id_eqb_eq (a b : option Z) : id_eqb a b = true <-> a = b.
Proof.
  unfold id_eqb, Py.opt_eqb. destruct a, b; try (split; congruence).
  rewrite Z.eqb_eq. split; congruence.
Qed.

Lemma id_eqb_refl (a : option Z) : id_eqb a a = true.
Proof. apply id_eqb_eq. reflexivity. Qed.

Lemma sin_video_url_spec (l : lecciones.fila) :
  Py.truthy_opt_str (lecciones.video_url l) = false <-> sin_video_url l.
Proof.
  unfold sin_video_url.
  destruct (lecciones.video_url l) as [[| c s] |]; simpl; split; intros H; auto;
    try discriminate; destruct H; discriminate.
Qed.

Lemma leccion_antes_de_guardar_video (l : lecciones.fila) :
  video_con_url (Leccion.antes_de_guardar l).
Proof.
  unfold video_con_url, Leccion.antes_de_guardar.
  destruct (String.eqb (lecciones.tipo_contenido l) "video") eqn:T; simpl.
  - destruct (Py.truthy_opt_str (lecciones.video_url l)) eqn:U; simpl.
    + intros _. apply truthy_opt_str_spec. exact U.
    + discriminate.
  - intros E. rewrite E in T. discriminate.
Qed.

Lemma leccion_antes_de_guardar_fijo (l : lecciones.fila) :
  video_con_url l -> Leccion.antes_de_guardar l = l.
Proof.
  unfold video_con_url, Leccion.antes_de_guardar. intros H.
  destruct (String.eqb (lecciones.tipo_contenido l) "video") eqn:T; simpl; [| reflexivity].
  apply String.eqb_eq in T. apply H in T. apply truthy_opt_str_spec in T.
  rewrite T. reflexivity.
Qed.

Lemma video_con_url_set_id (k : option Z) (l : lecciones.fila) :
  video_con_url l -> video_con_url (lecciones.set_id k l).
Proof. unfold video_con_url. simpl. tauto. Qed.

Lemma super_save_leccion_devuelve (self l' : lecciones.fila) (db db' : DB) :
  Leccion.super_save self db = (Ok l', db') ->
  (l' = self \/ exists k, lecciones.id self = None /\ l' = lecciones.set_id (Some k) self)
  /\ lecciones.id l' <> None
  /\ In l' (t_lecciones db').
Proof.
  unfold Leccion.super_save. intros H.
  destruct (lecciones.modulo self); [| discriminate].
  destruct (lecciones.orden self <? 0); [discriminate |].
  destruct (existsb _ _); [discriminate |].
  destruct (lecciones.id self) as [k |] eqn:Ek.
  - destruct (existsb _ _) eqn:Ex; inversion H; subst; simpl.
    + split; [auto |]. split; [congruence |].
      apply existsb_exists in Ex. destruct Ex as (r & Hr & Er).
      apply in_map_iff. exists r. rewrite Er. auto.
    + split; [auto |]. split; [congruence |].
      apply in_or_app. right. simpl. auto.
  - inversion H; subst; simpl. split; [right; eauto |]. split; [discriminate |].
    apply in_or_app. right. simpl. auto.
Qed.

Lemma super_save_leccion_invariante (P : lecciones.fila -> Prop) (self : lecciones.fila)
    (db : DB) :
  (forall k, P self -> P (lecciones.set_id k self)) ->
  P self ->
  Forall P (t_lecciones db) ->
  Forall P (t_lecciones (snd (Leccion.super_save self db))).
Proof.
  intros Hid Hs Hdb. unfold Leccion.super_save.
  destruct (lecciones.modulo self); [| exact Hdb].
  destruct (lecciones.orden self <? 0); [exact Hdb |].
  destruct (existsb _ _); [exact Hdb |].
  destruct (lecciones.id self).
  - destruct (existsb _ _); simpl.
    + apply Forall_forall. intros x Hx. apply in_map_iff in Hx.
      destruct Hx as (r & <- & Hr). rewrite Forall_forall in Hdb.
      destruct (id_eqb _ _); auto.
    + apply Forall_app. split; [exact Hdb | constructor; auto].
  - simpl. apply Forall_app. split; [exact Hdb |].
    constructor; [apply Hid; exact Hs | constructor].
Qed.

(** C7.  Saving a lesson of type video that has no video reference
    makes it of type text before it is written; a lesson that is saved
    and saved again comes back unchanged, so its type stays text; the
    lesson handed back and written has a video reference whenever its
    type is video, and if that held of every stored lesson before the
    save it holds of every stored lesson after it. *)
Theorem leccion_save_video_requiere_url (self : lecciones.fila) (db : DB) :
  (lecciones.tipo_contenido self = "video" -> sin_video_url self ->
   lecciones.tipo_contenido (Leccion.antes_de_guardar self) = "texto")
  /\ Leccion.antes_de_guardar (Leccion.antes_de_guardar self)
     = Leccion.antes_de_guardar self
  /\ (forall l' db',
        Leccion.save self db = (Ok l', db') ->
        video_con_url l'
        /\ In l' (t_lecciones db')
        /\ (lecciones.tipo_contenido self = "video" -> sin_video_url self ->
            lecciones.tipo_contenido l' = "texto")
        /\ (forall db2 l'' db'', Leccion.save l' db2 = (Ok l'', db'') -> l'' = l'))
  /\ (Forall video_con_url (t_lecciones db) ->
      Forall video_con_url (t_lecciones (snd (Leccion.save self db)))).
Proof.
  assert (A : lecciones.tipo_contenido self = "video" -> sin_video_url self ->
              lecciones.tipo_contenido (Leccion.antes_de_guardar self) = "texto").
  { intros T U. unfold Leccion.antes_de_guardar.
    apply sin_video_url_spec in U. rewrite T, U. reflexivity. }
  split; [exact A |]. split.
  { apply leccion_antes_de_guardar_fijo, leccion_antes_de_guardar_video. }
  split.
  - intros l' db' H. unfold Leccion.save in H.
    destruct (super_save_leccion_devuelve _ _ _ _ H) as (R & Hid & Hin).
    pose proof (leccion_antes_de_guardar_video self) as V.
    assert (V' : video_con_url l').
    { destruct R as [-> | (k & _ & ->)]; [exact V | apply video_con_url_set_id; exact V]. }
    split; [exact V' |]. split; [exact Hin |]. split.
    + intros T U. destruct R as [-> | (k & _ & ->)]; simpl; auto.
    + intros db2 l'' db'' H2. unfold Leccion.save in H2.
      rewrite (leccion_antes_de_guardar_fijo l' V') in H2.
      destruct (super_save_leccion_devuelve _ _ _ _ H2) as ([-> | (k & N & _)] & _ & _);
        [reflexivity | contradiction].
  - intros Hdb. unfold Leccion.save.
    apply super_save_leccion_invariante;
      [intros k; apply video_con_url_set_id | apply leccion_antes_de_guardar_video | exact Hdb].
Qed.

(** A new lesson of the first module, of type video and without a
    reference, is written as a text lesson. *)
Lemma leccion_save_video_requiere_url_witness :
  exists l' db',
    Leccion.save (lecciones.mk None (Some 1) "Nueva" None "video" (Some "") None None
                    7 false true) Ejemplo.db = (Ok l', db')
    /\ lecciones.tipo_contenido l' = "texto"
    /\ In l' (t_lecciones db').
Proof.
  pose proof (leccion_save_video_requiere_url
                (lecciones.mk None (Some 1) "Nueva" None "video" (Some "") None None
                   7 false true) Ejemplo.db) as (_ & _ & A & _).
  eexists. eexists. split; [vm_compute; reflexivity |].
  match goal with
  | |- lecciones.tipo_contenido ?l = _ /\ In _ (t_lecciones ?d) =>
      destruct (A l d eq_refl) as (_ & Hin & T & _)
  end.
  split; [apply T | exact Hin].
  - reflexivity.
  - right. reflexivity.
Defined.

(** ** Free courses *)

Lemma curso_antes_de_guardar_gratuito (c : cursos.fila) :
  gratuito_a_cero (Curso.antes_de_guardar c).
Proof.
  unfold gratuito_a_cero, Curso.antes_de_guardar.
  destruct (cursos.es_gratuito c) eqn:E; simpl; [reflexivity | congruence].
Qed.

Lemma gratuito_a_cero_set_id (k : option Z) (c : cursos.fila) :
  gratuito_a_cero c -> gratuito_a_cero (cursos.set_id k c).
Proof. unfold gratuito_a_cero. simpl. tauto. Qed.

Lemma super_save_curso_devuelve (self c' : cursos.fila) (db db' : DB) :
  Curso.super_save self db = (Ok c', db') ->
  (c' = self \/ exists k, cursos.id self = None /\ c' = cursos.set_id (Some k) self)
  /\ In c' (t_cursos db').
Proof.
  unfold Curso.super_save. intros H.
  destruct (existsb _ _); [discriminate |].
  destruct (cursos.id self) as [k |] eqn:Ek.
  - destruct (existsb _ _) eqn:Ex; inversion H; subst; simpl.
    + split; [auto |].
      apply existsb_exists in Ex. destruct Ex as (r & Hr & Er).
      apply in_map_iff. exists r. rewrite Er. auto.
    + split; [auto |]. apply in_or_app. right. simpl. auto.
  - inversion H; subst; simpl. split; [right; eauto |].
    apply in_or_app. right. simpl. auto.
Qed.

Lemma super_save_curso_invariante (P : cursos.fila -> Prop) (self : cursos.fila)
    (db : DB) :
  (forall k, P self -> P (cursos.set_id k self)) ->
  P self ->
  Forall P (t_cursos db) ->
  Forall P (t_cursos (snd (Curso.super_save self db))).
Proof.
  intros Hid Hs Hdb. unfold Curso.super_save.
  destruct (existsb _ _); [exact Hdb |].
  destruct (cursos.id self).
  - destruct (existsb _ _); simpl.
    + apply Forall_forall. intros x Hx. apply in_map_iff in Hx.
      destruct Hx as (r & <- & Hr). rewrite Forall_forall in Hdb.
      destruct (id_eqb _ _); auto.
    + apply Forall_app. split; [exact Hdb | constructor; auto].
  - simpl. apply Forall_app. split; [exact Hdb |].
    constructor; [apply Hid; exact Hs | constructor].
Qed.

(** C8.  Every save of a course marked free sets its price to zero,
    whatever price the instance carried: the course handed back and
    written is still marked free and has price zero; and if every
    stored course marked free had price zero before a save, every
    stored course marked free has after it. *)
Theorem curso_save_gratuito_precio_cero (self : cursos.fila) (db : DB) :
  (cursos.es_gratuito self = true -> cursos.precio (Curso.antes_de_guardar self) = 0)
  /\ (forall c' db',
        Curso.save self db = (Ok c', db') ->
        In c' (t_cursos db')
        /\ (cursos.es_gratuito self = true ->
            cursos.es_gratuito c' = true /\ cursos.precio c' = 0))
  /\ (Forall gratuito_a_cero (t_cursos db) ->
      Forall gratuito_a_cero (t_cursos (snd (Curso.save self db)))).
Proof.
  assert (A : cursos.es_gratuito self = true ->
              cursos.es_gratuito (Curso.antes_de_guardar self) = true
              /\ cursos.precio (Curso.antes_de_guardar self) = 0).
  { intros E. unfold Curso.antes_de_guardar. rewrite E. simpl. auto. }
  split; [intros E; apply A; exact E |]. split.
  - intros c' db' H. unfold Curso.save in H.
    destruct (super_save_curso_devuelve _ _ _ _ H) as (R & Hin).
    split; [exact Hin |]. intros E.
    destruct R as [-> | (k & _ & ->)]; simpl; apply A; exact E.
  - intros Hdb. unfold Curso.save.
    apply super_save_curso_invariante;
      [intros k; apply gratuito_a_cero_set_id | apply curso_antes_de_guardar_gratuito | exact Hdb].
Qed.

(** A free course given the price 199.00 is written with price zero. *)
Lemma curso_save_gratuito_precio_cero_witness :
  exists c' db',
    Curso.save (cursos.set_precio 19900 Ejemplo.curso_django) Ejemplo.db = (Ok c', db')
    /\ In c' (t_cursos db')
    /\ cursos.es_gratuito c' = true
    /\ cursos.precio c' = 0.
Proof.
  pose proof (curso_save_gratuito_precio_cero
                (cursos.set_precio 19900 Ejemplo.curso_django) Ejemplo.db) as (_ & A & _).
  eexists. eexists. split; [vm_compute; reflexivity |].
  match goal with
  | |- In ?c (t_cursos ?d) /\ _ => destruct (A c d eq_refl) as (Hin & P)
  end.
  split; [exact Hin | apply P; reflexivity].
Defined.

(** ** The counters of a course *)

(** Two successive [.filter(...)] of a queryset are one filter. *)
Lemma filtro_de_filtro (T : Type) (filas : list T) (primero despues : T -> bool) :
  filter despues (filter primero filas)
  = filter (fun fila => primero fila && despues fila) filas.
Proof.
  induction filas as [| fila filas IH]; simpl; [reflexivity |].
  destruct (primero fila); simpl; [destruct (despues fila) |]; rewrite IH; reflexivity.
Qed.

Lemma existsb_de_filtro (T : Type) (filas : list T) (criterio buscado : T -> bool) :
  existsb buscado (filter criterio filas)
  = existsb (fun fila => buscado fila && criterio fila) filas.
Proof.
  induction filas as [| fila filas IH]; simpl; [reflexivity |].
  destruct (criterio fila); simpl; rewrite IH.
  - rewrite andb_true_r. reflexivity.
  - rewrite andb_false_r. reflexivity.
Qed.

(** Filtering rows keeps their keys distinct. *)
Lemma claves_distintas_filtro (T K : Type) (clave : T -> K) (filas : list T)
    (criterio : T -> bool) :
  NoDup (map clave filas) -> NoDup (map clave (filter criterio filas)).
Proof.
  intros H. induction filas as [| fila filas IH]; simpl; [constructor |].
  simpl in H. apply NoDup_cons_iff in H. destruct H as [Hx Hl].
  destruct (criterio fila); simpl; [| auto].
  apply NoDup_cons; [| auto].
  intros Hin. apply Hx. apply in_map_iff in Hin. destruct Hin as (y & E & Hy).
  apply in_map_iff. exists y. split; [exact E |].
  apply filter_In in Hy. tauto.
Qed.

(** Counting the lessons that pass [p] and belong to one of the modules
    [ms], module by module or in one sweep, is the same when no two of
    the modules share an id. *)
Lemma suma_por_modulo (p : lecciones.fila -> bool) (ls : list lecciones.fila)
    (ms : list modulos.fila) :
  NoDup (map modulos.id ms) ->
  list_sum (map (fun m => List.length
                            (filter (fun l => id_eqb (lecciones.modulo l) (modulos.id m) && p l) ls))
                ms)
  = List.length
      (filter (fun l => p l && existsb (fun m => id_eqb (lecciones.modulo l) (modulos.id m)) ms)
              ls).
Proof.
  induction ms as [| m ms IH]; simpl; intros H.
  - induction ls as [| l ls IHl]; simpl; [reflexivity |].
    rewrite andb_false_r. exact IHl.
  - inversion H as [| ? ? Hm Hms]; subst. rewrite (IH Hms). clear IH.
    induction ls as [| l ls IHl]; simpl; [reflexivity |].
    destruct (id_eqb (lecciones.modulo l) (modulos.id m)) eqn:E; simpl.
    + assert (N : existsb (fun m0 => id_eqb (lecciones.modulo l) (modulos.id m0)) ms = false).
      { destruct (existsb _ ms) eqn:Ex; [| reflexivity]. exfalso.
        apply existsb_exists in Ex. destruct Ex as (m' & Hin & E').
        apply id_eqb_eq in E, E'. apply Hm. apply in_map_iff.
        exists m'. split; [congruence | exact Hin]. }
      rewrite N, andb_true_r, andb_false_r.
      destruct (p l); simpl; (lia || (rewrite <- IHl; lia)).
    + destruct (p l && existsb _ ms); simpl; lia.
Qed.

(** C10.  [total_modulos] of a course is the number of stored modules
    that belong to it and are active, and, in a database whose modules
    have distinct ids, [total_lecciones] is the number of stored lessons
    that are active and belong to an active module of the course:
    modules and lessons that are stored but inactive are not counted. *)
Theorem totales_cuentan_solo_activos (self : cursos.fila) (db : DB) :
  Curso.total_modulos self db
  = List.length (filter (modulo_cuenta self) (t_modulos db))
  /\ (NoDup (map modulos.id (t_modulos db)) ->
      Curso.total_lecciones self db
      = List.length (filter (leccion_cuenta self db) (t_lecciones db))).
Proof.
  split.
  - unfold Curso.total_modulos, Curso.modulos. rewrite filtro_de_filtro. reflexivity.
  - intros H. unfold Curso.total_lecciones, Curso.modulos, Modulo.lecciones.
    rewrite filtro_de_filtro.
    rewrite (map_ext _ (fun m => List.length
               (filter (fun l => id_eqb (lecciones.modulo l) (modulos.id m)
                                 && lecciones.activa l) (t_lecciones db))))
      by (intros m; rewrite filtro_de_filtro; reflexivity).
    rewrite suma_por_modulo by (apply claves_distintas_filtro; exact H).
    f_equal. apply filter_ext. intros l. unfold leccion_cuenta.
    f_equal. rewrite existsb_de_filtro. reflexivity.
Qed.

(** The course of the example has two modules and three lessons stored;
    one module is inactive, and so is one lesson of the active module:
    it counts one module and one lesson. *)
Lemma totales_cuentan_solo_activos_witness :
  Curso.total_modulos Ejemplo.curso_django Ejemplo.db = 1%nat
  /\ Curso.total_lecciones Ejemplo.curso_django Ejemplo.db = 1%nat
  /\ List.length (t_modulos Ejemplo.db) = 2%nat
  /\ List.length (t_lecciones Ejemplo.db) = 3%nat.
Proof.
  assert (N : NoDup (map modulos.id (t_modulos Ejemplo.db))).
  { simpl. repeat constructor; simpl; intuition discriminate. }
  destruct (totales_cuentan_solo_activos Ejemplo.curso_django Ejemplo.db) as [A B].
  rewrite A, (B N). repeat split; reflexivity.
Defined.

(** ** The loop of the name generators *)

Lemma str_of_nat_inj (a b : nat) : Py.str_of_nat a = Py.str_of_nat b -> a = b.
Proof.
  unfold Py.str_of_nat. intros H.
  apply (f_equal NilEmpty.uint_of_string) in H.
  rewrite !NilEmpty.usu in H. injection H as H.
  apply (f_equal Nat.of_uint) in H. rewrite !Unsigned.of_to in H. exact H.
Qed.

Lemma str_of_nat_no_vacio (n : nat) : Py.str_of_nat n <> "".
Proof.
  unfold Py.str_of_nat. intros H.
  apply (f_equal NilEmpty.uint_of_string) in H.
  rewrite NilEmpty.usu in H. simpl in H. injection H as H.
  pose proof (Unsigned.of_to n) as E. rewrite H in E. simpl in E. subst n.
  discriminate H.
Qed.

Lemma append_inj_l (base a b : string) : base ++ a = base ++ b -> a = b.
Proof.
  induction base as [| c base IH]; simpl; intros H; [exact H |].
  injection H as H. auto.
Qed.

Lemma append_vacio (base a : string) : base ++ a = base -> a = "".
Proof.
  induction base as [| c base IH]; simpl; intros H; [exact H |].
  injection H as H. auto.
Qed.

Lemma candidato_inj (base : string) : Injective (candidato base).
Proof.
  intros [| a] [| b] H; simpl in H.
  - reflexivity.
  - symmetry in H. apply append_vacio in H. now apply str_of_nat_no_vacio in H.
  - apply append_vacio in H. now apply str_of_nat_no_vacio in H.
  - apply append_inj_l in H. now apply str_of_nat_inj in H.
Qed.

(** Among the first [n + 1] candidates one is free, when the names that
    are taken are among [n] names. *)
Lemma hay_candidato_libre (ocupado : string -> bool) (base : string)
    (tomados : list string) :
  (forall s, ocupado s = true -> In s tomados) ->
  exists i, (i < S (List.length tomados))%nat /\ ocupado (candidato base i) = false.
Proof.
  intros H.
  destruct (forallb (fun i => ocupado (candidato base i))
                    (seq 0 (S (List.length tomados)))) eqn:F.
  - exfalso.
    assert (I : incl (map (candidato base) (seq 0 (S (List.length tomados)))) tomados).
    { intros s Hs. apply in_map_iff in Hs. destruct Hs as (i & <- & Hi).
      apply H. rewrite forallb_forall in F. apply F. exact Hi. }
    apply NoDup_incl_length in I.
    + rewrite length_map, length_seq in I. lia.
    + apply Injective_map_NoDup; [apply candidato_inj | apply seq_NoDup].
  - assert (E : existsb (fun i => negb (ocupado (candidato base i)))
                        (seq 0 (S (List.length tomados))) = true).
    { clear H. induction (seq 0 (S (List.length tomados))) as [| x l IH]; simpl in *;
        [discriminate |].
      destruct (ocupado (candidato base x)); simpl in *; auto. }
    apply existsb_exists in E. destruct E as (i & Hi & Hf).
    apply in_seq in Hi. exists i. split; [lia |].
    now apply negb_true_iff in Hf.
Qed.

(** With a free candidate within reach of its fuel, the loop stops at
    the first free candidate. *)
Lemma while_ocupado_primero_libre (ocupado : string -> bool) (base : string)
    (fuel j : nat) :
  (exists i, (j <= i < j + fuel)%nat /\ ocupado (candidato base i) = false) ->
  exists k, (j <= k < j + fuel)%nat
            /\ while_ocupado ocupado base fuel (candidato base j) (S j)
               = Some (candidato base k)
            /\ ocupado (candidato base k) = false
            /\ forall i, (j <= i < k)%nat -> ocupado (candidato base i) = true.
Proof.
  revert j. induction fuel as [| fuel IH]; intros j (i & Hi & Hf); [lia |].
  simpl. destruct (ocupado (candidato base j)) eqn:E.
  - destruct (IH (S j)) as (k & Hk & W & Fk & Mk).
    { exists i. split; [| exact Hf].
      assert (i <> j) by (intros ->; congruence). lia. }
    exists k. split; [lia |]. split; [exact W |]. split; [exact Fk |].
    intros i' Hi'. destruct (Nat.eq_dec i' j) as [-> | N]; [exact E |].
    apply Mk. lia.
  - exists j. split; [lia |]. split; [reflexivity |]. split; [exact E |].
    intros i' Hi'. lia.
Qed.

(** The loop, started on the base with as much fuel as there are taken
    names and one more, ends on the first free candidate. *)
Lemma while_ocupado_termina (ocupado : string -> bool) (base : string)
    (tomados : list string) (fuel : nat) :
  (forall s, ocupado s = true -> In s tomados) ->
  (List.length tomados < fuel)%nat ->
  exists k, while_ocupado ocupado base fuel base 1 = Some (candidato base k)
            /\ ocupado (candidato base k) = false
            /\ forall i, (i < k)%nat -> ocupado (candidato base i) = true.
Proof.
  intros H L.
  destruct (hay_candidato_libre ocupado base tomados H) as (i & Hi & Hf).
  destruct (while_ocupado_primero_libre ocupado base fuel 0) as (k & Hk & W & Fk & Mk).
  { exists i. split; [lia | exact Hf]. }
  exists k. split; [exact W |]. split; [exact Fk |].
  intros i' Hi'. apply Mk. lia.
Qed.

(** ** Handle generation *)

Lemma usuario_unico_ocupado_spec (self : usuarios.fila) (db : DB)
    (s : string) :
  Usuario.usuario_unico_ocupado self db s = true <-> lo_tiene_otro self db s.
Proof.
  unfold Usuario.usuario_unico_ocupado, lo_tiene_otro.
  rewrite existsb_exists. split.
  - intros (r & Hr & E). apply andb_true_iff in E. destruct E as [E1 E2].
    exists r. split; [exact Hr |]. split.
    + destruct (usuarios.usuario_unico r) as [u |]; simpl in E1; [| discriminate].
      apply String.eqb_eq in E1. congruence.
    + intros E. apply id_eqb_eq in E. rewrite E in E2. discriminate.
  - intros (r & Hr & E1 & E2). exists r. split; [exact Hr |].
    apply andb_true_iff. split.
    + rewrite E1. simpl. apply String.eqb_refl.
    + apply negb_true_iff. destruct (id_eqb _ _) eqn:E; [| reflexivity].
      apply id_eqb_eq in E. contradiction.
Qed.

Lemma usuario_unico_ocupado_en_tabla (self : usuarios.fila) (db : DB)
    (s : string) :
  Usuario.usuario_unico_ocupado self db s = true ->
  In s (map (fun r => match usuarios.usuario_unico r with Some u => u | None => "" end)
            (t_usuarios db)).
Proof.
  intros H. apply usuario_unico_ocupado_spec in H. destruct H as (r & Hr & E & _).
  apply in_map_iff. exists r. rewrite E. auto.
Qed.

Lemma re_sub_solo_permitidos (s : string) :
  Py.todos Py.permitido (Py.re_sub_no_permitidos s) = true.
Proof.
  induction s as [| c s IH]; simpl; [reflexivity |].
  destruct (Py.permitido c) eqn:E; simpl; [rewrite E |]; exact IH.
Qed.

Lemma re_sub_fijo (s : string) :
  Py.todos Py.permitido s = true -> Py.re_sub_no_permitidos s = s.
Proof.
  induction s as [| c s IH]; simpl; [reflexivity |].
  intros H. apply andb_true_iff in H. destruct H as [Hc Hs].
  rewrite Hc, (IH Hs). reflexivity.
Qed.

Lemma lower_app (a b : string) : Py.lower (a ++ b) = Py.lower a ++ Py.lower b.
Proof. induction a as [| c a IH]; simpl; [| rewrite IH]; reflexivity. Qed.

(** The generator always returns: its fuel is enough. *)
Lemma generar_usuario_unico_termina (self : usuarios.fila)
    (base : option string) (db : DB) :
  let b := Usuario.base_username self base in
  let ocupado := Usuario.usuario_unico_ocupado self db in
  exists k, Usuario.generar_usuario_unico self base db = Some (candidato b k)
            /\ ocupado (candidato b k) = false
            /\ forall i, (i < k)%nat -> ocupado (candidato b i) = true.
Proof.
  intros b ocupado. unfold Usuario.generar_usuario_unico. fold b.
  apply while_ocupado_termina
    with (tomados := map (fun r => match usuarios.usuario_unico r with
                                   | Some u => u | None => "" end) (t_usuarios db)).
  - intros s. apply usuario_unico_ocupado_en_tabla.
  - rewrite length_map. lia.
Qed.

(** C6.  The base handle of [generar_usuario_unico] has no other
    character than [a-z], [0-9], dot and underscore.  When no base is
    passed (or an empty one) it is made of the lowercased names (first
    name, dot, last name; the local part of the e-mail, lowercased,
    when a name is missing) with every other character removed.  A base
    that is passed and not empty is not lowercased: every other
    character is removed from it as it is, its capitals with them.  The
    generator returns (it always does) the base handle itself when no
    other user holds it, and otherwise the base handle followed by the
    smallest counter from 1 on that gives a handle no other user
    holds.  For a user named Ana Gomez, when another user holds
    [ana.gomez] and none holds [ana.gomez1], it returns [ana.gomez1]. *)
Theorem generar_usuario_unico_base_o_menor_contador
    (self : usuarios.fila) (base : option string) (db : DB) :
  let b := Usuario.base_username self base in
  let sin_base := base = None \/ base = Some "" in
  Py.todos Py.permitido b = true
  /\ (forall s, base = Some s -> s <> "" -> b = Py.re_sub_no_permitidos s)
  /\ (sin_base -> usuarios.first_name self <> "" -> usuarios.last_name self <> "" ->
      b = Py.re_sub_no_permitidos
            (Py.lower (usuarios.first_name self ++ "." ++ usuarios.last_name self)))
  /\ (sin_base -> usuarios.first_name self = "" \/ usuarios.last_name self = "" ->
      b = Py.re_sub_no_permitidos (Py.lower (Py.split_arroba_0 (usuarios.email self))))
  /\ (exists r,
        Usuario.generar_usuario_unico self base db = Some r
        /\ ~ lo_tiene_otro self db r
        /\ (~ lo_tiene_otro self db b -> r = b)
        /\ (lo_tiene_otro self db b ->
            exists k, (1 <= k)%nat
                      /\ r = b ++ Py.str_of_nat k
                      /\ forall j, (1 <= j < k)%nat ->
                                   lo_tiene_otro self db (b ++ Py.str_of_nat j)))
  /\ (sin_base -> usuarios.first_name self = "Ana" -> usuarios.last_name self = "Gomez" ->
      lo_tiene_otro self db "ana.gomez" -> ~ lo_tiene_otro self db "ana.gomez1" ->
      Usuario.generar_usuario_unico self base db = Some "ana.gomez1").
Proof.
  intros b sin_base.
  destruct (generar_usuario_unico_termina self base db) as (k & G & Fk & Mk).
  fold b in G, Fk, Mk.
  assert (Nk : ~ lo_tiene_otro self db (candidato b k)).
  { intros H. apply usuario_unico_ocupado_spec in H. congruence. }
  assert (Sb : sin_base -> Py.truthy_opt_str base = false)
    by (intros [-> | ->]; reflexivity).
  split; [apply re_sub_solo_permitidos |]. split; [| split; [| split; [| split]]].
  - intros s -> Ns. subst b. unfold Usuario.base_username.
    apply truthy_str_spec in Ns. simpl. rewrite Ns. reflexivity.
  - intros S F L. subst b. unfold Usuario.base_username. rewrite (Sb S).
    apply truthy_str_spec in F, L. rewrite F, L. simpl.
    rewrite !lower_app. reflexivity.
  - intros S E. subst b. unfold Usuario.base_username. rewrite (Sb S).
    replace (Py.truthy_str (usuarios.first_name self)
             && Py.truthy_str (usuarios.last_name self)) with false; [reflexivity |].
    destruct E as [-> | ->]; simpl; [reflexivity | now rewrite andb_false_r].
  - exists (candidato b k). split; [exact G |]. split; [exact Nk |]. split.
    + intros N. destruct k as [| k]; [reflexivity |]. exfalso. apply N.
      apply usuario_unico_ocupado_spec. apply (Mk 0%nat). lia.
    + intros O. destruct k as [| k]; [contradiction |].
      exists (S k). split; [lia |]. split; [reflexivity |].
      intros j Hj. apply usuario_unico_ocupado_spec.
      specialize (Mk j). destruct j as [| j]; [lia |]. apply Mk. lia.
  - intros S F L O N.
    assert (B : b = "ana.gomez").
    { subst b. unfold Usuario.base_username. rewrite (Sb S), F, L. reflexivity. }
    rewrite B in *. rewrite G.
    destruct k as [| [| k]].
    + contradiction.
    + reflexivity.
    + exfalso. apply N. apply usuario_unico_ocupado_spec. apply (Mk 1%nat). lia.
Qed.

(** In the example database another user holds [ana.gomez] and nobody
    holds [ana.gomez1]: the suggestion for the new Ana Gomez is
    [ana.gomez1]. *)
Lemma generar_usuario_unico_base_o_menor_contador_witness :
  Usuario.generar_usuario_unico Ejemplo.ana_nueva None Ejemplo.db
  = Some "ana.gomez1".
Proof.
  pose proof (generar_usuario_unico_base_o_menor_contador
                Ejemplo.ana_nueva None Ejemplo.db) as (_ & _ & _ & _ & _ & A).
  apply A; try reflexivity.
  - left. reflexivity.
  - exists Ejemplo.otra_ana. split; [simpl; auto |]. split; [reflexivity | discriminate].
  - intros (r & Hr & E & _). simpl in Hr.
    destruct Hr as [<- | [<- | [<- | []]]]; discriminate E.
Defined.

(** C6, as stated, fails for a base that is passed: the base
    [Ana.Perez], whose lowercased form [ana.perez] no user holds, does
    not come back lowercased; the generator returns [na.erez], the
    capitals having been removed. *)
Lemma generar_usuario_unico_base_dada_sin_minusculas :
  Usuario.generar_usuario_unico Ejemplo.ana_nueva (Some "Ana.Perez") Ejemplo.db
  = Some "na.erez"
  /\ Py.re_sub_no_permitidos (Py.lower "Ana.Perez") = "ana.perez"
  /\ ~ lo_tiene_otro Ejemplo.ana_nueva Ejemplo.db "ana.perez"
  /\ Usuario.generar_usuario_unico Ejemplo.ana_nueva (Some "Ana.Perez") Ejemplo.db
     <> Some "ana.perez".
Proof.
  split; [vm_compute; reflexivity |]. split; [reflexivity |]. split.
  - intros (r & Hr & E & _). simpl in Hr.
    destruct Hr as [<- | [<- | [<- | []]]]; discriminate E.
  - vm_compute. discriminate.
Qed.

(** ** Step 1 of the registration *)

Lemma username_ocupado_spec (db : DB) (s : string) :
  RegistroInicialSerializer.username_ocupado db s = true <-> username_tomado db s.
Proof.
  unfold RegistroInicialSerializer.username_ocupado, username_tomado.
  rewrite existsb_exists. split; intros (r & Hr & E); exists r; split; auto.
  - now apply String.eqb_eq in E.
  - now apply String.eqb_eq.
Qed.

Lemma super_save_usuario_inserta (self : usuarios.fila) (db : DB) :
  usuarios.id self = None ->
  usuarios.usuario_unico self = None ->
  ~ username_tomado db (usuarios.username self) ->
  Usuario.super_save None self db
  = (Ok (usuarios.set_id (Some (seq_usuarios db + 1)) self),
     con_usuarios (t_usuarios db ++ [usuarios.set_id (Some (seq_usuarios db + 1)) self])
                  (seq_usuarios db + 1) db).
Proof.
  intros Hid Hu Hn. unfold Usuario.super_save.
  replace (existsb (Usuario.choca self) (t_usuarios db)) with false.
  - rewrite Hid. reflexivity.
  - symmetry. destruct (existsb _ _) eqn:E; [| reflexivity]. exfalso.
    apply existsb_exists in E. destruct E as (r & Hr & C).
    unfold Usuario.choca in C. rewrite Hu in C.
    apply andb_true_iff in C. destruct C as [_ C].
    rewrite orb_false_r in C. apply String.eqb_eq in C.
    apply Hn. exists r. auto.
Qed.

(** C4, as amended.  Step-1 registration with a well-formed e-mail that
    no user has, and with matching passwords of eight characters or
    more that pass the policy, answers 201 and stores a user whose
    [perfil_completo] is false and whose handle [usuario_unico] is left
    null; it is the login name [username] that is made of the local
    part of the lowercased e-mail, followed by the first counter from 1
    on, if any is needed, for which no user has that login name. *)
Theorem registro_inicial_username_derivado {fw : Framework}
    (email password confirm_password : string) (db : DB) :
  EmailField email = true ->
  (forall r, In r (t_usuarios db) -> usuarios.email r <> email) ->
  (8 <= String.length password)%nat ->
  password = confirm_password ->
  validate_password password = true ->
  let base := Py.lower (Py.split_arroba_0 (Py.lower email)) in
  exists u db' k,
    RegistroInicialView.create
      (RegistroInicialSerializer.mk (Some email) (Some password) (Some confirm_password)) db
    = (Ok (mkResponse HTTP_201_CREATED
             (CuerpoPerfil "Registro inicial exitoso. Ahora completa tu perfil." u false)),
       db')
    /\ In u (t_usuarios db')
    /\ usuarios.perfil_completo u = false
    /\ usuarios.usuario_unico u = None
    /\ usuarios.email u = Py.lower email
    /\ usuarios.username u = candidato base k
    /\ ~ username_tomado db (usuarios.username u)
    /\ forall i, (i < k)%nat -> username_tomado db (candidato base i).
Proof.
  intros He Hf Hl Hc Hp base. subst confirm_password.
  destruct (while_ocupado_termina (RegistroInicialSerializer.username_ocupado db) base
              (map usuarios.username (t_usuarios db)) (S (List.length (t_usuarios db))))
    as (k & W & Fk & Mk).
  { intros s Hs. apply username_ocupado_spec in Hs. destruct Hs as (r & Hr & <-).
    now apply in_map. }
  { rewrite length_map. lia. }
  assert (Efresh : existsb (fun r => String.eqb (usuarios.email r) email) (t_usuarios db)
                   = false).
  { destruct (existsb _ _) eqn:E; [| reflexivity]. exfalso.
    apply existsb_exists in E. destruct E as (r & Hr & E).
    apply String.eqb_eq in E. exact (Hf r Hr E). }
  assert (Nk : ~ username_tomado db (candidato base k)).
  { intros H. apply username_ocupado_spec in H. congruence. }
  set (nuevo := RegistroInicialSerializer.set_password password
                  (usuarios.set_perfil_completo false
                     (usuarios.nuevo (candidato base k) (Py.lower email)))).
  exists (usuarios.set_id (Some (seq_usuarios db + 1)) (Usuario.antes_de_guardar nuevo)).
  eexists. exists k.
  split.
  - unfold RegistroInicialView.create, RegistroInicialSerializer.is_valid,
      RegistroInicialSerializer.validate_email, RegistroInicialSerializer.validate,
      RegistroInicialSerializer.create, campo, min_length, bind, ret, leer, raise.
    assert (Tp : Py.truthy_str password = true).
    { destruct password; [simpl in Hl; lia | reflexivity]. }
    apply Nat.leb_le in Hl.
    cbn -[Nat.leb String.length Py.truthy_str while_ocupado Py.lower Py.split_arroba_0
           RegistroInicialSerializer.username_ocupado].
    rewrite He, Efresh. cbn -[Nat.leb String.length Py.truthy_str while_ocupado Py.lower Py.split_arroba_0
           RegistroInicialSerializer.username_ocupado].
    rewrite Hl. cbn -[Nat.leb String.length Py.truthy_str while_ocupado Py.lower Py.split_arroba_0
           RegistroInicialSerializer.username_ocupado].
    rewrite String.eqb_refl, Hp, Tp. cbn -[Nat.leb String.length Py.truthy_str while_ocupado Py.lower Py.split_arroba_0
           RegistroInicialSerializer.username_ocupado].
    fold base. rewrite W.
    unfold Usuario.save. fold nuevo.
    rewrite super_save_usuario_inserta; [reflexivity | reflexivity | reflexivity | exact Nk].
  - split; [simpl; apply in_or_app; right; simpl; auto |].
    split; [reflexivity |]. split; [reflexivity |]. split; [reflexivity |].
    split; [reflexivity |]. split; [exact Nk |].
    intros i Hi. apply username_ocupado_spec. apply Mk. exact Hi.
Qed.

(** The e-mail [Ana@nuevo.pe] in the example database, where the login
    names [ana] and [ana1] are taken: the user stored is [ana2]. *)
Lemma registro_inicial_username_derivado_witness :
  exists u db',
    RegistroInicialView.create (fw := Ejemplo.fw)
      (RegistroInicialSerializer.mk (Some "Ana@nuevo.pe") (Some "Secreta123")
         (Some "Secreta123")) Ejemplo.db
    = (Ok (mkResponse HTTP_201_CREATED
             (CuerpoPerfil "Registro inicial exitoso. Ahora completa tu perfil." u false)),
       db')
    /\ usuarios.usuario_unico u = None
    /\ usuarios.username u = "ana2".
Proof.
  destruct (registro_inicial_username_derivado (fw := Ejemplo.fw)
              "Ana@nuevo.pe" "Secreta123" "Secreta123" Ejemplo.db)
    as (u & db' & k & R & _ & _ & U & _ & N & _ & _).
  - reflexivity.
  - intros r Hr. simpl in Hr.
    destruct Hr as [<- | [<- | [<- | []]]]; discriminate.
  - simpl. lia.
  - reflexivity.
  - reflexivity.
  - exists u, db'. split; [exact R |]. split; [exact U |].
    vm_compute in R. injection R as R _. rewrite <- R. reflexivity.
Defined.

(** C4, as stated, fails: after a step-1 registration with the e-mail
    [maria@nuevo.pe], whose local part nobody holds as a handle, the
    handle of the new user is not [maria]: it is null. *)
Lemma registro_inicial_no_genera_usuario_unico :
  exists u db',
    RegistroInicialView.create (fw := Ejemplo.fw)
      (RegistroInicialSerializer.mk (Some "maria@nuevo.pe") (Some "Secreta123")
         (Some "Secreta123")) Ejemplo.db
    = (Ok (mkResponse HTTP_201_CREATED
             (CuerpoPerfil "Registro inicial exitoso. Ahora completa tu perfil." u false)),
       db')
    /\ usuarios.username u = "maria"
    /\ usuarios.usuario_unico u = None
    /\ usuarios.usuario_unico u <> Some "maria".
Proof.
  eexists. eexists. split; [vm_compute; reflexivity |].
  split; [reflexivity |]. split; [reflexivity | discriminate].
Qed.

(** ** Completing a profile that is already complete *)

Lemma solo_valida_ret {A : Type} (a : A) : solo_valida (ret a).
Proof. intros db. left. exists a. reflexivity. Qed.

Lemma solo_valida_raise {A : Type} (c msg : string) :
  solo_valida (raise (A := A) (ValidationError c msg)).
Proof. intros db. right. exists c, msg. reflexivity. Qed.

Lemma solo_valida_bind {A B : Type} (m : M A) (k : A -> M B) :
  solo_valida m -> (forall a, solo_valida (k a)) -> solo_valida (bind m k).
Proof.
  intros Hm Hk db. unfold bind.
  destruct (Hm db) as [(a & ->) | (c & msg & ->)].
  - apply Hk.
  - right. exists c, msg. reflexivity.
Qed.

Lemma solo_valida_if {A : Type} (b : bool) (m1 m2 : M A) :
  solo_valida m1 -> solo_valida m2 -> solo_valida (if b then m1 else m2).
Proof. destruct b; auto. Qed.

Lemma solo_valida_campo {A : Type} (nombre : string) (requerido parcial : bool)
    (valor : option A) (validar : A -> M A) :
  (forall x, solo_valida (validar x)) ->
  solo_valida (campo nombre requerido parcial valor validar).
Proof.
  intros H. unfold campo. destruct valor as [x |].
  - apply solo_valida_bind; [apply H | intros; apply solo_valida_ret].
  - apply solo_valida_if; [apply solo_valida_raise | apply solo_valida_ret].
Qed.

Lemma solo_valida_max_length (nombre : string) (n : nat) (value : string) :
  solo_valida (max_length nombre n value).
Proof.
  unfold max_length. apply solo_valida_if; [apply solo_valida_ret | apply solo_valida_raise].
Qed.

Lemma solo_valida_leer {A : Type} (k : DB -> M A) :
  (forall db, solo_valida (k db)) -> solo_valida (bind leer k).
Proof. intros H db. unfold bind, leer. apply H. Qed.

Create HintDb valida.
#[local] Hint Resolve solo_valida_ret solo_valida_raise solo_valida_max_length : valida.
#[local] Hint Extern 2 (solo_valida (bind leer _)) => apply solo_valida_leer; intros : valida.
#[local] Hint Extern 3 (solo_valida (bind _ _)) => apply solo_valida_bind; intros : valida.
#[local] Hint Extern 3 (solo_valida (if _ then _ else _)) => apply solo_valida_if : valida.
#[local] Hint Extern 3 (solo_valida (campo _ _ _ _ _)) => apply solo_valida_campo; intros : valida.

Lemma siempre_rechaza_bind {A B : Type} (m : M A) (k : A -> M B) :
  solo_valida m -> (forall a, siempre_rechaza (k a)) -> siempre_rechaza (bind m k).
Proof.
  intros Hm Hk db. unfold bind.
  destruct (Hm db) as [(a & ->) | (c & msg & ->)].
  - apply Hk.
  - exists c, msg. reflexivity.
Qed.

Lemma solo_valida_url_perfil {fw : Framework} (nombre : string) (n : nat) (value : string) :
  solo_valida (CompletarPerfilSerializer.url nombre n value).
Proof. unfold CompletarPerfilSerializer.url. auto 6 with valida. Qed.

Lemma solo_valida_fecha_perfil {fw : Framework} (value : Py.date) :
  solo_valida (CompletarPerfilSerializer.lift
                 (CompletarPerfilSerializer.validate_fecha_nacimiento value)).
Proof.
  intros db. unfold CompletarPerfilSerializer.lift,
    CompletarPerfilSerializer.validate_fecha_nacimiento.
  destruct (Py.date_gt value today); [right; eauto |].
  destruct (_ <? 13); [right; eauto | left; eauto].
Qed.

Lemma solo_valida_usuario_unico (instance : option usuarios.fila) (value : string) :
  solo_valida (CompletarPerfilSerializer.validate_usuario_unico instance value).
Proof. unfold CompletarPerfilSerializer.validate_usuario_unico. auto 6 with valida. Qed.

Lemma solo_valida_telefono (value : string) :
  solo_valida (CompletarPerfilSerializer.campo_telefono value).
Proof. unfold CompletarPerfilSerializer.campo_telefono. auto 6 with valida. Qed.

(** The validation of a profile that is already complete never passes,
    whether the update is partial or not and whatever the data. *)
Lemma is_valid_perfil_completo_rechaza {fw : Framework} (instance : usuarios.fila)
    (partial : bool) (d : CompletarPerfilSerializer.datos) :
  usuarios.perfil_completo instance = true ->
  siempre_rechaza (CompletarPerfilSerializer.is_valid (Some instance) partial d).
Proof.
  intros H. unfold CompletarPerfilSerializer.is_valid.
  repeat (apply siempre_rechaza_bind;
          [ apply solo_valida_campo; intros;
            first [ apply solo_valida_max_length
                  | apply solo_valida_url_perfil
                  | apply solo_valida_fecha_perfil
                  | apply solo_valida_telefono
                  | apply solo_valida_ret
                  | apply solo_valida_bind;
                    [apply solo_valida_max_length | intros; apply solo_valida_usuario_unico] ]
          | intros ]).
  intros db. unfold CompletarPerfilSerializer.validate. rewrite H.
  eexists. eexists. reflexivity.
Qed.

(** On a complete profile every update of the profile-completion view,
    partial or not, is answered with status 400 and writes nothing. *)
Lemma update_perfil_completo_siempre_400 {fw : Framework} (partial : bool)
    (instance : usuarios.fila) (d : CompletarPerfilSerializer.datos) (db : DB) :
  usuarios.perfil_completo instance = true ->
  status_de (fst (CompletarPerfilView.update partial instance d db)) = 400
  /\ snd (CompletarPerfilView.update partial instance d db) = db.
Proof.
  intros H. unfold CompletarPerfilView.update. rewrite H.
  destruct partial; simpl; [| split; reflexivity].
  unfold bind.
  destruct (is_valid_perfil_completo_rechaza instance true d H db) as (c & msg & ->).
  split; reflexivity.
Qed.

(** C5.  The code at the failing input.  [otra_ana] has a complete
    profile.  Her full update (PUT) is answered 400, as the claim says.
    Her partial update (PATCH) of the biography alone is refused too:
    [CompletarPerfilSerializer.validate] raises "El perfil ya está
    completo." whether the update is partial or not, nothing is written
    and no recomputation runs, where the claim has the partial update
    accepted.  The same PATCH by [ana_nueva], whose profile is not
    complete, is accepted. *)
Theorem completar_perfil_patch_rechazado_con_perfil_completo :
  usuarios.perfil_completo Ejemplo.otra_ana = true
  /\ CompletarPerfilView.put (fw := Ejemplo.fw) Ejemplo.otra_ana Ejemplo.solo_biografia
       Ejemplo.db
     = (Ok (mkResponse HTTP_400_BAD_REQUEST
              (CuerpoError "El perfil ya está completo. Usa PATCH para actualizaciones parciales.")),
        Ejemplo.db)
  /\ CompletarPerfilView.patch (fw := Ejemplo.fw) Ejemplo.otra_ana Ejemplo.solo_biografia
       Ejemplo.db
     = (Raise (ValidationError "non_field_errors" "El perfil ya está completo."),
        Ejemplo.db)
  /\ status_de (fst (CompletarPerfilView.patch (fw := Ejemplo.fw) Ejemplo.otra_ana
                       Ejemplo.solo_biografia Ejemplo.db)) = 400
  /\ status_de (fst (CompletarPerfilView.patch (fw := Ejemplo.fw) Ejemplo.ana_nueva
                       Ejemplo.solo_biografia Ejemplo.db)) = 200.
Proof. repeat split; vm_compute; reflexivity. Qed.

(** ** The composite writes *)

(** A module built by [ModuloSerializer] has no course, and the table
    refuses it. *)
Lemma modulo_serializer_save_falla (v : ModuloSerializer.validados) (db : DB) :
  ModuloSerializer.save v db
  = (Raise (IntegrityError "NOT NULL constraint failed: modulos.curso_id"), db).
Proof. reflexivity. Qed.

(** The loop over the modules of a payload raises at its first module. *)
Lemma crear_modulos_falla {fw : Framework} (curso : cursos.fila)
    (modulos_data : list ModuloSerializer.datos) (db : DB) :
  modulos_data <> [] ->
  exists e, CursoViewSet.crear_modulos curso modulos_data db = (Raise e, db).
Proof.
  intros H. destruct modulos_data as [| m resto]; [contradiction |].
  simpl. unfold bind at 1.
  assert (V : solo_valida
                (ModuloSerializer.is_valid
                   (ModuloSerializer.set_curso (o_ (cursos.id curso) 0)
                      (snd (ModuloSerializer.pop_lecciones m))))).
  { unfold ModuloSerializer.is_valid.
    repeat (apply solo_valida_bind; [apply solo_valida_campo; intros | intros]);
      try apply solo_valida_ret.
    - apply solo_valida_bind; [| intros; apply solo_valida_max_length].
      unfold no_vacio. apply solo_valida_if; [apply solo_valida_ret | apply solo_valida_raise].
    - unfold no_negativo. apply solo_valida_if; [apply solo_valida_raise | apply solo_valida_ret]. }
  simpl in V. destruct (V db) as [(v & ->) | (c & msg & ->)].
  - unfold bind. rewrite modulo_serializer_save_falla. eauto.
  - eauto.
Qed.

Lemma crear_modulos_vacio {fw : Framework} (curso : cursos.fila) (db : DB) :
  CursoViewSet.crear_modulos curso [] db = (Ok [], db).
Proof. reflexivity. Qed.

(** When the transaction of [crear_completo] ends without an exception,
    either nothing was attempted (a top-level key is missing: 400) or
    everything was written (201). *)
Lemma crear_completo_atomic_ok {fw : Framework} (request_data : data.request)
    (db db' : DB) (resp : Response) :
  CursoViewSet.crear_completo_atomic request_data db = (Ok resp, db') ->
  (status resp = HTTP_400_BAD_REQUEST /\ db' = db) \/ status resp = HTTP_201_CREATED.
Proof.
  unfold CursoViewSet.crear_completo_atomic.
  destruct (data.curso request_data) as [curso_data |];
    [| intros H; inversion H; subst; left; split; reflexivity].
  destruct (data.modulos request_data) as [modulos_data |];
    [| intros H; inversion H; subst; left; split; reflexivity].
  unfold bind.
  destruct (CursoCreateSerializer.is_valid false curso_data db) as [[v | e] db1];
    [| discriminate].
  destruct (CursoCreateSerializer.create v db1) as [[curso | e] db2]; [| discriminate].
  destruct (CursoViewSet.crear_modulos curso modulos_data db2) as [[ms | e] db3];
    [| discriminate].
  destruct (CursoViewSet.respuesta curso db3) as [[u | e] db4]; [| discriminate].
  intros H. inversion H; subst. right. reflexivity.
Qed.

(** [crear_completo] always answers, and answers 400 or 201. *)
Lemma crear_completo_responde {fw : Framework} (request_data : data.request) (db : DB) :
  exists resp, fst (CursoViewSet.crear_completo request_data db) = Ok resp
               /\ (status resp = HTTP_400_BAD_REQUEST \/ status resp = HTTP_201_CREATED).
Proof.
  unfold CursoViewSet.crear_completo, try_except, atomic.
  destruct (CursoViewSet.crear_completo_atomic request_data db) as [[resp | e] db1] eqn:E.
  - exists resp. split; [reflexivity |].
    destruct (crear_completo_atomic_ok _ _ _ _ E) as [[S _] | S]; auto.
  - eexists. split; [reflexivity |]. left. reflexivity.
Qed.

(** Whatever the request, an answer 400 of [crear_completo] comes with
    the database as it was before the call. *)
Lemma crear_completo_400_sin_cambios {fw : Framework} (request_data : data.request)
    (db db' : DB) (resp : Response) :
  CursoViewSet.crear_completo request_data db = (Ok resp, db') ->
  status resp = HTTP_400_BAD_REQUEST ->
  db' = db.
Proof.
  unfold CursoViewSet.crear_completo, try_except, atomic.
  destruct (CursoViewSet.crear_completo_atomic request_data db) as [[r | e] db1] eqn:E.
  - intros H S. inversion H; subst.
    destruct (crear_completo_atomic_ok _ _ _ _ E) as [[_ D] | S']; [exact D |].
    rewrite S in S'. discriminate.
  - intros H _. inversion H. reflexivity.
Qed.

(** A payload with at least one module is always answered 400, and
    nothing of it is kept. *)
Lemma crear_completo_con_modulos_400 {fw : Framework}
    (curso_data : CursoCreateSerializer.datos)
    (modulos_data : list ModuloSerializer.datos) (db : DB) :
  modulos_data <> [] ->
  CursoViewSet.crear_completo (data.mk (Some curso_data) (Some modulos_data)) db
  = (Ok (mkResponse HTTP_400_BAD_REQUEST (CuerpoError "Error creando curso completo")), db).
Proof.
  intros H.
  unfold CursoViewSet.crear_completo, try_except, atomic,
    CursoViewSet.crear_completo_atomic. simpl.
  unfold bind.
  destruct (CursoCreateSerializer.is_valid false curso_data db) as [[v | e] db1];
    [| reflexivity].
  destruct (CursoCreateSerializer.create v db1) as [[curso | e] db2]; [| reflexivity].
  destruct (crear_modulos_falla curso modulos_data db2 H) as (e & ->). reflexivity.
Qed.

(** C1.  A call of [crear_completo] whose course payload validates and
    in which the payload of some module, or of some lesson of a module,
    does not pass validation, answers with the error status 400 and
    leaves the database exactly as it was before the call.  So does the
    call of the example, in which the second module repeats the [orden]
    of the first.  And whatever the request, a call that answers 400
    leaves the database exactly as it was. *)
Theorem crear_completo_todo_o_nada {fw : Framework}
    (curso_data : CursoCreateSerializer.datos)
    (modulos_data : list ModuloSerializer.datos) (db : DB) :
  let request_data := data.mk (Some curso_data) (Some modulos_data) in
  ((exists v, CursoCreateSerializer.is_valid false curso_data db = (Ok v, db)) ->
   Exists (fun m => modulo_invalido m \/ Exists leccion_invalida (lecciones_de m))
          modulos_data ->
   exists mensaje,
     CursoViewSet.crear_completo request_data db
     = (Ok (mkResponse HTTP_400_BAD_REQUEST (CuerpoError mensaje)), db))
  /\ (forall m1 m2 resto,
        modulos_data = m1 :: m2 :: resto ->
        ModuloSerializer.orden m2 = ModuloSerializer.orden m1 ->
        exists mensaje,
          CursoViewSet.crear_completo request_data db
          = (Ok (mkResponse HTTP_400_BAD_REQUEST (CuerpoError mensaje)), db))
  /\ (forall resp db',
        CursoViewSet.crear_completo request_data db = (Ok resp, db') ->
        status resp = HTTP_400_BAD_REQUEST ->
        db' = db).
Proof.
  intros request_data. split; [| split].
  - intros _ E. eexists. apply crear_completo_con_modulos_400.
    intros ->. inversion E.
  - intros m1 m2 resto -> _. eexists. apply crear_completo_con_modulos_400. discriminate.
  - intros resp db'. apply crear_completo_400_sin_cambios.
Qed.

(** What the transaction of [crear_completo] undoes: run without
    [atomic], the body of the example call leaves the row of the new
    course behind. *)
Lemma crear_completo_sin_atomic_deja_el_curso :
  let request_data :=
    data.mk (Some Ejemplo.curso_data)
      (Some [Ejemplo.modulo_data "Componentes" 1 []; Ejemplo.modulo_data "" 2 []]) in
  List.length (t_cursos Ejemplo.db) = 1%nat
  /\ List.length
       (t_cursos (snd (CursoViewSet.crear_completo_atomic (fw := Ejemplo.fw)
                         request_data Ejemplo.db))) = 2%nat
  /\ snd (CursoViewSet.crear_completo (fw := Ejemplo.fw) request_data Ejemplo.db)
     = Ejemplo.db.
Proof. repeat split; vm_compute; reflexivity. Qed.

(** In the example database: a course that validates with a second
    module whose title is blank, and with a second module that repeats
    the [orden] of the first. *)
Lemma crear_completo_todo_o_nada_witness :
  (exists mensaje,
     CursoViewSet.crear_completo (fw := Ejemplo.fw)
       (data.mk (Some Ejemplo.curso_data)
          (Some [Ejemplo.modulo_data "Componentes" 1
                   [Ejemplo.leccion_data "JSX" 1; Ejemplo.leccion_data "Props" 2];
                 Ejemplo.modulo_data "" 2 [Ejemplo.leccion_data "Estado" 1]]))
       Ejemplo.db
     = (Ok (mkResponse HTTP_400_BAD_REQUEST (CuerpoError mensaje)), Ejemplo.db))
  /\ (exists mensaje,
        CursoViewSet.crear_completo (fw := Ejemplo.fw)
          (data.mk (Some Ejemplo.curso_data)
             (Some [Ejemplo.modulo_data "Componentes" 1
                      [Ejemplo.leccion_data "JSX" 1; Ejemplo.leccion_data "Props" 2];
                    Ejemplo.modulo_data "Estado" 1 [Ejemplo.leccion_data "Hooks" 1]]))
          Ejemplo.db
        = (Ok (mkResponse HTTP_400_BAD_REQUEST (CuerpoError mensaje)), Ejemplo.db)).
Proof.
  split.
  - apply (crear_completo_todo_o_nada (fw := Ejemplo.fw)).
    + eexists. vm_compute. reflexivity.
    + apply Exists_cons_tl. apply Exists_cons_hd. left.
      intros db. eexists. eexists. vm_compute. reflexivity.
  - eapply (crear_completo_todo_o_nada (fw := Ejemplo.fw)); reflexivity.
Defined.

(** A replacement that brings at least one module is always answered
    400, and the modules and lessons of the course stay as they were. *)
Lemma actualizar_completo_con_modulos_400 {fw : Framework}
    (curso_data : option CursoCreateSerializer.datos)
    (modulos_data : list ModuloSerializer.datos) (uuid : string) (db : DB) :
  modulos_data <> [] ->
  CursoViewSet.actualizar_completo (data.mk curso_data (Some modulos_data)) uuid db
  = (Ok (mkResponse HTTP_400_BAD_REQUEST (CuerpoError "Error actualizando curso")), db).
Proof.
  intros H.
  unfold CursoViewSet.actualizar_completo, try_except, atomic,
    CursoViewSet.actualizar_completo_atomic. simpl.
  unfold bind at 1.
  destruct (CursoViewSet.get_object uuid db) as [[curso | e] db1]; [| reflexivity].
  unfold bind at 1.
  destruct (match curso_data with
            | Some c => _
            | None => ret curso
            end db1) as [[curso' | e] db2]; [| reflexivity].
  unfold bind.
  destruct (Curso.modulos_all_delete curso' db2) as [[u | e] db3]; [| reflexivity].
  destruct (crear_modulos_falla curso' modulos_data db3 H) as (e & ->). reflexivity.
Qed.

(** Steps that leave the tables of modules and lessons as they are. *)
Lemma cursos_save_conserva_modulos (self : cursos.fila) (db : DB) :
  t_modulos (snd (Curso.save self db)) = t_modulos db
  /\ t_lecciones (snd (Curso.save self db)) = t_lecciones db.
Proof.
  unfold Curso.save, Curso.super_save.
  destruct (existsb _ _); [split; reflexivity |].
  destruct (cursos.id _); [destruct (existsb _ _) |]; split; reflexivity.
Qed.

Lemma solo_valida_curso_is_valid_conserva {fw : Framework} (partial : bool)
    (d : CursoCreateSerializer.datos) (db : DB) :
  snd (CursoCreateSerializer.is_valid partial d db) = db.
Proof.
  assert (B : forall (A B : Type) (m : M A) (k : A -> M B),
             (forall db, snd (m db) = db) -> (forall a db, snd (k a db) = db) ->
             forall db, snd (bind m k db) = db).
  { intros A B m k Hm Hk db0. unfold bind. specialize (Hm db0).
    destruct (m db0) as [[a | e] db1]; simpl in Hm; subst; [apply Hk | reflexivity]. }
  assert (C : forall (A : Type) (n : string) (r p : bool) (v : option A) (f : A -> M A),
             (forall x db, snd (f x db) = db) ->
             forall db, snd (campo n r p v f db) = db).
  { intros A n r p v f Hf db0. unfold campo. destruct v as [x |].
    - apply B; [apply Hf | reflexivity].
    - destruct (r && negb p); reflexivity. }
  assert (L : forall n k s db, snd (max_length n k s db) = db).
  { intros. unfold max_length. destruct (_ <=? _)%nat; reflexivity. }
  assert (U : forall n k s db, snd (CursoCreateSerializer.url n k s db) = db).
  { intros. unfold CursoCreateSerializer.url.
    destruct (Py.truthy_str s); [| reflexivity].
    destruct (URLValidator s); [apply L | reflexivity]. }
  revert db. unfold CursoCreateSerializer.is_valid.
  repeat (apply B; [apply C; intros | intros]); try reflexivity; try apply L; try apply U.
  - apply B; [| intros; apply L]. intros. unfold no_vacio.
    destruct (Py.truthy_str _); reflexivity.
  - unfold no_vacio. destruct (Py.truthy_str _); reflexivity.
  - unfold CursoCreateSerializer.campo_categoria, bind, leer.
    destruct (existsb _ _); reflexivity.
  - unfold CursoCreateSerializer.campo_docente_principal, bind, leer.
    destruct (find _ _); [| reflexivity].
    unfold CursoCreateSerializer.validate_docente_principal, bind, leer.
    destruct (Docente.usuario_de _ _); [| reflexivity].
    destruct (negb _); [reflexivity |].
    destruct (negb _); [reflexivity |].
    destruct (negb _); reflexivity.
  - unfold CursoCreateSerializer.campo_precio. destruct (_ <? _); reflexivity.
  - unfold opcion. destruct (existsb _ _); reflexivity.
Qed.

Lemma conserva_ret {A : Type} (a : A) : conserva_contenido (ret a).
Proof. intros db. split; reflexivity. Qed.

Lemma conserva_raise {A : Type} (e : excepcion) : conserva_contenido (raise (A := A) e).
Proof. intros db. split; reflexivity. Qed.

Lemma conserva_bind {A B : Type} (m : M A) (k : A -> M B) :
  conserva_contenido m -> (forall a, conserva_contenido (k a)) ->
  conserva_contenido (bind m k).
Proof.
  intros Hm Hk db. unfold bind. specialize (Hm db).
  destruct (m db) as [[a | e] db1]; simpl in Hm.
  - destruct (Hk a db1) as [K1 K2]. destruct Hm as [M1 M2]. split; congruence.
  - exact Hm.
Qed.

Lemma conserva_atomic {A : Type} (m : M A) :
  conserva_contenido m -> conserva_contenido (atomic m).
Proof.
  intros Hm db. unfold atomic. specialize (Hm db).
  destruct (m db) as [[a | e] db1]; simpl in *; auto.
Qed.

Lemma conserva_try_except {A : Type} (m : M A) (h : excepcion -> M A) :
  conserva_contenido m -> (forall e, conserva_contenido (h e)) ->
  conserva_contenido (try_except m h).
Proof.
  intros Hm Hh db. unfold try_except. specialize (Hm db).
  destruct (m db) as [[a | e] db1]; simpl in Hm; [exact Hm |].
  destruct (Hh e db1) as [K1 K2]. destruct Hm as [M1 M2]. split; congruence.
Qed.

Lemma conserva_sin_escribir {A : Type} (m : M A) :
  (forall db, snd (m db) = db) -> conserva_contenido m.
Proof. intros H db. rewrite H. split; reflexivity. Qed.

Lemma conserva_curso_save (self : cursos.fila) : conserva_contenido (Curso.save self).
Proof. intros db. apply cursos_save_conserva_modulos. Qed.

Lemma conserva_get_object (uuid : string) :
  conserva_contenido (CursoViewSet.get_object uuid).
Proof.
  apply conserva_sin_escribir. intros db.
  unfold CursoViewSet.get_object, bind, leer. destruct (find _ _); reflexivity.
Qed.

Lemma conserva_respuesta {fw : Framework} (curso : cursos.fila) :
  conserva_contenido (CursoViewSet.respuesta curso).
Proof.
  apply conserva_sin_escribir. intros db.
  unfold CursoViewSet.respuesta, bind, leer. destruct (find _ _); reflexivity.
Qed.

(** Without the key [modulos], the modules and the lessons stored are
    the same after [actualizar_completo] as before, whatever else the
    call does. *)
Lemma actualizar_completo_sin_modulos {fw : Framework}
    (curso_data : option CursoCreateSerializer.datos) (uuid : string) :
  conserva_contenido (CursoViewSet.actualizar_completo (data.mk curso_data None) uuid).
Proof.
  unfold CursoViewSet.actualizar_completo, CursoViewSet.actualizar_completo_atomic.
  apply conserva_try_except; [| intros; apply conserva_ret].
  apply conserva_atomic.
  apply conserva_bind; [apply conserva_get_object | intros curso].
  apply conserva_bind.
  - simpl. destruct curso_data as [c |]; [| apply conserva_ret].
    apply conserva_bind.
    + apply conserva_sin_escribir. apply solo_valida_curso_is_valid_conserva.
    + intros v. unfold CursoCreateSerializer.update. apply conserva_curso_save.
  - intros curso'. simpl.
    apply conserva_bind; [apply conserva_ret | intros _].
    apply conserva_bind; [apply conserva_respuesta | intros _; apply conserva_ret].
Qed.

(** C2.  The code at the failing input.  The course of the example has
    two modules.  Replacing them by one new module is answered 400: the
    module built by [ModuloSerializer] has no course ([curso] is not a
    field of the serializer, so the key the view adds is dropped) and
    its insertion raises inside the transaction, which undoes the
    deletion.  The two original modules and their three lessons are
    still there, where the claim has exactly the one new module.
    Replacing them by no module at all does delete them and their
    lessons. *)
Theorem actualizar_completo_un_modulo_no_reemplaza :
  let un_modulo := data.mk None (Some [Ejemplo.modulo_data "Nuevo" 1 []]) in
  let ninguno := data.mk None (Some []) in
  Curso.modulos Ejemplo.curso_django Ejemplo.db = [Ejemplo.modulo_1; Ejemplo.modulo_2]
  /\ fst (CursoViewSet.actualizar_completo_atomic (fw := Ejemplo.fw) un_modulo
            Ejemplo.uuid_django Ejemplo.db)
     = Raise (IntegrityError "NOT NULL constraint failed: modulos.curso_id")
  /\ CursoViewSet.actualizar_completo (fw := Ejemplo.fw) un_modulo Ejemplo.uuid_django
       Ejemplo.db
     = (Ok (mkResponse HTTP_400_BAD_REQUEST (CuerpoError "Error actualizando curso")),
        Ejemplo.db)
  /\ Curso.modulos Ejemplo.curso_django
       (snd (CursoViewSet.actualizar_completo (fw := Ejemplo.fw) un_modulo
               Ejemplo.uuid_django Ejemplo.db))
     = [Ejemplo.modulo_1; Ejemplo.modulo_2]
  /\ status_de (fst (CursoViewSet.actualizar_completo (fw := Ejemplo.fw) ninguno
                       Ejemplo.uuid_django Ejemplo.db)) = 200
  /\ t_modulos (snd (CursoViewSet.actualizar_completo (fw := Ejemplo.fw) ninguno
                       Ejemplo.uuid_django Ejemplo.db)) = []
  /\ t_lecciones (snd (CursoViewSet.actualizar_completo (fw := Ejemplo.fw) ninguno
                         Ejemplo.uuid_django Ejemplo.db)) = [].
Proof. repeat split; vm_compute; reflexivity. Qed.

(** With no module in the payload the same call goes through: the
    course is written and the answer is 201. *)
Lemma crear_completo_sin_modulos_crea_el_curso :
  let request_data := data.mk (Some Ejemplo.curso_data) (Some []) in
  status_de (fst (CursoViewSet.crear_completo (fw := Ejemplo.fw) request_data Ejemplo.db))
  = 201
  /\ map cursos.titulo
       (t_cursos (snd (CursoViewSet.crear_completo (fw := Ejemplo.fw) request_data
                         Ejemplo.db)))
     = ["Django"; "React"].
Proof. split; vm_compute; reflexivity. Qed.

(* ================================================================== *)
(** * More properties *)
(* ================================================================== *)

(** ** Creating a module with its lessons *)

Lemma solo_valida_modulo_is_valid (d : ModuloSerializer.datos) :
  solo_valida (ModuloSerializer.is_valid d).
Proof.
  unfold ModuloSerializer.is_valid.
  repeat (apply solo_valida_bind; [apply solo_valida_campo; intros | intros]);
    try apply solo_valida_ret.
  - apply solo_valida_bind; [| intros; apply solo_valida_max_length].
    unfold no_vacio. apply solo_valida_if; [apply solo_valida_ret | apply solo_valida_raise].
  - unfold no_negativo. apply solo_valida_if; [apply solo_valida_raise | apply solo_valida_ret].
Qed.

(** X1.  [crear_con_lecciones] never creates anything: whatever the
    request, also one that names its course, and however the answer
    would be rendered, it is answered 400 and the database is left as
    it was.  The module built by [ModuloSerializer] has no course. *)
Theorem crear_con_lecciones_siempre_400 {fw : Framework}
    (render : DB -> modulos.fila -> resultado unit)
    (request_data : ModuloSerializer.datos) (db : DB) :
  ModuloViewSet.crear_con_lecciones render request_data db
  = (Ok (ModuloViewSet.Error400 "Error creando módulo"), db).
Proof.
  unfold ModuloViewSet.crear_con_lecciones, try_except, atomic,
    ModuloViewSet.crear_con_lecciones_atomic.
  simpl. unfold bind at 1.
  destruct (solo_valida_modulo_is_valid
              (ModuloSerializer.mk (ModuloSerializer.titulo request_data)
                 (ModuloSerializer.descripcion request_data)
                 (ModuloSerializer.orden request_data) None
                 (ModuloSerializer.curso request_data)) db)
    as [(v & ->) | (c & msg & ->)]; [| reflexivity].
  unfold bind. rewrite modulo_serializer_save_falla. reflexivity.
Qed.

(** ** Reading a successful run backwards *)

Lemma bind_ok_inv {A B : Type} (m : M A) (k : A -> M B) (db db' : DB) (b : B) :
  bind m k db = (Ok b, db') ->
  exists a db1, m db = (Ok a, db1) /\ k a db1 = (Ok b, db').
Proof.
  unfold bind. destruct (m db) as [[a | e] db1]; [eauto | discriminate].
Qed.

Lemma ret_ok_inv {A : Type} (a b : A) (db db' : DB) :
  ret a db = (Ok b, db') -> b = a /\ db' = db.
Proof. unfold ret. intros H. inversion H. auto. Qed.

Lemma campo_ok_inv {A : Type} (nombre : string) (requerido parcial : bool)
    (valor : option A) (validar : A -> M A) (db db' : DB) (r : option A) :
  campo nombre requerido parcial valor validar db = (Ok r, db') ->
  (valor = None /\ r = None /\ db' = db /\ (requerido = false \/ parcial = true))
  \/ (exists x y, valor = Some x /\ r = Some y /\ validar x db = (Ok y, db')).
Proof.
  unfold campo. destruct valor as [x |].
  - intros H. apply bind_ok_inv in H. destruct H as (y & db1 & V & R).
    apply ret_ok_inv in R. destruct R as [-> ->]. right. eauto.
  - destruct requerido, parcial; simpl; intros H; inversion H; left; auto.
Qed.

Lemma no_vacio_ok_inv (nombre value y : string) (db db' : DB) :
  no_vacio nombre value db = (Ok y, db') -> y = value /\ db' = db /\ value <> "".
Proof.
  unfold no_vacio. destruct value; simpl; intros H; inversion H.
  repeat split; congruence.
Qed.

Lemma max_length_ok_inv (nombre : string) (n : nat) (value y : string) (db db' : DB) :
  max_length nombre n value db = (Ok y, db') ->
  y = value /\ db' = db /\ (String.length value <= n)%nat.
Proof.
  unfold max_length. destruct (_ <=? _)%nat eqn:E; intros H; inversion H; subst.
  apply Nat.leb_le in E. auto.
Qed.

(** Decompose a hypothesis that says a chain of [bind]s returned. *)
Ltac inv_bind H :=
  let a := fresh "a" in
  let dbi := fresh "dbi" in
  let H1 := fresh "Hm" in
  apply bind_ok_inv in H; destruct H as (a & dbi & H1 & H).

(** ** The answers of the composite endpoints *)

Lemma curso_super_save_ok (self c : cursos.fila) (db db' : DB) :
  cursos.id self = None ->
  Curso.super_save self db = (Ok c, db') ->
  c = cursos.set_id (Some (seq_cursos db + 1)) self
  /\ db' = con_cursos (t_cursos db ++ [c]) (seq_cursos db + 1) db.
Proof.
  unfold Curso.super_save. intros Hid.
  destruct (existsb _ _); [discriminate |].
  rewrite Hid. intros H. inversion H. split; reflexivity.
Qed.

Lemma respuesta_sin_escribir {fw : Framework} (curso : cursos.fila) (db : DB) :
  snd (CursoViewSet.respuesta curso db) = db.
Proof.
  unfold CursoViewSet.respuesta, bind, leer. destruct (find _ _); reflexivity.
Qed.

(** X2.  [crear_completo] answers 201 only for a request that brings
    the course, an empty list of modules and nothing else to create:
    then exactly one course is added, with a new id, active, with the
    title given and with price zero if it is free, and no module, lesson
    or user is touched.  The title given is the value as the field of
    the serializer hands it on, that is, the title of the request
    without the blanks around it. *)
Theorem crear_completo_201_solo_el_curso {fw : Framework}
    (request_data : data.request) (db db' : DB) (resp : Response) :
  CursoViewSet.crear_completo request_data db = (Ok resp, db') ->
  status resp = HTTP_201_CREATED ->
  exists curso_data c,
    data.curso request_data = Some curso_data
    /\ data.modulos request_data = Some []
    /\ t_cursos db' = (t_cursos db ++ [c])%list
    /\ cursos.id c = Some (seq_cursos db + 1)
    /\ Some (cursos.titulo c) = CursoCreateSerializer.titulo curso_data
    /\ cursos.titulo c <> ""
    /\ cursos.activo c = true
    /\ (cursos.es_gratuito c = true -> cursos.precio c = 0)
    /\ t_modulos db' = t_modulos db
    /\ t_lecciones db' = t_lecciones db
    /\ t_usuarios db' = t_usuarios db
    /\ t_docentes db' = t_docentes db.
Proof.
  unfold CursoViewSet.crear_completo, try_except, atomic.
  destruct (CursoViewSet.crear_completo_atomic request_data db) as [[r | e] db1] eqn:E;
    [| intros H S; inversion H; subst; discriminate S].
  intros H S. inversion H; subst. clear H.
  unfold CursoViewSet.crear_completo_atomic in E.
  destruct (data.curso request_data) as [curso_data |];
    [| inversion E; subst; discriminate S].
  destruct (data.modulos request_data) as [modulos_data |];
    [| inversion E; subst; discriminate S].
  inv_bind E. rename a into v. rename Hm into V.
  inv_bind E. rename a into c. rename Hm into C.
  inv_bind E. rename Hm into Ms.
  inv_bind E. rename Hm into R.
  apply ret_ok_inv in E. destruct E as [_ ->].
  pose proof (solo_valida_curso_is_valid_conserva false curso_data db) as Vdb.
  rewrite V in Vdb. simpl in Vdb. subst dbi.
  destruct modulos_data as [| m resto];
    [| destruct (crear_modulos_falla c (m :: resto) dbi0) as (e & F);
       [discriminate | rewrite F in Ms; discriminate]].
  simpl in Ms. apply ret_ok_inv in Ms. destruct Ms as [_ ->].
  pose proof (respuesta_sin_escribir c dbi0) as Rdb. rewrite R in Rdb. simpl in Rdb.
  subst dbi2.
  (* the title that was validated *)
  assert (T : exists t, CursoCreateSerializer.titulo curso_data = Some t
                        /\ CursoCreateSerializer.titulo v = Some t /\ t <> "").
  { unfold CursoCreateSerializer.is_valid in V.
    inv_bind V. rename Hm into F1.
    apply campo_ok_inv in F1.
    destruct F1 as [(_ & _ & _ & [N | N]) | (x & y & E1 & E2 & F1)]; try discriminate.
    inv_bind F1. apply no_vacio_ok_inv in Hm. destruct Hm as (-> & -> & Nv).
    apply max_length_ok_inv in F1. destruct F1 as (-> & -> & _).
    repeat (inv_bind V; clear Hm). apply ret_ok_inv in V. destruct V as [-> _].
    exists x. subst. auto. }
  destruct T as (t & T1 & T2 & T3).
  unfold CursoCreateSerializer.create, bind, leer in C.
  unfold Curso.save in C.
  apply curso_super_save_ok in C;
    [| unfold Curso.antes_de_guardar; destruct (o_ _ true); reflexivity].
  destruct C as [-> ->].
  exists curso_data. eexists. split; [reflexivity |]. split; [reflexivity |].
  split; [reflexivity |]. split; [reflexivity |].
  rewrite T1, T2. unfold Curso.antes_de_guardar. simpl.
  destruct (o_ (CursoCreateSerializer.es_gratuito v) true) eqn:G; simpl;
    repeat split; try reflexivity; try assumption; try congruence.
Qed.


(** In the example database the course alone is created. *)
Lemma crear_completo_201_solo_el_curso_witness :
  exists c,
    t_cursos (snd (CursoViewSet.crear_completo (fw := Ejemplo.fw)
                     (data.mk (Some Ejemplo.curso_data) (Some [])) Ejemplo.db))
    = (t_cursos Ejemplo.db ++ [c])%list
    /\ cursos.id c = Some 2
    /\ cursos.titulo c <> "".
Proof.
  pose proof (crear_completo_201_solo_el_curso (fw := Ejemplo.fw)
                (data.mk (Some Ejemplo.curso_data) (Some [])) Ejemplo.db
                (snd (CursoViewSet.crear_completo (fw := Ejemplo.fw)
                        (data.mk (Some Ejemplo.curso_data) (Some [])) Ejemplo.db))
                (mkResponse HTTP_201_CREATED (CuerpoCurso "creado exitosamente" 2))) as H.
  destruct H as (d & c & _ & _ & A & B & _ & C & _); [vm_compute; reflexivity | reflexivity |].
  exists c. auto.
Defined.

Lemma find_ninguno {A : Type} (f : A -> bool) (l : list A) :
  (forall x, In x l -> f x = false) -> find f l = None.
Proof.
  induction l as [| x l IH]; simpl; intros H; [reflexivity |].
  rewrite (H x) by auto. apply IH. intros y Hy. apply H. auto.
Qed.

(** When the transaction of [actualizar_completo] ends without an
    exception the answer is 200, the list of modules, if any came, was
    empty, and the course was found active under its uuid. *)
Lemma actualizar_completo_atomic_ok {fw : Framework} (request_data : data.request)
    (uuid : string) (db db' : DB) (resp : Response) :
  CursoViewSet.actualizar_completo_atomic request_data uuid db = (Ok resp, db') ->
  status resp = HTTP_200_OK
  /\ (data.modulos request_data = None \/ data.modulos request_data = Some [])
  /\ exists c, In c (t_cursos db) /\ cursos.activo c = true /\ cursos.uuid c = uuid.
Proof.
  unfold CursoViewSet.actualizar_completo_atomic. intros H.
  inv_bind H. rename a into c. rename Hm into G.
  inv_bind H. rename a into c'. rename Hm into U.
  inv_bind H. rename Hm into Ms.
  inv_bind H. apply ret_ok_inv in H. destruct H as [-> _].
  split; [reflexivity |]. split.
  - destruct (data.modulos request_data) as [[| m resto] |]; auto.
    exfalso. inv_bind Ms. inv_bind Ms.
    destruct (crear_modulos_falla c' (m :: resto) dbi3) as (e & F); [discriminate |].
    rewrite F in Hm1. discriminate.
  - unfold CursoViewSet.get_object, bind, leer in G.
    destruct (find _ (t_cursos db)) as [c0 |] eqn:F; [| discriminate].
    inversion G; subst. apply find_some in F. destruct F as [Hin F].
    apply andb_true_iff in F. destruct F as [F1 F2]. apply String.eqb_eq in F2.
    exists c. auto.
Qed.

(** X3.  [actualizar_completo] never lets an exception out and answers
    200 or 400 only.  For a uuid under which no active course is stored
    the answer is 400, not 404.  Every answer 400 leaves the database
    as it was.  An answer 200 is given only for a course found active
    under the uuid and for a request without modules or with an empty
    list of them. *)
Theorem actualizar_completo_200_o_400 {fw : Framework} (request_data : data.request)
    (uuid : string) (db : DB) :
  (exists resp,
     fst (CursoViewSet.actualizar_completo request_data uuid db) = Ok resp
     /\ (status resp = HTTP_200_OK \/ status resp = HTTP_400_BAD_REQUEST))
  /\ ((forall c, In c (t_cursos db) -> cursos.activo c = true -> cursos.uuid c <> uuid) ->
      CursoViewSet.actualizar_completo request_data uuid db
      = (Ok (mkResponse HTTP_400_BAD_REQUEST (CuerpoError "Error actualizando curso")), db))
  /\ (forall resp db',
        CursoViewSet.actualizar_completo request_data uuid db = (Ok resp, db') ->
        status resp = HTTP_400_BAD_REQUEST -> db' = db)
  /\ (forall resp db',
        CursoViewSet.actualizar_completo request_data uuid db = (Ok resp, db') ->
        status resp = HTTP_200_OK ->
        (data.modulos request_data = None \/ data.modulos request_data = Some [])
        /\ exists c, In c (t_cursos db) /\ cursos.activo c = true /\ cursos.uuid c = uuid).
Proof.
  unfold CursoViewSet.actualizar_completo, try_except, atomic.
  destruct (CursoViewSet.actualizar_completo_atomic request_data uuid db)
    as [[r | e] db1] eqn:E.
  - destruct (actualizar_completo_atomic_ok _ _ _ _ _ E) as (S & Ms & C).
    split; [exists r; auto |]. split; [| split].
    + intros N. exfalso. destruct C as (c & Hin & A & U). exact (N c Hin A U).
    + intros resp db' H S'. inversion H; subst. rewrite S in S'. discriminate.
    + intros resp db' H _. inversion H; subst. auto.
  - split; [eexists; split; [reflexivity | right; reflexivity] |].
    split; [reflexivity |]. split.
    + intros resp db' H _. inversion H. reflexivity.
    + intros resp db' H S. inversion H; subst. discriminate S.
Qed.

(** In the example database there is no course under [uuid-9]; and
    the empty replacement of the course [uuid-1] is answered 200. *)
Lemma actualizar_completo_200_o_400_witness :
  CursoViewSet.actualizar_completo (fw := Ejemplo.fw)
    (data.mk (Some Ejemplo.curso_data) None) "uuid-9" Ejemplo.db
  = (Ok (mkResponse HTTP_400_BAD_REQUEST (CuerpoError "Error actualizando curso")),
     Ejemplo.db)
  /\ exists c, In c (t_cursos Ejemplo.db) /\ cursos.activo c = true
               /\ cursos.uuid c = Ejemplo.uuid_django.
Proof.
  pose proof (actualizar_completo_200_o_400 (fw := Ejemplo.fw)
                (data.mk (Some Ejemplo.curso_data) None) "uuid-9" Ejemplo.db)
    as (_ & A & _).
  pose proof (actualizar_completo_200_o_400 (fw := Ejemplo.fw)
                (data.mk None (Some [])) Ejemplo.uuid_django Ejemplo.db)
    as (_ & _ & _ & B).
  split.
  - apply A. intros c Hin _. simpl in Hin. destruct Hin as [<- | []]. discriminate.
  - eapply B; [vm_compute; reflexivity | reflexivity].
Defined.

(** ** Deleting the modules of a course *)

Lemma filtro_contrario (T : Type) (filas : list T) (criterio : T -> bool) :
  filter (fun fila => negb (criterio fila) && criterio fila) filas = [].
Proof.
  induction filas as [| fila filas IH]; simpl; [reflexivity |].
  destruct (criterio fila); simpl; exact IH.
Qed.

(** X4.  [curso.modulos.all().delete()] leaves the course without
    modules and keeps exactly the modules of the other courses; the
    lessons that remain are lessons that were there, none of them of a
    module that was deleted; when every lesson had its module before,
    every lesson that remains still has its module; and in a table
    whose modules have distinct ids, every lesson of a module that
    remains is kept.  Courses and users are not touched. *)
Theorem modulos_all_delete_cascada (self : cursos.fila) (db : DB) :
  let db' := snd (Curso.modulos_all_delete self db) in
  fst (Curso.modulos_all_delete self db) = Ok tt
  /\ Curso.modulos self db' = []
  /\ (forall m, In m (t_modulos db')
                <-> In m (t_modulos db) /\ modulos.curso m <> cursos.id self)
  /\ (forall l, In l (t_lecciones db') ->
                In l (t_lecciones db)
                /\ forall m, In m (t_modulos db) -> modulos.curso m = cursos.id self ->
                             lecciones.modulo l <> modulos.id m)
  /\ ((forall l, In l (t_lecciones db) ->
                 exists m, In m (t_modulos db) /\ lecciones.modulo l = modulos.id m) ->
      forall l, In l (t_lecciones db') ->
                exists m, In m (t_modulos db') /\ lecciones.modulo l = modulos.id m)
  /\ (NoDup (map modulos.id (t_modulos db)) ->
      forall l m, In l (t_lecciones db) -> In m (t_modulos db') ->
                  lecciones.modulo l = modulos.id m -> In l (t_lecciones db'))
  /\ t_cursos db' = t_cursos db
  /\ t_usuarios db' = t_usuarios db.
Proof.
  intros db'. subst db'. unfold Curso.modulos_all_delete. simpl.
  assert (Mods : forall m, In m (filter (fun m => negb (id_eqb (modulos.curso m) (cursos.id self)))
                                        (t_modulos db))
                           <-> In m (t_modulos db) /\ modulos.curso m <> cursos.id self).
  { intros m. rewrite filter_In. split; intros [H1 H2]; split; auto.
    - intros E. apply id_eqb_eq in E. rewrite E in H2. discriminate.
    - apply negb_true_iff. destruct (id_eqb _ _) eqn:E; [| reflexivity].
      apply id_eqb_eq in E. contradiction. }
  assert (Lecs : forall l,
             In l (filter (fun l => negb (existsb (fun m => id_eqb (lecciones.modulo l) (modulos.id m))
                                            (Curso.modulos self db))) (t_lecciones db))
             <-> In l (t_lecciones db)
                 /\ forall m, In m (t_modulos db) -> modulos.curso m = cursos.id self ->
                              lecciones.modulo l <> modulos.id m).
  { intros l. rewrite filter_In. unfold Curso.modulos. split; intros [H1 H2]; split; auto.
    - intros m Hm Hc E. apply negb_true_iff in H2.
      assert (X : existsb (fun m0 => id_eqb (lecciones.modulo l) (modulos.id m0))
                    (filter (fun m0 => id_eqb (modulos.curso m0) (cursos.id self))
                            (t_modulos db)) = true).
      { apply existsb_exists. exists m. split; [| now apply id_eqb_eq].
        apply filter_In. split; [exact Hm | now apply id_eqb_eq]. }
      congruence.
    - apply negb_true_iff. destruct (existsb _ _) eqn:X; [| reflexivity]. exfalso.
      apply existsb_exists in X. destruct X as (m & Hm & E).
      apply filter_In in Hm. destruct Hm as [Hm Hc].
      apply id_eqb_eq in E, Hc. exact (H2 m Hm Hc E). }
  split; [reflexivity |]. split.
  { unfold Curso.modulos. simpl. rewrite filtro_de_filtro. apply filtro_contrario. }
  split; [exact Mods |]. split; [intros l Hl; apply Lecs; exact Hl |]. split.
  { intros Huerf l Hl. apply Lecs in Hl. destruct Hl as [Hl Hn].
    destruct (Huerf l Hl) as (m & Hm & E). exists m. split; [| exact E].
    apply Mods. split; [exact Hm |]. intros Hc. exact (Hn m Hm Hc E). }
  split; [| split; reflexivity].
  intros Nd l m Hl Hm E. apply Lecs. split; [exact Hl |].
  intros m0 Hm0 Hc0 E0. apply Mods in Hm. destruct Hm as [Hm Hc].
  assert (m0 = m).
  { assert (Ei : modulos.id m0 = modulos.id m) by congruence.
    clear - Nd Hm Hm0 Ei. induction (t_modulos db) as [| x t IH]; [contradiction |].
    simpl in Nd. apply NoDup_cons_iff in Nd. destruct Nd as [Nx Nt].
    destruct Hm as [-> | Hm], Hm0 as [-> | Hm0]; auto.
    - exfalso. apply Nx. rewrite <- Ei. now apply in_map.
    - exfalso. apply Nx. rewrite Ei. now apply in_map. }
  subst m0. contradiction.
Qed.

(** In the example database, where the course has both modules and all
    three lessons, nothing of them is left. *)
Lemma modulos_all_delete_cascada_witness :
  t_modulos (snd (Curso.modulos_all_delete Ejemplo.curso_django Ejemplo.db)) = []
  /\ forall l, In l (t_lecciones (snd (Curso.modulos_all_delete Ejemplo.curso_django
                                         Ejemplo.db))) ->
               exists m, In m (t_modulos (snd (Curso.modulos_all_delete
                                                 Ejemplo.curso_django Ejemplo.db)))
                         /\ lecciones.modulo l = modulos.id m.
Proof.
  pose proof (modulos_all_delete_cascada Ejemplo.curso_django Ejemplo.db)
    as (_ & _ & _ & _ & A & _).
  split; [reflexivity |].
  apply A. intros l Hl. simpl in Hl.
  destruct Hl as [<- | [<- | [<- | []]]].
  - exists Ejemplo.modulo_1. simpl. auto.
  - exists Ejemplo.modulo_1. simpl. auto.
  - exists Ejemplo.modulo_2. simpl. auto.
Defined.

(** ** Registration, seen from outside *)

Lemma solo_valida_min_length (nombre : string) (n : nat) (value : string) :
  solo_valida (min_length nombre n value).
Proof.
  unfold min_length. apply solo_valida_if; [apply solo_valida_ret | apply solo_valida_raise].
Qed.

Lemma solo_valida_registro_is_valid {fw : Framework} (d : RegistroInicialSerializer.datos) :
  solo_valida (RegistroInicialSerializer.is_valid d).
Proof.
  unfold RegistroInicialSerializer.is_valid.
  apply solo_valida_bind.
  { apply solo_valida_campo. intros x. apply solo_valida_if; [| apply solo_valida_raise].
    unfold RegistroInicialSerializer.validate_email. apply solo_valida_leer. intros db.
    apply solo_valida_if; [apply solo_valida_raise | apply solo_valida_ret]. }
  intros e. apply solo_valida_bind.
  { apply solo_valida_campo. intros x. apply solo_valida_min_length. }
  intros p. apply solo_valida_bind.
  { apply solo_valida_campo. intros x. apply solo_valida_ret. }
  intros c. destruct e, p, c; try apply solo_valida_raise.
  unfold RegistroInicialSerializer.validate.
  apply solo_valida_if; [apply solo_valida_raise |].
  apply solo_valida_if; [apply solo_valida_raise | apply solo_valida_ret].
Qed.

(** What a registration that passed validation was made of. *)
Lemma registro_is_valid_ok_inv {fw : Framework} (d : RegistroInicialSerializer.datos)
    (db db1 : DB) (v : RegistroInicialSerializer.validados) :
  RegistroInicialSerializer.is_valid d db = (Ok v, db1) ->
  exists e p,
    RegistroInicialSerializer.email d = Some e
    /\ RegistroInicialSerializer.password d = Some p
    /\ RegistroInicialSerializer.confirm_password d = Some p
    /\ EmailField e = true
    /\ (forall r, In r (t_usuarios db) -> usuarios.email r <> e)
    /\ (8 <= String.length p)%nat
    /\ validate_password p = true
    /\ v = RegistroInicialSerializer.mkv (Py.lower e) p
    /\ db1 = db.
Proof.
  unfold RegistroInicialSerializer.is_valid. intros H.
  inv_bind H. rename a into oe. rename Hm into F1.
  inv_bind H. rename a into op. rename Hm into F2.
  inv_bind H. rename a into oc. rename Hm into F3.
  apply campo_ok_inv in F1.
  destruct F1 as [(_ & _ & _ & [N | N]) | (e & e' & E1 & -> & F1)]; try discriminate.
  apply campo_ok_inv in F2.
  destruct F2 as [(_ & _ & _ & [N | N]) | (p & p' & E2 & -> & F2)]; try discriminate.
  apply campo_ok_inv in F3.
  destruct F3 as [(_ & _ & _ & [N | N]) | (c & c' & E3 & -> & F3)]; try discriminate.
  apply ret_ok_inv in F3. destruct F3 as [-> ->].
  unfold min_length in F2. destruct (8 <=? String.length p)%nat eqn:L; [| discriminate].
  apply ret_ok_inv in F2. destruct F2 as [-> ->]. apply Nat.leb_le in L.
  destruct (EmailField e) eqn:Ef; [| discriminate].
  unfold RegistroInicialSerializer.validate_email, bind, leer in F1.
  destruct (existsb _ _) eqn:Ex; [discriminate |].
  apply ret_ok_inv in F1. destruct F1 as [-> ->].
  unfold RegistroInicialSerializer.validate in H.
  destruct (String.eqb p c) eqn:Epc; simpl in H; [| discriminate].
  apply String.eqb_eq in Epc. subst c.
  assert (Tp : Py.truthy_str p = true) by (destruct p; [simpl in L; lia | reflexivity]).
  rewrite Tp in H. simpl in H.
  destruct (validate_password p) eqn:Vp; simpl in H; [| discriminate].
  apply ret_ok_inv in H. destruct H as [-> ->].
  exists e, p. repeat split; auto.
  intros r Hr Er.
  assert (X : existsb (fun r => String.eqb (usuarios.email r) e) (t_usuarios db) = true).
  { apply existsb_exists. exists r. split; [exact Hr | now apply String.eqb_eq]. }
  congruence.
Qed.

(** [create] always stores the user it builds. *)
Lemma registro_create_ok {fw : Framework} (e p : string) (db : DB) :
  exists k,
    let u := usuarios.set_id (Some (seq_usuarios db + 1))
               (Usuario.antes_de_guardar
                  (RegistroInicialSerializer.set_password p
                     (usuarios.set_perfil_completo false
                        (usuarios.nuevo (candidato (Py.lower (Py.split_arroba_0 e)) k) e)))) in
    RegistroInicialSerializer.create (RegistroInicialSerializer.mkv e p) db
    = (Ok u, con_usuarios (t_usuarios db ++ [u]) (seq_usuarios db + 1) db)
    /\ ~ username_tomado db (candidato (Py.lower (Py.split_arroba_0 e)) k).
Proof.
  set (base := Py.lower (Py.split_arroba_0 e)).
  destruct (while_ocupado_termina (RegistroInicialSerializer.username_ocupado db) base
              (map usuarios.username (t_usuarios db)) (S (List.length (t_usuarios db))))
    as (k & W & Fk & _).
  { intros s Hs. apply username_ocupado_spec in Hs. destruct Hs as (r & Hr & <-).
    now apply in_map. }
  { rewrite length_map. lia. }
  assert (Nk : ~ username_tomado db (candidato base k)).
  { intros H. apply username_ocupado_spec in H. congruence. }
  exists k. split; [| exact Nk].
  unfold RegistroInicialSerializer.create, bind, leer.
  cbn [RegistroInicialSerializer.v_email RegistroInicialSerializer.v_password].
  fold base. rewrite W. unfold Usuario.save.
  rewrite super_save_usuario_inserta; [reflexivity | reflexivity | reflexivity | exact Nk].
Qed.

(** The outcomes of a step-1 registration, in the form the proofs
    below take them apart. *)
Lemma registro_resultados {fw : Framework}
    (d : RegistroInicialSerializer.datos) (db : DB) :
  (exists c msg,
     RegistroInicialView.create d db = (Raise (ValidationError c msg), db))
  \/ (exists e p u,
        RegistroInicialSerializer.email d = Some e
        /\ RegistroInicialSerializer.password d = Some p
        /\ RegistroInicialView.create d db
           = (Ok (mkResponse HTTP_201_CREATED
                    (CuerpoPerfil "Registro inicial exitoso. Ahora completa tu perfil." u false)),
              con_usuarios (t_usuarios db ++ [u]) (seq_usuarios db + 1) db)
        /\ usuarios.id u = Some (seq_usuarios db + 1)
        /\ usuarios.email u = Py.lower e
        /\ usuarios.password u = make_password p
        /\ usuarios.first_name u = "" /\ usuarios.last_name u = ""
        /\ usuarios.fecha_nacimiento u = None /\ usuarios.pais u = None
        /\ usuarios.usuario_unico u = None
        /\ usuarios.tipo_usuario u = "estudiante"
        /\ usuarios.activo u = true
        /\ usuarios.perfil_completo u = false).
Proof.
  unfold RegistroInicialView.create, bind.
  destruct (solo_valida_registro_is_valid d db) as [(v & V) | (c & msg & V)]; rewrite V.
  - right. apply registro_is_valid_ok_inv in V.
    destruct V as (e & p & E1 & E2 & _ & _ & _ & _ & _ & -> & _).
    destruct (registro_create_ok (Py.lower e) p db) as (k & C & _).
    cbv zeta in C. rewrite C.
    eexists e, p, _. split; [exact E1 |]. split; [exact E2 |].
    split; [reflexivity |]. repeat split; reflexivity.
  - left. eauto.
Qed.

(** X5.  A step-1 registration has two outcomes only.  Either it is
    refused with a validation error and the database is as it was; or
    it is answered 201 and exactly one user has been added, after the
    others, under a new id: active, a student, without names, birth
    date, country or handle, with the e-mail lowercased and the
    password stored as its hash.  No other exception comes out. *)
Theorem registro_inicial_dos_resultados {fw : Framework}
    (d : RegistroInicialSerializer.datos) (db : DB) :
  (exists c msg,
     RegistroInicialView.create d db = (Raise (ValidationError c msg), db))
  \/ (exists e p u,
        RegistroInicialSerializer.email d = Some e
        /\ RegistroInicialSerializer.password d = Some p
        /\ RegistroInicialView.create d db
           = (Ok (mkResponse HTTP_201_CREATED
                    (CuerpoPerfil "Registro inicial exitoso. Ahora completa tu perfil." u false)),
              con_usuarios (t_usuarios db ++ [u]) (seq_usuarios db + 1) db)
        /\ usuarios.id u = Some (seq_usuarios db + 1)
        /\ usuarios.email u = Py.lower e
        /\ usuarios.password u = make_password p
        /\ usuarios.first_name u = "" /\ usuarios.last_name u = ""
        /\ usuarios.fecha_nacimiento u = None /\ usuarios.pais u = None
        /\ usuarios.usuario_unico u = None
        /\ usuarios.tipo_usuario u = "estudiante"
        /\ usuarios.activo u = true
        /\ usuarios.perfil_completo u = false).
Proof.
  unfold RegistroInicialView.create, bind.
  destruct (solo_valida_registro_is_valid d db) as [(v & V) | (c & msg & V)]; rewrite V.
  - right. apply registro_is_valid_ok_inv in V.
    destruct V as (e & p & E1 & E2 & _ & _ & _ & _ & _ & -> & _).
    destruct (registro_create_ok (Py.lower e) p db) as (k & C & _).
    cbv zeta in C. rewrite C.
    eexists e, p, _. split; [exact E1 |]. split; [exact E2 |].
    split; [reflexivity |]. repeat split; reflexivity.
  - left. eauto.
Qed.

(** X6.  The e-mail of a registration is compared as it is written, and
    stored lowercased: an address that differs only by its capitals
    from the address of a user already stored is accepted, and the
    database then holds two users with the same e-mail. *)
Theorem registro_inicial_email_repetido_por_mayusculas {fw : Framework}
    (e p : string) (r0 : usuarios.fila) (db : DB) :
  EmailField e = true ->
  (forall r, In r (t_usuarios db) -> usuarios.email r <> e) ->
  In r0 (t_usuarios db) ->
  usuarios.email r0 = Py.lower e ->
  (8 <= String.length p)%nat ->
  validate_password p = true ->
  exists u db',
    RegistroInicialView.create
      (RegistroInicialSerializer.mk (Some e) (Some p) (Some p)) db
    = (Ok (mkResponse HTTP_201_CREATED
             (CuerpoPerfil "Registro inicial exitoso. Ahora completa tu perfil." u false)),
       db')
    /\ t_usuarios db' = (t_usuarios db ++ [u])%list
    /\ In r0 (t_usuarios db')
    /\ usuarios.email u = usuarios.email r0
    /\ usuarios.id u = Some (seq_usuarios db + 1).
Proof.
  intros He Hf Hr0 Er0 Hl Hp.
  destruct (registro_resultados
              (RegistroInicialSerializer.mk (Some e) (Some p) (Some p)) db)
    as [(c & msg & R) | (e' & p' & u & E1 & E2 & R & Hid & Hem & _)].
  - exfalso. unfold RegistroInicialView.create, bind in R.
    destruct (solo_valida_registro_is_valid
                (RegistroInicialSerializer.mk (Some e) (Some p) (Some p)) db)
      as [(v & V) | (c' & msg' & V)].
    + rewrite V in R. apply registro_is_valid_ok_inv in V.
      destruct V as (e1 & p1 & _ & _ & _ & _ & _ & _ & _ & -> & _).
      destruct (registro_create_ok (Py.lower e1) p1 db) as (k & C & _).
      cbv zeta in C. rewrite C in R. discriminate.
    + clear R. revert V.
      unfold RegistroInicialSerializer.is_valid, RegistroInicialSerializer.validate_email,
        RegistroInicialSerializer.validate, campo, min_length, bind, ret, leer, raise.
      cbn -[Nat.leb String.length Py.truthy_str].
      rewrite He.
      replace (existsb (fun r => String.eqb (usuarios.email r) e) (t_usuarios db)) with false.
      2:{ symmetry. destruct (existsb _ _) eqn:X; [| reflexivity]. exfalso.
          apply existsb_exists in X. destruct X as (r & Hr & X).
          apply String.eqb_eq in X. exact (Hf r Hr X). }
      apply Nat.leb_le in Hl. rewrite Hl.
      cbn -[Nat.leb String.length Py.truthy_str].
      rewrite String.eqb_refl, Hp.
      destruct (Py.truthy_str p); discriminate.
  - simpl in E1, E2. injection E1 as <-. injection E2 as <-.
    eexists u, _. split; [exact R |]. split; [reflexivity |].
    split; [simpl; apply in_or_app; auto |]. split; [congruence | exact Hid].
Qed.

(** [Ana@codea.pe] when [ana@codea.pe] is registered. *)
Lemma registro_inicial_email_repetido_por_mayusculas_witness :
  exists u db',
    RegistroInicialView.create (fw := Ejemplo.fw)
      (RegistroInicialSerializer.mk (Some "Ana@codea.pe") (Some "Secreta123")
         (Some "Secreta123")) Ejemplo.db
    = (Ok (mkResponse HTTP_201_CREATED
             (CuerpoPerfil "Registro inicial exitoso. Ahora completa tu perfil." u false)),
       db')
    /\ In Ejemplo.otra_ana (t_usuarios db')
    /\ usuarios.email u = usuarios.email Ejemplo.otra_ana
    /\ usuarios.id u = Some 4.
Proof.
  destruct (registro_inicial_email_repetido_por_mayusculas (fw := Ejemplo.fw)
              "Ana@codea.pe" "Secreta123" Ejemplo.otra_ana Ejemplo.db)
    as (u & db' & R & _ & I & E & Hid).
  - reflexivity.
  - intros r Hr. simpl in Hr. destruct Hr as [<- | [<- | [<- | []]]]; discriminate.
  - simpl. auto.
  - reflexivity.
  - simpl. lia.
  - reflexivity.
  - exists u, db'. auto.
Defined.

(** ** The availability checks *)

Lemma lower_vacio (s : string) : Py.truthy_str (Py.lower s) = Py.truthy_str s.
Proof. destruct s; reflexivity. Qed.

(** X7.  After a registration that succeeded with a non-empty e-mail,
    the e-mail check finds the address, however the query is
    capitalised or padded with blanks. *)
Theorem email_registrado_se_encuentra {fw : Framework}
    (d : RegistroInicialSerializer.datos) (db db' : DB) (resp : Response)
    (e q : string) :
  RegistroInicialView.create d db = (Ok resp, db') ->
  RegistroInicialSerializer.email d = Some e ->
  e <> "" ->
  Py.lower (PyStr.strip q) = Py.lower e ->
  VerificarEmailExistenteView.get (Some q) db'
  = VerificarEmailExistenteView.Existencia true (Py.lower e) "Email encontrado".
Proof.
  intros R E Ne Q.
  destruct (registro_resultados d db)
    as [(c & msg & R') | (e' & p' & u & E1 & _ & R' & _ & Hem & _)];
    rewrite R' in R; [discriminate |].
  injection R as _ <-. rewrite E in E1. injection E1 as <-.
  unfold VerificarEmailExistenteView.get. rewrite Q.
  rewrite lower_vacio. apply truthy_str_spec in Ne. rewrite Ne. simpl.
  replace (existsb (fun r => String.eqb (usuarios.email r) (Py.lower e))
             (t_usuarios db ++ [u])) with true; [reflexivity |].
  symmetry. apply existsb_exists. exists u. split.
  - apply in_or_app. right. simpl. auto.
  - rewrite Hem. apply String.eqb_refl.
Qed.

(** [maria@nuevo.pe] is found as [  MARIA@Nuevo.PE ]. *)
Lemma email_registrado_se_encuentra_witness :
  VerificarEmailExistenteView.get (Some "  MARIA@Nuevo.PE ")
    (snd (RegistroInicialView.create (fw := Ejemplo.fw)
            (RegistroInicialSerializer.mk (Some "maria@nuevo.pe") (Some "Secreta123")
               (Some "Secreta123")) Ejemplo.db))
  = VerificarEmailExistenteView.Existencia true "maria@nuevo.pe" "Email encontrado".
Proof.
  apply (email_registrado_se_encuentra (fw := Ejemplo.fw)
           (RegistroInicialSerializer.mk (Some "maria@nuevo.pe") (Some "Secreta123")
              (Some "Secreta123")) Ejemplo.db _
           (mkResponse HTTP_201_CREATED
              (CuerpoPerfil "Registro inicial exitoso. Ahora completa tu perfil."
                 (usuarios.mk (Some 4) "maria" "maria@nuevo.pe" "pbkdf2$Secreta123" "" ""
                    None None None None None None None None None None "estudiante" None
                    false true) false))
           "maria@nuevo.pe" "  MARIA@Nuevo.PE ").
  - vm_compute. reflexivity.
  - reflexivity.
  - discriminate.
  - vm_compute. reflexivity.
Defined.

Lemma permitido_mixto_lower (c : ascii) :
  Py.permitido_mixto (Py.lower_char c) = Py.permitido_mixto c.
Proof. destruct c as [[] [] [] [] [] [] [] []]; reflexivity. Qed.

Lemma re_match_usuario_lower (s : string) :
  Py.re_match_usuario (Py.lower s) = Py.re_match_usuario s.
Proof.
  unfold Py.re_match_usuario. rewrite lower_vacio. f_equal.
  induction s as [| c s IH]; simpl; [reflexivity |].
  rewrite permitido_mixto_lower, IH. reflexivity.
Qed.

(** X8.  The handle check answers 400 for a query that is missing or
    blank.  Otherwise it reports the handle available exactly when the
    query, stripped, is made of letters, digits, dots and underscores
    and no other user than the one who asks holds its lowercase form;
    so the own handle of the user is not counted against the query, and
    two queries that differ only by capitals or by blanks around them
    get the same verdict. *)
Theorem verificar_usuario_unico_veredicto (user : usuarios.fila) (query : option string)
    (db : DB) :
  let q := PyStr.strip (match query with Some s => s | None => "" end) in
  (q = "" ->
   VerificarUsuarioUnicoView.get user query db
   = VerificarUsuarioUnicoView.Error400 "Parámetro usuario_unico es requerido")
  /\ (q <> "" ->
      exists d,
        VerificarUsuarioUnicoView.disponible_de (VerificarUsuarioUnicoView.get user query db)
        = Some d
        /\ (d = true <-> Py.re_match_usuario q = true
                         /\ ~ lo_tiene_otro user db (Py.lower q)))
  /\ (forall query',
        Py.lower (PyStr.strip query') = Py.lower q ->
        VerificarUsuarioUnicoView.disponible_de
          (VerificarUsuarioUnicoView.get user (Some query') db)
        = VerificarUsuarioUnicoView.disponible_de
            (VerificarUsuarioUnicoView.get user query db)).
Proof.
  intros q.
  assert (G : forall s,
             VerificarUsuarioUnicoView.disponible_de
               (VerificarUsuarioUnicoView.get user s db)
             = let x := PyStr.strip (match s with Some s => s | None => "" end) in
               if negb (Py.truthy_str x) then None
               else Some (Py.re_match_usuario x
                          && negb (Usuario.usuario_unico_ocupado user db (Py.lower x)))).
  { intros s. unfold VerificarUsuarioUnicoView.get. cbv zeta.
    destruct (negb (Py.truthy_str _)); [reflexivity |].
    destruct (Py.re_match_usuario _); reflexivity. }
  split; [| split].
  - intros E. unfold VerificarUsuarioUnicoView.get. fold q. rewrite E. reflexivity.
  - intros N. rewrite G. fold q. cbv zeta.
    apply truthy_str_spec in N. rewrite N. simpl. eexists. split; [reflexivity |].
    rewrite andb_true_iff, negb_true_iff.
    rewrite <- (usuario_unico_ocupado_spec user db (Py.lower q)).
    destruct (Usuario.usuario_unico_ocupado user db (Py.lower q)); intuition congruence.
  - intros query' E. rewrite !G. cbv zeta. fold q.
    rewrite <- (lower_vacio (PyStr.strip query')), <- (lower_vacio q), E.
    rewrite <- (re_match_usuario_lower (PyStr.strip query')),
      <- (re_match_usuario_lower q), E.
    reflexivity.
Qed.

(** [otra_ana] asks for her own handle, written [ Ana.Gomez ]: it is
    available to her, and not to [ana_nueva]. *)
Lemma verificar_usuario_unico_veredicto_witness :
  VerificarUsuarioUnicoView.disponible_de
    (VerificarUsuarioUnicoView.get Ejemplo.otra_ana (Some " Ana.Gomez ") Ejemplo.db)
  = Some true
  /\ VerificarUsuarioUnicoView.disponible_de
       (VerificarUsuarioUnicoView.get Ejemplo.ana_nueva (Some " Ana.Gomez ") Ejemplo.db)
     = Some false
  /\ VerificarUsuarioUnicoView.disponible_de
       (VerificarUsuarioUnicoView.get Ejemplo.ana_nueva (Some "ANA.GOMEZ") Ejemplo.db)
     = VerificarUsuarioUnicoView.disponible_de
         (VerificarUsuarioUnicoView.get Ejemplo.ana_nueva (Some " Ana.Gomez ") Ejemplo.db).
Proof.
  pose proof (verificar_usuario_unico_veredicto Ejemplo.otra_ana (Some " Ana.Gomez ")
                Ejemplo.db) as (_ & A & _).
  pose proof (verificar_usuario_unico_veredicto Ejemplo.ana_nueva (Some " Ana.Gomez ")
                Ejemplo.db) as (_ & B & C).
  split; [| split].
  - destruct A as (d & E & I); [vm_compute; discriminate |].
    rewrite E. f_equal. apply I. split; [vm_compute; reflexivity |].
    intros (r & Hr & U & N). simpl in Hr.
    destruct Hr as [<- | [<- | [<- | []]]]; try discriminate U. apply N. reflexivity.
  - destruct B as (d & E & I); [vm_compute; discriminate |].
    rewrite E. f_equal. destruct d; [| reflexivity]. exfalso.
    destruct I as [I _]. destruct (I eq_refl) as [_ N]. apply N.
    exists Ejemplo.otra_ana. split; [simpl; auto |]. split; [reflexivity | discriminate].
  - apply C. vm_compute. reflexivity.
Defined.

(** ** The suggested handle *)

Lemma todos_app (p : ascii -> bool) (a b : string) :
  Py.todos p (a ++ b) = Py.todos p a && Py.todos p b.
Proof. induction a as [| c a IH]; simpl; [| rewrite IH, andb_assoc]; reflexivity. Qed.

Lemma str_of_nat_digitos (n : nat) : Py.todos Py.is_digit (Py.str_of_nat n) = true.
Proof.
  unfold Py.str_of_nat. induction (Nat.to_uint n) as [| d IH | d IH | d IH | d IH | d IH
                                                      | d IH | d IH | d IH | d IH | d IH];
    simpl; auto.
Qed.

Lemma todos_implica (p q : ascii -> bool) (s : string) :
  (forall c, p c = true -> q c = true) -> Py.todos p s = true -> Py.todos q s = true.
Proof.
  intros H. induction s as [| c s IH]; simpl; [reflexivity |].
  rewrite !andb_true_iff. intros [Hc Hs]. auto.
Qed.

Lemma permitido_hechos (c : ascii) :
  Py.permitido c = true ->
  Py.permitido_mixto c = true /\ Py.lower_char c = c /\ PyStr.isspace c = false.
Proof.
  destruct c as [[] [] [] [] [] [] [] []]; intros H;
    first [discriminate H | repeat split; reflexivity].
Qed.

Lemma digito_permitido (c : ascii) : Py.is_digit c = true -> Py.permitido c = true.
Proof. unfold Py.permitido. intros ->. rewrite orb_true_r. reflexivity. Qed.

Lemma lower_permitidos (s : string) : Py.todos Py.permitido s = true -> Py.lower s = s.
Proof.
  induction s as [| c s IH]; simpl; [reflexivity |].
  rewrite andb_true_iff. intros [Hc Hs].
  destruct (permitido_hechos c Hc) as (_ & -> & _). rewrite (IH Hs). reflexivity.
Qed.

Lemma rstrip_sin_blancos (s : string) :
  Py.todos (fun c => negb (PyStr.isspace c)) s = true -> PyStr.rstrip s = s.
Proof.
  induction s as [| c s IH]; simpl; [reflexivity |].
  rewrite andb_true_iff, negb_true_iff. intros [Hc Hs].
  rewrite (IH Hs), Hc. destruct s; reflexivity.
Qed.

Lemma strip_sin_blancos (s : string) :
  Py.todos (fun c => negb (PyStr.isspace c)) s = true -> PyStr.strip s = s.
Proof.
  intros H. unfold PyStr.strip. rewrite (rstrip_sin_blancos s H).
  destruct s as [| c s]; simpl in *; [reflexivity |].
  apply andb_true_iff in H. destruct H as [Hc _].
  apply negb_true_iff in Hc. rewrite Hc. reflexivity.
Qed.

Lemma re_sub_app (a b : string) :
  Py.re_sub_no_permitidos (a ++ b)
  = Py.re_sub_no_permitidos a ++ Py.re_sub_no_permitidos b.
Proof.
  induction a as [| c a IH]; simpl; [reflexivity |].
  destruct (Py.permitido c); simpl; rewrite IH; reflexivity.
Qed.

Lemma candidato_permitido (base : string) (k : nat) :
  Py.todos Py.permitido base = true -> Py.todos Py.permitido (candidato base k) = true.
Proof.
  intros H. destruct k as [| k]; simpl; [exact H |].
  rewrite todos_app, H. simpl.
  apply (todos_implica Py.is_digit); [apply digito_permitido | apply str_of_nat_digitos].
Qed.

Lemma candidato_no_vacio (base : string) (k : nat) :
  base <> "" -> candidato base k <> "".
Proof.
  intros H. destruct k as [| k]; simpl; [exact H |].
  destruct base; [contradiction | discriminate].
Qed.

(** X9.  For a user with a first and a last name the suggestion of a
    handle is always there, is not empty, has only the characters
    [a-z], [0-9], dot and underscore, and is a handle the user could
    take as it is: the hook [validate_usuario_unico] of profile
    completion accepts it and returns it unchanged, and the handle
    check reports it available. *)
Theorem sugerencia_aceptada (obj : usuarios.fila) (db : DB) :
  usuarios.first_name obj <> "" ->
  usuarios.last_name obj <> "" ->
  exists r,
    get_usuario_unico_sugerido obj db = Some (Some r)
    /\ r <> ""
    /\ Py.todos Py.permitido r = true
    /\ CompletarPerfilSerializer.validate_usuario_unico (Some obj) r db = (Ok r, db)
    /\ VerificarUsuarioUnicoView.get obj (Some r) db
       = VerificarUsuarioUnicoView.Disponibilidad true r "Disponible".
Proof.
  intros F L.
  destruct (generar_usuario_unico_termina obj None db) as (k & G & Fk & _).
  cbv zeta in G, Fk.
  set (b := Usuario.base_username obj None) in *.
  assert (Pb : Py.todos Py.permitido b = true) by apply re_sub_solo_permitidos.
  assert (Nb : b <> "").
  { subst b. unfold Usuario.base_username. simpl.
    apply truthy_str_spec in F, L. rewrite F, L. simpl.
    rewrite !re_sub_app. simpl.
    destruct (Py.re_sub_no_permitidos (Py.lower (usuarios.first_name obj))); discriminate. }
  set (r := candidato b k) in *.
  assert (Pr : Py.todos Py.permitido r = true) by (apply candidato_permitido; exact Pb).
  assert (Nr : r <> "") by (apply candidato_no_vacio; exact Nb).
  assert (Lr : Py.lower r = r) by (apply lower_permitidos; exact Pr).
  assert (Mr : Py.re_match_usuario r = true).
  { unfold Py.re_match_usuario. apply truthy_str_spec in Nr. rewrite Nr. simpl.
    apply (todos_implica Py.permitido); [| exact Pr].
    intros c Hc. apply permitido_hechos. exact Hc. }
  assert (Sr : PyStr.strip r = r).
  { apply strip_sin_blancos. apply (todos_implica Py.permitido); [| exact Pr].
    intros c Hc. apply negb_true_iff. apply permitido_hechos. exact Hc. }
  exists r. split.
  { unfold get_usuario_unico_sugerido. apply truthy_str_spec in F, L.
    rewrite F, L, G. reflexivity. }
  split; [exact Nr |]. split; [exact Pr |]. split.
  - unfold CompletarPerfilSerializer.validate_usuario_unico, bind, leer.
    unfold Usuario.usuario_unico_ocupado in Fk. rewrite Fk, Mr, Lr. reflexivity.
  - unfold VerificarUsuarioUnicoView.get. rewrite Sr, Mr, Lr.
    apply truthy_str_spec in Nr. rewrite Nr.
    unfold Usuario.usuario_unico_ocupado in Fk. rewrite Fk. reflexivity.
Qed.

(** The suggestion for the new Ana Gomez of the example. *)
Lemma sugerencia_aceptada_witness :
  get_usuario_unico_sugerido Ejemplo.ana_nueva Ejemplo.db = Some (Some "ana.gomez1")
  /\ CompletarPerfilSerializer.validate_usuario_unico (Some Ejemplo.ana_nueva) "ana.gomez1"
       Ejemplo.db = (Ok "ana.gomez1", Ejemplo.db).
Proof.
  destruct (sugerencia_aceptada Ejemplo.ana_nueva Ejemplo.db) as (r & S & _ & _ & V & _);
    [discriminate | discriminate |].
  assert (E : r = "ana.gomez1").
  { vm_compute in S. injection S as S. symmetry. exact S. }
  subst r. split; [exact S | exact V].
Defined.

(** ** The state of a profile *)

(** X10.  The state of a profile is always computed.  It lists no
    missing field exactly when the five mandatory fields of the user
    are not empty; for a user whose flag is as [save] leaves it, that is
    exactly when the profile is reported complete and no next step is
    given.  A handle is suggested only to a user who has both names
    and no handle, and it is a handle no other user holds.  The flag
    of the instructor profile is given only for an instructor, and is
    false when no instructor row goes with the user. *)
Theorem estado_perfil_coherente (user : usuarios.fila) (db : DB) :
  exists est,
    EstadoPerfilView.get user db = Some est
    /\ (EstadoPerfilView.campos_faltantes est = [] <-> obligatorios_presentes user)
    /\ (perfil_coherente user ->
        (EstadoPerfilView.perfil_completo est = true
         <-> EstadoPerfilView.campos_faltantes est = [])
        /\ (EstadoPerfilView.siguiente_paso est = None
            <-> EstadoPerfilView.campos_faltantes est = []))
    /\ (forall s, EstadoPerfilView.usuario_unico_sugerido est = Some s ->
                  usuarios.first_name user <> "" /\ usuarios.last_name user <> ""
                  /\ In "Nombre de usuario" (EstadoPerfilView.campos_faltantes est)
                  /\ ~ lo_tiene_otro user db s)
    /\ (usuarios.tipo_usuario user <> "docente" ->
        EstadoPerfilView.perfil_docente_completo est = None)
    /\ (usuarios.tipo_usuario user = "docente" ->
        (forall d, In d (t_docentes db) -> Some (docentes.usuario d) <> usuarios.id user) ->
        EstadoPerfilView.perfil_docente_completo est = Some false).
Proof.
  assert (Falt : EstadoPerfilView.faltantes user = [] <-> obligatorios_presentes user).
  { rewrite <- campos_obligatorios_spec.
    unfold EstadoPerfilView.faltantes, EstadoPerfilView.campos_requeridos,
      Usuario.campos_obligatorios. simpl.
    destruct (Py.truthy_str (usuarios.first_name user)),
      (Py.truthy_str (usuarios.last_name user)),
      (Py.truthy_opt (usuarios.fecha_nacimiento user)),
      (Py.truthy_opt_str (usuarios.usuario_unico user)),
      (Py.truthy_opt_str (usuarios.pais user)); simpl; split; intros H;
      first [reflexivity | discriminate H]. }
  unfold EstadoPerfilView.get.
  destruct (generar_usuario_unico_termina user None db) as (k & G & Fk & _).
  cbv zeta in G, Fk. rewrite G. simpl option_map.
  match goal with
  | |- exists est, match ?s with Some _ => _ | None => _ end = _ /\ _ =>
      destruct s as [sug |] eqn:Es;
        [| destruct (negb _ && _ && _); discriminate Es]
  end.
  eexists. split; [reflexivity |].
  cbn [EstadoPerfilView.campos_faltantes EstadoPerfilView.perfil_completo
       EstadoPerfilView.siguiente_paso EstadoPerfilView.usuario_unico_sugerido
       EstadoPerfilView.perfil_docente_completo].
  split; [exact Falt |]. split; [| split; [| split]].
  - intros C. unfold perfil_coherente in C. rewrite Falt, <- C.
    split; [tauto |]. destruct (usuarios.perfil_completo user); split; congruence.
  - intros s ->.
    destruct (Py.truthy_opt_str (usuarios.usuario_unico user)) eqn:U; simpl in Es;
      [discriminate |].
    destruct (Py.truthy_str (usuarios.first_name user)) eqn:F; simpl in Es; [| discriminate].
    destruct (Py.truthy_str (usuarios.last_name user)) eqn:L; simpl in Es; [| discriminate].
    injection Es as <-.
    split; [now apply truthy_str_spec |]. split; [now apply truthy_str_spec |]. split.
    + unfold EstadoPerfilView.faltantes, EstadoPerfilView.campos_requeridos. simpl.
      rewrite F, L, U. simpl.
      destruct (Py.truthy_opt (usuarios.fecha_nacimiento user)); simpl; auto.
    + intros H. apply usuario_unico_ocupado_spec in H. congruence.
  - intros T. unfold UsuarioProps.es_docente.
    destruct (String.eqb _ "docente") eqn:E; [| reflexivity].
    apply String.eqb_eq in E. contradiction.
  - intros T N. unfold UsuarioProps.es_docente. rewrite T. simpl.
    unfold DocenteModel.docente_de. rewrite find_ninguno; [reflexivity |].
    intros d Hd. destruct (id_eqb _ _) eqn:E; [| reflexivity].
    apply id_eqb_eq in E. exfalso. exact (N d Hd E).
Qed.

(** The new Ana Gomez of the example misses three fields and is
    offered [ana.gomez1]. *)
Lemma estado_perfil_coherente_witness :
  exists est,
    EstadoPerfilView.get Ejemplo.ana_nueva Ejemplo.db = Some est
    /\ EstadoPerfilView.campos_faltantes est
       = ["Fecha de nacimiento"; "Nombre de usuario"; "País"]
    /\ EstadoPerfilView.perfil_completo est = false
    /\ EstadoPerfilView.usuario_unico_sugerido est = Some "ana.gomez1"
    /\ ~ lo_tiene_otro Ejemplo.ana_nueva Ejemplo.db "ana.gomez1".
Proof.
  destruct (estado_perfil_coherente Ejemplo.ana_nueva Ejemplo.db)
    as (est & G & _ & _ & S & _).
  exists est. split; [exact G |].
  vm_compute in G. injection G as <-.
  split; [reflexivity |]. split; [reflexivity |]. split; [reflexivity |].
  apply (S "ana.gomez1"). reflexivity.
Defined.

(** ** What a profile update that returns has done *)

Lemma solo_valida_ok_db {A : Type} (m : M A) (db db' : DB) (a : A) :
  solo_valida m -> m db = (Ok a, db') -> db' = db.
Proof.
  intros S H. destruct (S db) as [(a0 & E) | (c & msg & E)];
    rewrite E in H; inversion H; reflexivity.
Qed.

Lemma campo_valida_ok_inv {A : Type} (nombre : string) (requerido parcial : bool)
    (valor : option A) (validar : A -> M A) (db db' : DB) (r : option A) :
  (forall x, solo_valida (validar x)) ->
  campo nombre requerido parcial valor validar db = (Ok r, db') ->
  db' = db
  /\ ((valor = None /\ r = None /\ (requerido = false \/ parcial = true))
      \/ (exists x y, valor = Some x /\ r = Some y /\ validar x db = (Ok y, db))).
Proof.
  intros S H.
  assert (E : db' = db).
  { apply (solo_valida_ok_db (campo nombre requerido parcial valor validar) db db' r);
      [apply solo_valida_campo; exact S | exact H]. }
  subst db'. split; [reflexivity |].
  apply campo_ok_inv in H. destruct H as [(? & ? & _ & ?) | (x & y & ? & ? & ?)];
    [left; auto | right; eauto].
Qed.

Ltac inv_campo H v C :=
  let dbi := fresh "dbi" in
  let Hm := fresh "Hm" in
  apply bind_ok_inv in H; destruct H as (v & dbi & Hm & H);
  apply campo_valida_ok_inv in Hm;
  [ destruct Hm as [-> C]
  | intros;
    first [ apply solo_valida_max_length
          | apply solo_valida_min_length
          | apply solo_valida_ret
          | apply solo_valida_fecha_perfil
          | apply solo_valida_url_perfil
          | apply solo_valida_telefono
          | apply solo_valida_bind;
            [apply solo_valida_max_length | intros; apply solo_valida_usuario_unico] ] ].

(** A text field with a maximal length hands on what it was given. *)
Lemma campo_max_length_igual (nombre : string) (n : nat) (valor r : option string) (db : DB)
    (requerido parcial : bool) :
  (valor = None /\ r = None /\ (requerido = false \/ parcial = true))
  \/ (exists x y, valor = Some x /\ r = Some y /\ max_length nombre n x db = (Ok y, db)) ->
  r = valor /\ (parcial = false -> requerido = true -> valor <> None).
Proof.
  intros [(-> & -> & [R | P]) | (x & y & -> & -> & V)].
  - split; [reflexivity | congruence].
  - split; [reflexivity | congruence].
  - apply max_length_ok_inv in V. destruct V as (-> & _). split; [reflexivity | discriminate].
Qed.

Lemma completar_is_valid_ok_inv {fw : Framework} (instance : usuarios.fila) (partial : bool)
    (d v : CompletarPerfilSerializer.datos) (db db' : DB) :
  CompletarPerfilSerializer.is_valid (Some instance) partial d db = (Ok v, db') ->
  db' = db
  /\ usuarios.perfil_completo instance = false
  /\ CompletarPerfilSerializer.first_name v = CompletarPerfilSerializer.first_name d
  /\ CompletarPerfilSerializer.last_name v = CompletarPerfilSerializer.last_name d
  /\ CompletarPerfilSerializer.fecha_nacimiento v = CompletarPerfilSerializer.fecha_nacimiento d
  /\ CompletarPerfilSerializer.pais v = CompletarPerfilSerializer.pais d
  /\ CompletarPerfilSerializer.usuario_unico v
     = option_map Py.lower (CompletarPerfilSerializer.usuario_unico d)
  /\ (forall f, CompletarPerfilSerializer.fecha_nacimiento d = Some f ->
                CompletarPerfilSerializer.validate_fecha_nacimiento f = Ok f)
  /\ (forall h, CompletarPerfilSerializer.usuario_unico d = Some h ->
                Py.re_match_usuario h = true
                /\ Usuario.usuario_unico_ocupado instance db h = false
                /\ (String.length h <= 100)%nat)
  /\ (partial = false ->
      CompletarPerfilSerializer.first_name d <> None
      /\ CompletarPerfilSerializer.last_name d <> None
      /\ CompletarPerfilSerializer.fecha_nacimiento d <> None
      /\ CompletarPerfilSerializer.usuario_unico d <> None
      /\ CompletarPerfilSerializer.pais d <> None).
Proof.
  intros H. unfold CompletarPerfilSerializer.is_valid in H.
  inv_campo H v1 C1. inv_campo H v2 C2. inv_campo H v3 C3. inv_campo H v4 C4.
  inv_campo H v5 C5. inv_campo H v6 C6. inv_campo H v7 C7. inv_campo H v8 C8.
  inv_campo H v9 C9. inv_campo H v10 C10. inv_campo H v11 C11. inv_campo H v12 C12.
  unfold CompletarPerfilSerializer.validate in H.
  destruct (usuarios.perfil_completo instance) eqn:P; [discriminate |].
  apply ret_ok_inv in H. destruct H as [-> ->].
  apply campo_max_length_igual in C1, C2, C5.
  destruct C1 as [E1 R1], C2 as [E2 R2], C5 as [E5 R5].
  cbn [CompletarPerfilSerializer.first_name CompletarPerfilSerializer.last_name
       CompletarPerfilSerializer.fecha_nacimiento CompletarPerfilSerializer.pais
       CompletarPerfilSerializer.usuario_unico].
  assert (F : v3 = CompletarPerfilSerializer.fecha_nacimiento d
              /\ (forall f, CompletarPerfilSerializer.fecha_nacimiento d = Some f ->
                            CompletarPerfilSerializer.validate_fecha_nacimiento f = Ok f)
              /\ (partial = false -> CompletarPerfilSerializer.fecha_nacimiento d <> None)).
  { destruct C3 as [(-> & -> & [R | R]) | (x & y & -> & -> & V)].
    - discriminate R.
    - repeat split; congruence.
    - unfold CompletarPerfilSerializer.lift in V.
      assert (Vy : CompletarPerfilSerializer.validate_fecha_nacimiento x = Ok y)
        by congruence.
      assert (y = x).
      { unfold CompletarPerfilSerializer.validate_fecha_nacimiento in Vy.
        destruct (Py.date_gt x today); [discriminate |].
        destruct (_ <? 13); [discriminate |]. congruence. }
      subst y. split; [reflexivity |]. split; [| discriminate].
      intros f Ef. congruence. }
  assert (U : v4 = option_map Py.lower (CompletarPerfilSerializer.usuario_unico d)
              /\ (forall h, CompletarPerfilSerializer.usuario_unico d = Some h ->
                            Py.re_match_usuario h = true
                            /\ Usuario.usuario_unico_ocupado instance db h = false
                            /\ (String.length h <= 100)%nat)
              /\ (partial = false -> CompletarPerfilSerializer.usuario_unico d <> None)).
  { destruct C4 as [(-> & -> & [R | R]) | (x & y & -> & -> & V)].
    - discriminate R.
    - repeat split; congruence.
    - inv_bind V. apply max_length_ok_inv in Hm. destruct Hm as (-> & -> & Len).
      unfold CompletarPerfilSerializer.validate_usuario_unico, bind, leer in V.
      fold (Usuario.usuario_unico_ocupado instance db x) in V.
      destruct (Usuario.usuario_unico_ocupado instance db x) eqn:O; [discriminate |].
      destruct (Py.re_match_usuario x) eqn:Mx; [| discriminate].
      simpl in V. apply ret_ok_inv in V. destruct V as [-> _].
      split; [reflexivity |]. split; [| discriminate].
      intros h Eh. injection Eh as <-. auto. }
  destruct F as (F1 & F2 & F3), U as (U1 & U2 & U3).
  repeat (split; [first [reflexivity | assumption] |]).
  intros Pf. repeat split; auto.
Qed.

Lemma antes_de_guardar_campos {fw : Framework} (s : usuarios.fila) :
  let u := Usuario.antes_de_guardar s in
  usuarios.id u = usuarios.id s
  /\ usuarios.username u = usuarios.username s
  /\ usuarios.email u = usuarios.email s
  /\ usuarios.first_name u = usuarios.first_name s
  /\ usuarios.last_name u = usuarios.last_name s
  /\ usuarios.fecha_nacimiento u = usuarios.fecha_nacimiento s
  /\ usuarios.usuario_unico u = usuarios.usuario_unico s
  /\ usuarios.pais u = usuarios.pais s
  /\ usuarios.tipo_usuario u = usuarios.tipo_usuario s
  /\ usuarios.activo u = usuarios.activo s
  /\ usuarios.edad u
     = match usuarios.fecha_nacimiento s with
       | Some f => Some (Usuario.calcular_edad today f)
       | None => usuarios.edad s
       end.
Proof.
  unfold Usuario.antes_de_guardar.
  destruct (usuarios.fecha_nacimiento s) eqn:E; simpl; rewrite ?E; repeat split.
Qed.

(** What [save()] without [update_fields] has done when it returns: the
    row returned is in the table, its flag agrees with its mandatory
    fields, its age is that of its birth date, and the other columns
    are those of the instance. *)
Lemma usuario_save_ok {fw : Framework} (s u : usuarios.fila) (db db' : DB) :
  Usuario.save None s db = (Ok u, db') ->
  In u (t_usuarios db')
  /\ perfil_coherente u
  /\ usuarios.username u = usuarios.username s
  /\ usuarios.email u = usuarios.email s
  /\ usuarios.first_name u = usuarios.first_name s
  /\ usuarios.last_name u = usuarios.last_name s
  /\ usuarios.fecha_nacimiento u = usuarios.fecha_nacimiento s
  /\ usuarios.usuario_unico u = usuarios.usuario_unico s
  /\ usuarios.pais u = usuarios.pais s
  /\ usuarios.tipo_usuario u = usuarios.tipo_usuario s
  /\ usuarios.activo u = usuarios.activo s
  /\ usuarios.edad u
     = match usuarios.fecha_nacimiento s with
       | Some f => Some (Usuario.calcular_edad today f)
       | None => usuarios.edad s
       end.
Proof.
  unfold Usuario.save. intros H.
  split; [apply (super_save_usuario_escribe _ _ _ _ H) |].
  pose proof (antes_de_guardar_coherente s) as C.
  pose proof (antes_de_guardar_campos s) as F. cbv zeta in F.
  destruct F as (_ & F).
  destruct (super_save_usuario_devuelve _ _ _ _ _ H) as [-> | (k & ->)].
  - split; [exact C | exact F].
  - split; [apply perfil_coherente_set_id; exact C | exact F].
Qed.

Lemma fecha_perfil_ok_inv {fw : Framework} (f : Py.date) :
  CompletarPerfilSerializer.validate_fecha_nacimiento f = Ok f ->
  ~ en_el_futuro today f /\ 13 <= Usuario.calcular_edad today f.
Proof.
  unfold CompletarPerfilSerializer.validate_fecha_nacimiento.
  destruct (Py.date_gt f today) eqn:G; [discriminate |].
  destruct (_ <? 13) eqn:L; [discriminate |]. intros _.
  apply Z.ltb_ge in L. split; [| exact L].
  intros Fu. apply date_gt_spec in Fu. congruence.
Qed.

(** X11.  When the profile-completion endpoint answers 200, the profile
    was incomplete before; the user rendered in the answer is a row of
    the table afterwards and its flag [perfil_completo], also given in
    the answer, agrees with its five mandatory fields.  A birth date
    sent is stored with the age it gives on the day of the request,
    which is at least 13, and is not a day to come; a handle sent is
    stored in lower case, has only letters, digits, dots and
    underscores, is at most 100 characters long and was held by no
    other user as it was written; and a full update (PUT) brought the
    five mandatory keys. *)
Theorem completar_perfil_200 {fw : Framework} (partial : bool) (instance : usuarios.fila)
    (d : CompletarPerfilSerializer.datos) (db db' : DB) (resp : Response) :
  CompletarPerfilView.update partial instance d db = (Ok resp, db') ->
  status resp = HTTP_200_OK ->
  usuarios.perfil_completo instance = false
  /\ exists u mensaje,
       data resp = CuerpoPerfil mensaje u (usuarios.perfil_completo u)
       /\ In u (t_usuarios db')
       /\ perfil_coherente u
       /\ usuarios.username u = usuarios.username instance
       /\ usuarios.email u = usuarios.email instance
       /\ (forall f, CompletarPerfilSerializer.fecha_nacimiento d = Some f ->
                     usuarios.fecha_nacimiento u = Some f
                     /\ usuarios.edad u = Some (Usuario.calcular_edad today f)
                     /\ 13 <= Usuario.calcular_edad today f
                     /\ ~ en_el_futuro today f)
       /\ (forall h, CompletarPerfilSerializer.usuario_unico d = Some h ->
                     usuarios.usuario_unico u = Some (Py.lower h)
                     /\ Py.re_match_usuario h = true
                     /\ (String.length h <= 100)%nat
                     /\ ~ lo_tiene_otro instance db h)
       /\ (partial = false ->
           exists fn ln f h p,
             CompletarPerfilSerializer.first_name d = Some fn
             /\ CompletarPerfilSerializer.last_name d = Some ln
             /\ CompletarPerfilSerializer.fecha_nacimiento d = Some f
             /\ CompletarPerfilSerializer.usuario_unico d = Some h
             /\ CompletarPerfilSerializer.pais d = Some p
             /\ usuarios.first_name u = fn /\ usuarios.last_name u = ln
             /\ usuarios.pais u = Some p
             /\ (usuarios.perfil_completo u = true <-> fn <> "" /\ ln <> "" /\ p <> "")).
Proof.
  unfold CompletarPerfilView.update.
  destruct (negb partial && usuarios.perfil_completo instance) eqn:G.
  { intros H S. apply ret_ok_inv in H. destruct H as [-> _]. discriminate S. }
  intros H _.
  inv_bind H. rename a into v. rename Hm into V.
  inv_bind H. rename a into u. rename Hm into Sv.
  apply ret_ok_inv in H. destruct H as [-> ->].
  apply completar_is_valid_ok_inv in V.
  destruct V as (-> & P & E1 & E2 & E3 & E5 & E4 & Fv & Uv & Req).
  unfold CompletarPerfilSerializer.update in Sv.
  apply usuario_save_ok in Sv.
  destruct Sv as (In_u & Co & Un & Em & Fn & Ln & Fe & Uu & Pa & _ & _ & Ed).
  cbn [CompletarPerfilSerializer.setattrs usuarios.username usuarios.email
       usuarios.first_name usuarios.last_name usuarios.fecha_nacimiento
       usuarios.usuario_unico usuarios.pais usuarios.edad] in *.
  rewrite E1 in Fn. rewrite E2 in Ln. rewrite E3 in Fe, Ed. rewrite E4 in Uu.
  rewrite E5 in Pa.
  split; [exact P |].
  exists u. eexists. split; [reflexivity |].
  split; [exact In_u |]. split; [exact Co |]. split; [exact Un |]. split; [exact Em |].
  split; [| split].
  - intros f Ef. rewrite Ef in Fe, Ed. simpl in Fe, Ed.
    destruct (fecha_perfil_ok_inv f (Fv f Ef)) as [Nf A]. auto.
  - intros h Eh. rewrite Eh in Uu. simpl in Uu.
    destruct (Uv h Eh) as (Mh & Oh & Lh).
    split; [exact Uu |]. split; [exact Mh |]. split; [exact Lh |].
    intros O. apply usuario_unico_ocupado_spec in O. congruence.
  - intros Pf. destruct (Req Pf) as (R1 & R2 & R3 & R4 & R5).
    destruct (CompletarPerfilSerializer.first_name d) as [fn |]; [| congruence].
    destruct (CompletarPerfilSerializer.last_name d) as [ln |]; [| congruence].
    destruct (CompletarPerfilSerializer.fecha_nacimiento d) as [f |]; [| congruence].
    destruct (CompletarPerfilSerializer.usuario_unico d) as [h |] eqn:Eh; [| congruence].
    destruct (CompletarPerfilSerializer.pais d) as [p |]; [| congruence].
    simpl in Fn, Ln, Fe, Uu, Pa.
    exists fn, ln, f, h, p. repeat (split; [first [reflexivity | assumption] |]).
    unfold perfil_coherente in Co. rewrite Co. unfold obligatorios_presentes.
    rewrite Fn, Ln, Fe, Uu, Pa.
    destruct (Uv h eq_refl) as (Mh & _ & _).
    assert (Nh : Py.lower h <> "").
    { unfold Py.re_match_usuario in Mh. destruct h; [discriminate | discriminate]. }
    split.
    + intros (A & B & _ & _ & (s & Es & Ns)). injection Es as <-. auto.
    + intros (A & B & C). repeat split; try assumption; try discriminate; eauto.
Qed.

(** Ana completes her profile with the handle [Ana.G]. *)
Lemma completar_perfil_200_witness :
  exists u,
    In u (t_usuarios (snd (CompletarPerfilView.put (fw := Ejemplo.fw) Ejemplo.ana_nueva
                             (perfil_ana "Ana.G") Ejemplo.db)))
    /\ usuarios.usuario_unico u = Some "ana.g"
    /\ usuarios.edad u = Some 23
    /\ usuarios.perfil_completo u = true.
Proof.
  destruct (CompletarPerfilView.put (fw := Ejemplo.fw) Ejemplo.ana_nueva
              (perfil_ana "Ana.G") Ejemplo.db) as [[resp | e] db'] eqn:E;
    [| vm_compute in E; discriminate E].
  assert (S : status resp = HTTP_200_OK) by (vm_compute in E; inversion E; reflexivity).
  destruct (completar_perfil_200 (fw := Ejemplo.fw) false Ejemplo.ana_nueva
              (perfil_ana "Ana.G") Ejemplo.db db' resp E S)
    as (_ & u & m & _ & I & _ & _ & _ & F & U & R).
  exists u. split; [exact I |].
  destruct (U "Ana.G" eq_refl) as (Uu & _).
  destruct (F (Py.mkdate 2001 9 9) eq_refl) as (_ & Ed & _).
  destruct (R eq_refl) as (fn & ln & f & h & p & A & B & _ & _ & C & _ & _ & _ & Pc).
  injection A as <-. injection B as <-. injection C as <-.
  split; [exact Uu |]. split; [exact Ed |].
  apply Pc. repeat split; discriminate.
Defined.

(** X12.  The handle of profile completion is compared with the handles
    in use as it was written, and stored in lower case.  So a request
    that passes the validation with a handle whose lower-case form is
    the handle of another user is not answered: the save raises an
    [IntegrityError] on the unique column, and nothing is written. *)
Theorem completar_perfil_usuario_unico_por_mayusculas {fw : Framework} (partial : bool)
    (instance r : usuarios.fila) (d v : CompletarPerfilSerializer.datos) (h : string)
    (db : DB) :
  CompletarPerfilSerializer.is_valid (Some instance) partial d db = (Ok v, db) ->
  CompletarPerfilSerializer.usuario_unico d = Some h ->
  In r (t_usuarios db) ->
  usuarios.id r <> usuarios.id instance ->
  usuarios.usuario_unico r = Some (Py.lower h) ->
  h <> Py.lower h
  /\ CompletarPerfilView.update partial instance d db
     = (Raise (IntegrityError "UNIQUE constraint failed: usuarios"), db).
Proof.
  intros V Eh Hr Nid Ur.
  pose proof (completar_is_valid_ok_inv _ _ _ _ _ _ V)
    as (_ & P & _ & _ & _ & _ & E4 & _ & Uv & _).
  destruct (Uv h Eh) as (_ & Oh & _).
  split.
  { intros Eq. rewrite <- Eq in Ur.
    assert (O : lo_tiene_otro instance db h) by (exists r; auto).
    apply usuario_unico_ocupado_spec in O. congruence. }
  unfold CompletarPerfilView.update. rewrite P, andb_false_r.
  unfold bind at 1. rewrite V.
  unfold bind, CompletarPerfilSerializer.update, Usuario.save, Usuario.super_save.
  replace (existsb _ (t_usuarios db)) with true; [reflexivity |].
  symmetry. apply existsb_exists. exists r. split; [exact Hr |].
  pose proof (antes_de_guardar_campos (CompletarPerfilSerializer.setattrs instance v)) as F.
  cbv zeta in F. destruct F as (Fi & _ & _ & _ & _ & _ & Fu & _).
  unfold Usuario.choca. rewrite Fi, Fu. simpl. rewrite E4, Eh. simpl. rewrite Ur.
  rewrite String.eqb_refl, orb_true_r, andb_true_r.
  apply negb_true_iff. destruct (id_eqb _ _) eqn:I; [| reflexivity].
  apply id_eqb_eq in I. contradiction.
Qed.

(** Ana asks for [Ana.Gomez] while another user holds [ana.gomez]. *)
Lemma completar_perfil_usuario_unico_por_mayusculas_witness :
  CompletarPerfilView.put (fw := Ejemplo.fw) Ejemplo.ana_nueva (perfil_ana "Ana.Gomez")
    Ejemplo.db
  = (Raise (IntegrityError "UNIQUE constraint failed: usuarios"), Ejemplo.db).
Proof.
  apply (completar_perfil_usuario_unico_por_mayusculas (fw := Ejemplo.fw) false
           Ejemplo.ana_nueva Ejemplo.otra_ana (perfil_ana "Ana.Gomez")
           (CompletarPerfilSerializer.mk (Some "Ana") (Some "Gomez")
              (Some (Py.mkdate 2001 9 9)) (Some "ana.gomez") (Some "Chile")
              None None None None None None None)
           "Ana.Gomez" Ejemplo.db).
  - vm_compute. reflexivity.
  - reflexivity.
  - simpl. auto.
  - discriminate.
  - reflexivity.
Defined.

(** ** The profile update *)

Lemma choca_mismas_claves (a b r : usuarios.fila) :
  usuarios.id a = usuarios.id b ->
  usuarios.username a = usuarios.username b ->
  usuarios.usuario_unico a = usuarios.usuario_unico b ->
  Usuario.choca a r = Usuario.choca b r.
Proof. unfold Usuario.choca. intros -> -> ->. reflexivity. Qed.

Lemma existsb_ninguno {A : Type} (f : A -> bool) (l : list A) :
  (forall x, In x l -> f x = false) -> existsb f l = false.
Proof.
  intros H. induction l as [| x l IH]; simpl; [reflexivity |].
  rewrite (H x (or_introl eq_refl)). apply IH. intros y Hy. apply H. right. exact Hy.
Qed.

(** [save()] returns when the unique columns allow the row. *)
Lemma usuario_save_sin_choque {fw : Framework} (s : usuarios.fila) (db : DB) :
  sin_choque s db -> exists u db', Usuario.save None s db = (Ok u, db').
Proof.
  intros H. unfold Usuario.save, Usuario.super_save.
  pose proof (antes_de_guardar_campos s) as F. cbv zeta in F.
  destruct F as (Fi & Fn & _ & _ & _ & _ & Fu & _).
  rewrite existsb_ninguno.
  - destruct (usuarios.id (Usuario.antes_de_guardar s)); [destruct (existsb _ _) |]; eauto.
  - intros r Hr. rewrite (choca_mismas_claves _ s r Fi Fn Fu). apply H. exact Hr.
Qed.

Lemma edad_no_negativa (hoy value : Py.date) :
  ~ en_el_futuro hoy value -> 0 <= Usuario.calcular_edad hoy value.
Proof.
  intros N. unfold en_el_futuro in N.
  destruct (calcular_edad_cases hoy value) as [[P E] | [P E]]; rewrite E.
  - unfold cumple_pendiente in P.
    assert (Py.year hoy <> Py.year value) by (intros Y; apply N; right; auto).
    assert (~ Py.year hoy < Py.year value) by (intros Y; apply N; left; exact Y).
    lia.
  - assert (~ Py.year hoy < Py.year value) by (intros Y; apply N; left; exact Y). lia.
Qed.

(** X13.  The profile update has neither of the two guards of profile
    completion.  For a user whose row can be written, whatever the
    state of the profile: a PATCH of the birth date alone is accepted
    for any day that is not in the future, with no minimal age, and
    stores that date with the age it gives, which is only known not to
    be negative; and a PATCH that empties the first name is accepted and
    leaves the user stored with [perfil_completo] false, also when the
    profile was complete. *)
Theorem perfil_update_sin_edad_minima {fw : Framework} (instance : usuarios.fila)
    (db : DB) :
  sin_choque instance db ->
  (forall f, ~ en_el_futuro today f ->
     exists u db',
       PerfilView.patch instance (solo_fecha f) db = (Ok u, db')
       /\ In u (t_usuarios db')
       /\ usuarios.fecha_nacimiento u = Some f
       /\ usuarios.edad u = Some (Usuario.calcular_edad today f)
       /\ 0 <= Usuario.calcular_edad today f)
  /\ (exists u db',
        PerfilView.patch instance (solo_nombre "") db = (Ok u, db')
        /\ In u (t_usuarios db')
        /\ usuarios.first_name u = ""
        /\ usuarios.perfil_completo u = false).
Proof.
  intros H. split.
  - intros f Nf.
    assert (G : Py.date_gt f today = false).
    { destruct (Py.date_gt f today) eqn:G; [| reflexivity].
      apply date_gt_spec in G. contradiction. }
    set (s := CompletarPerfilSerializer.setattrs instance
                (CompletarPerfilSerializer.mk None None (Some f) None None None None None
                   None None None None)).
    destruct (usuario_save_sin_choque s db) as (u & db' & Sv).
    { intros r Hr. rewrite <- (H r Hr). apply choca_mismas_claves; reflexivity. }
    exists u, db'.
    assert (R : PerfilView.patch instance (solo_fecha f) db = (Ok u, db')).
    { unfold PerfilView.patch, PerfilView.update, PerfilUpdateSerializer.is_valid,
        PerfilUpdateSerializer.update, solo_fecha, campo, bind, ret,
        CompletarPerfilSerializer.lift, PerfilUpdateSerializer.validate_fecha_nacimiento.
      simpl. rewrite G. exact Sv. }
    split; [exact R |].
    apply usuario_save_ok in Sv.
    destruct Sv as (I & _ & _ & _ & _ & _ & Fe & _ & _ & _ & _ & Ed).
    subst s. simpl in Fe, Ed.
    split; [exact I |]. split; [exact Fe |]. split; [exact Ed |].
    apply edad_no_negativa. exact Nf.
  - set (s := CompletarPerfilSerializer.setattrs instance
                (CompletarPerfilSerializer.mk (Some "") None None None None None None None
                   None None None None)).
    destruct (usuario_save_sin_choque s db) as (u & db' & Sv).
    { intros r Hr. rewrite <- (H r Hr). apply choca_mismas_claves; reflexivity. }
    exists u, db'.
    assert (R : PerfilView.patch instance (solo_nombre "") db = (Ok u, db')).
    { unfold PerfilView.patch, PerfilView.update, PerfilUpdateSerializer.is_valid,
        PerfilUpdateSerializer.update, solo_nombre, campo, bind, ret, max_length.
      simpl. exact Sv. }
    split; [exact R |].
    apply usuario_save_ok in Sv.
    destruct Sv as (I & Co & _ & _ & Fn & _).
    subst s. simpl in Fn.
    split; [exact I |]. split; [exact Fn |].
    unfold perfil_coherente, obligatorios_presentes in Co.
    destruct (usuarios.perfil_completo u); [| reflexivity].
    destruct Co as [Co _]. destruct (Co eq_refl) as (A & _). contradiction.
Qed.

(** The user with the complete profile of the example: a birth date of
    the day before is taken, and emptying the first name clears the
    flag. *)
Lemma perfil_update_sin_edad_minima_witness :
  (exists u db',
     PerfilView.patch (fw := Ejemplo.fw) Ejemplo.otra_ana
       (solo_fecha (Py.mkdate 2025 6 14)) Ejemplo.db = (Ok u, db')
     /\ usuarios.edad u = Some 0)
  /\ (exists u db',
        PerfilView.patch (fw := Ejemplo.fw) Ejemplo.otra_ana (solo_nombre "") Ejemplo.db
        = (Ok u, db')
        /\ usuarios.perfil_completo Ejemplo.otra_ana = true
        /\ usuarios.perfil_completo u = false).
Proof.
  assert (H : sin_choque Ejemplo.otra_ana Ejemplo.db).
  { intros r Hr. simpl in Hr. destruct Hr as [<- | [<- | [<- | []]]]; reflexivity. }
  destruct (perfil_update_sin_edad_minima (fw := Ejemplo.fw) Ejemplo.otra_ana Ejemplo.db H)
    as [A (u2 & db2 & R2 & _ & _ & P2)].
  destruct (A (Py.mkdate 2025 6 14)) as (u1 & db1 & R1 & _ & _ & E1 & _).
  { unfold en_el_futuro. simpl. lia. }
  split.
  - exists u1, db1. split; [exact R1 | exact E1].
  - exists u2, db2. split; [exact R2 |]. split; [reflexivity | exact P2].
Defined.

(** ** Switching a user off and on *)

Lemma antes_de_guardar_id {fw : Framework} (s : usuarios.fila) :
  usuarios.id (Usuario.antes_de_guardar s) = usuarios.id s.
Proof. apply (antes_de_guardar_campos s). Qed.

Lemma antes_de_guardar_activo {fw : Framework} (s : usuarios.fila) :
  usuarios.activo (Usuario.antes_de_guardar s) = usuarios.activo s.
Proof. apply (antes_de_guardar_campos s). Qed.

Lemma existsb_por_id (k : Z) (t : list usuarios.fila) :
  (exists r, In r t /\ usuarios.id r = Some k) ->
  existsb (fun r => id_eqb (usuarios.id r) (Some k)) t = true.
Proof.
  intros (r & Hr & E). apply existsb_exists. exists r. split; [exact Hr |].
  apply id_eqb_eq. exact E.
Qed.

Lemma con_usuarios_igual (db : DB) :
  con_usuarios (t_usuarios db) (seq_usuarios db) db = db.
Proof. destruct db; reflexivity. Qed.

Lemma set_activo_propio (r : usuarios.fila) :
  usuarios.set_activo (usuarios.activo r) r = r.
Proof. destruct r; reflexivity. Qed.

(** What [save(update_fields=['activo'])] writes of an instance whose
    row exists. *)
Lemma save_solo_activo {fw : Framework} (s : usuarios.fila) (k : Z) (db : DB) :
  usuarios.id s = Some k ->
  (exists r, In r (t_usuarios db) /\ usuarios.id r = Some k) ->
  Usuario.save (Some ["activo"]) s db
  = (Ok (Usuario.antes_de_guardar s),
     con_usuarios
       (map (fun r => if id_eqb (usuarios.id r) (Some k)
                      then usuarios.set_activo (usuarios.activo s) r else r)
            (t_usuarios db))
       (seq_usuarios db) db).
Proof.
  intros Hid Hex. unfold Usuario.save, Usuario.super_save.
  change (negb (forallb (Usuario.nombrado (Usuario.columnas ++ Usuario.otras_columnas))
                  ["activo"])) with false.
  cbv iota.
  rewrite antes_de_guardar_id, Hid, (existsb_por_id k _ Hex).
  rewrite existsb_ninguno by (intros r _; apply andb_false_r).
  change (Usuario.copiar_campos ["activo"] (Usuario.antes_de_guardar s))
    with (usuarios.set_activo (usuarios.activo (Usuario.antes_de_guardar s))).
  rewrite antes_de_guardar_activo. reflexivity.
Qed.

(** X14.  [desactivar_perfil] and [activar_perfil] write the column
    [activo] and no other: whatever the other attributes of the instance
    in memory are, the rows of the table keep theirs, and only the flag
    of the user's row changes.  So for a user whose row is active,
    switching the profile off and on again gives back the database as
    it was. *)
Theorem desactivar_activar_ida_y_vuelta {fw : Framework} (self : usuarios.fila) (k : Z)
    (db : DB) :
  usuarios.id self = Some k ->
  (exists r, In r (t_usuarios db) /\ usuarios.id r = Some k) ->
  (forall r, In r (t_usuarios db) -> usuarios.id r = Some k -> usuarios.activo r = true) ->
  exists u db1 u',
    Usuario.desactivar_perfil self db = (Ok u, db1)
    /\ usuarios.activo u = false
    /\ t_usuarios db1
       = map (fun r => if id_eqb (usuarios.id r) (Some k)
                       then usuarios.set_activo false r else r) (t_usuarios db)
    /\ Usuario.activar_perfil u db1 = (Ok u', db)
    /\ usuarios.activo u' = true.
Proof.
  intros Hid Hex Act.
  unfold Usuario.desactivar_perfil, Usuario.activar_perfil.
  rewrite (save_solo_activo (usuarios.set_activo false self) k db) by (simpl; assumption).
  eexists. eexists. eexists.
  split; [reflexivity |].
  split; [rewrite antes_de_guardar_activo; reflexivity |].
  split; [reflexivity |].
  rewrite (save_solo_activo _ k).
  - assert (T : map (fun r => if id_eqb (usuarios.id r) (Some k)
                               then usuarios.set_activo true r else r)
                     (map (fun r => if id_eqb (usuarios.id r) (Some k)
                                    then usuarios.set_activo false r else r)
                          (t_usuarios db))
                 = t_usuarios db).
    { rewrite map_map. rewrite <- (map_id (t_usuarios db)) at 2.
      apply map_ext_in. intros r Hr.
      destruct (id_eqb (usuarios.id r) (Some k)) eqn:E.
      - simpl. rewrite E. apply id_eqb_eq in E.
        rewrite <- (Act r Hr E). destruct r; reflexivity.
      - rewrite E. reflexivity. }
    simpl usuarios.activo. unfold con_usuarios. simpl. rewrite T.
    split.
    { f_equal. destruct db; reflexivity. }
    rewrite antes_de_guardar_activo. reflexivity.
  - transitivity (usuarios.id (Usuario.antes_de_guardar (usuarios.set_activo false self)));
      [reflexivity |].
    rewrite antes_de_guardar_id. exact Hid.
  - simpl. destruct Hex as (r & Hr & E).
    exists (usuarios.set_activo false r). split; [| exact E].
    apply in_map_iff. exists r. split; [| exact Hr].
    replace (id_eqb (usuarios.id r) (Some k)) with true; [reflexivity |].
    symmetry. apply id_eqb_eq. exact E.
Qed.

(** The teacher of the example, switched off through an instance in
    memory that carries another name. *)
Lemma desactivar_activar_ida_y_vuelta_witness :
  exists u db1 u',
    Usuario.desactivar_perfil (fw := Ejemplo.fw)
      (usuarios.set_id (Some 1) (usuarios.nuevo "otro" "otro@codea.pe")) Ejemplo.db
    = (Ok u, db1)
    /\ t_usuarios db1
       = [usuarios.set_activo false Ejemplo.profesora; Ejemplo.otra_ana; Ejemplo.ana_nueva]
    /\ Usuario.activar_perfil (fw := Ejemplo.fw) u db1 = (Ok u', Ejemplo.db).
Proof.
  destruct (desactivar_activar_ida_y_vuelta (fw := Ejemplo.fw)
              (usuarios.set_id (Some 1) (usuarios.nuevo "otro" "otro@codea.pe"))
              1 Ejemplo.db) as (u & db1 & u' & D & _ & T & A & _).
  - reflexivity.
  - exists Ejemplo.profesora. split; [simpl; auto | reflexivity].
  - intros r Hr. simpl in Hr. destruct Hr as [<- | [<- | [<- | []]]]; reflexivity.
  - exists u, db1, u'. split; [exact D |]. split; [exact T | exact A].
Defined.

(** ** Removing a teacher *)

Lemma usuario_save_reemplaza {fw : Framework} (s u : usuarios.fila) (k : Z) (db db' : DB) :
  usuarios.id s = Some k ->
  (exists r, In r (t_usuarios db) /\ usuarios.id r = Some k) ->
  Usuario.save None s db = (Ok u, db') ->
  u = Usuario.antes_de_guardar s
  /\ db' = con_usuarios
             (map (fun r => if id_eqb (usuarios.id r) (Some k) then u else r) (t_usuarios db))
             (seq_usuarios db) db.
Proof.
  intros Hid Hex. unfold Usuario.save, Usuario.super_save.
  destruct (existsb (Usuario.choca _) _); [discriminate |].
  rewrite antes_de_guardar_id, Hid, (existsb_por_id k _ Hex).
  intros H. inversion H. split; reflexivity.
Qed.

Lemma usuario_save_falla_sin_cambios {fw : Framework} (uf : option (list string))
    (s : usuarios.fila) (db db' : DB) (e : excepcion) :
  Usuario.save uf s db = (Raise e, db') -> db' = db.
Proof.
  unfold Usuario.save, Usuario.super_save.
  destruct uf as [[| campo campos] |].
  - discriminate.
  - destruct (negb _); [intros H; inversion H; reflexivity |].
    destruct (usuarios.id _); [| intros H; inversion H; reflexivity].
    destruct (existsb _ _); [| intros H; inversion H; reflexivity].
    destruct (existsb _ _); intros H; inversion H; reflexivity.
  - destruct (existsb (Usuario.choca _) _); [intros H; inversion H; reflexivity |].
    destruct (usuarios.id _); [destruct (existsb _ _) |]; intros H; inversion H.
Qed.

Lemma find_reemplazado (k : Z) (u x : usuarios.fila) (t : list usuarios.fila) :
  find (fun r => id_eqb (usuarios.id r) (Some k)) t = Some x ->
  usuarios.id u = Some k ->
  find (fun r => id_eqb (usuarios.id r) (Some k))
       (map (fun r => if id_eqb (usuarios.id r) (Some k) then u else r) t) = Some u.
Proof.
  intros F Hu. induction t as [| r t IH]; simpl in *; [discriminate |].
  destruct (id_eqb (usuarios.id r) (Some k)) eqn:E.
  - rewrite Hu. rewrite id_eqb_refl. reflexivity.
  - rewrite E. apply IH. exact F.
Qed.

(** Two rows of a table of teachers with the same id are the same row,
    [id] being the primary key. *)
Lemma docente_unico_por_id (t : list docentes.fila) (a b : docentes.fila) :
  NoDup (map docentes.id t) -> In a t -> In b t -> docentes.id a = docentes.id b -> a = b.
Proof.
  induction t as [| x t IH]; simpl; intros N Ha Hb E; [contradiction |].
  apply NoDup_cons_iff in N. destruct N as [Nx Nt].
  destruct Ha as [-> | Ha], Hb as [-> | Hb].
  - reflexivity.
  - exfalso. apply Nx. rewrite E. apply in_map. exact Hb.
  - exfalso. apply Nx. rewrite <- E. apply in_map. exact Ha.
  - apply IH; assumption.
Qed.

(** X15.  [delete] on a teacher removes no row: the table of teachers
    and the courses stay as they are and no user is added or removed.
    It answers 404 when no teacher has the id.  When it returns, the
    teacher is still there, its user is stored inactive, with a flag
    [perfil_completo] that agrees with its fields, and the teacher can
    no longer be named as [docente_principal] of a course: the field
    rejects its id as unknown. *)
Theorem docente_delete_desactiva {fw : Framework} (id : Z) (db db' : DB)
    (r : resultado string) :
  NoDup (map docentes.id (t_docentes db)) ->
  DocenteDetailView.delete id db = (r, db') ->
  t_docentes db' = t_docentes db
  /\ t_cursos db' = t_cursos db
  /\ List.length (t_usuarios db') = List.length (t_usuarios db)
  /\ ((forall d, In d (t_docentes db) -> docentes.id d <> Some id) ->
      r = Raise Http404 /\ db' = db)
  /\ (forall msg, r = Ok msg ->
        exists doc u,
          In doc (t_docentes db')
          /\ docentes.id doc = Some id
          /\ Docente.usuario_de doc db' = Some u
          /\ usuarios.activo u = false
          /\ perfil_coherente u
          /\ CursoCreateSerializer.campo_docente_principal id db'
             = (Raise (ValidationError "docente_principal"
                         "Invalid pk - object does not exist."), db')).
Proof.
  intros Nd. unfold DocenteDetailView.delete, DocenteDetailView.get_object.
  unfold bind at 1. unfold bind at 1. unfold leer.
  destruct (find (fun d => id_eqb (docentes.id d) (Some id)) (t_docentes db))
    as [docente |] eqn:Fd.
  2:{ intros H. inversion H; subst.
      repeat (split; [reflexivity |]). split; [auto | discriminate]. }
  apply find_some in Fd. destruct Fd as [Hdoc Edoc]. apply id_eqb_eq in Edoc.
  destruct (Docente.usuario_de docente db) as [usuario |] eqn:Ud.
  2:{ intros H. inversion H; subst.
      repeat (split; [reflexivity |]). split; [| discriminate].
      intros N. exfalso. exact (N docente Hdoc Edoc). }
  unfold Docente.usuario_de in Ud. pose proof Ud as Fu.
  apply find_some in Ud. destruct Ud as [Hus Eus]. apply id_eqb_eq in Eus.
  unfold ret at 1. unfold bind. cbn [snd].
  destruct (Usuario.save None (usuarios.set_activo false usuario) db)
    as [[u | e] db1] eqn:Sv.
  2:{ apply usuario_save_falla_sin_cambios in Sv. subst db1.
      cbv beta iota. intros H. inversion H; subst.
      repeat (split; [reflexivity |]). split; [| discriminate].
      intros N. exfalso. exact (N docente Hdoc Edoc). }
  apply (usuario_save_reemplaza _ _ (docentes.usuario docente)) in Sv;
    [| exact Eus | exists usuario; auto].
  destruct Sv as [Eu ->].
  cbv beta iota. intros H. unfold ret in H. inversion H; subst r db'. clear H.
  split; [reflexivity |]. split; [reflexivity |].
  split; [simpl; apply length_map |].
  split; [intros N; exfalso; exact (N docente Hdoc Edoc) |].
  intros msg _.
  assert (Hid : usuarios.id u = Some (docentes.usuario docente)).
  { rewrite Eu, antes_de_guardar_id. exact Eus. }
  assert (Ud' : Docente.usuario_de docente
                  (con_usuarios
                     (map (fun r => if id_eqb (usuarios.id r) (Some (docentes.usuario docente))
                                    then u else r) (t_usuarios db))
                     (seq_usuarios db) db) = Some u).
  { unfold Docente.usuario_de. simpl. apply (find_reemplazado _ _ usuario); assumption. }
  assert (Au : usuarios.activo u = false).
  { rewrite Eu, antes_de_guardar_activo. reflexivity. }
  exists docente, u.
  split; [exact Hdoc |]. split; [exact Edoc |]. split; [exact Ud' |].
  split; [exact Au |].
  split; [rewrite Eu; apply antes_de_guardar_coherente |].
  unfold CursoCreateSerializer.campo_docente_principal, bind, leer.
  rewrite find_ninguno; [reflexivity |].
  intros d Hd. simpl in Hd.
  destruct (id_eqb (docentes.id d) (Some id)) eqn:E; [| reflexivity].
  apply id_eqb_eq in E.
  assert (d = docente) by (apply (docente_unico_por_id (t_docentes db)); congruence).
  subst d. simpl. unfold CursoCreateSerializer.docente_elegible.
  rewrite Ud', Au. reflexivity.
Qed.

(** The teacher of the example could be given a course before, and
    cannot after. *)
Lemma docente_delete_desactiva_witness :
  exists db',
    DocenteDetailView.delete (fw := Ejemplo.fw) 1 Ejemplo.db
    = (Ok "Docente desactivado exitosamente", db')
    /\ t_docentes db' = [Ejemplo.docente_lucia]
    /\ CursoCreateSerializer.campo_docente_principal 1 Ejemplo.db = (Ok 1, Ejemplo.db)
    /\ CursoCreateSerializer.campo_docente_principal 1 db'
       = (Raise (ValidationError "docente_principal"
                   "Invalid pk - object does not exist."), db').
Proof.
  destruct (DocenteDetailView.delete (fw := Ejemplo.fw) 1 Ejemplo.db) as [r db'] eqn:E.
  assert (N : NoDup (map docentes.id (t_docentes Ejemplo.db))).
  { simpl. apply NoDup_cons; [simpl; tauto | apply NoDup_nil]. }
  destruct (docente_delete_desactiva (fw := Ejemplo.fw) 1 Ejemplo.db db' r N E)
    as (T & _ & _ & _ & A).
  assert (R : r = Ok "Docente desactivado exitosamente").
  { vm_compute in E. inversion E. reflexivity. }
  destruct (A _ R) as (doc & u & _ & _ & _ & _ & _ & C).
  exists db'. rewrite R. split; [reflexivity |]. split; [exact T |].
  split; [vm_compute; reflexivity | exact C].
Defined.

(** ** Saving a teacher *)

Lemma docente_super_save_ok (self d : docentes.fila) (db db' : DB) :
  DocenteModel.super_save self db = (Ok d, db') ->
  In d (t_docentes db')
  /\ t_usuarios db' = t_usuarios db
  /\ docentes.usuario d = docentes.usuario self
  /\ (exists e, docentes.experiencia_anos d = Some e /\ 0 <= e).
Proof.
  unfold DocenteModel.super_save.
  destruct (docentes.experiencia_anos self) as [e |] eqn:Ee; [| discriminate].
  destruct (e <? 0) eqn:Neg; [discriminate |]. apply Z.ltb_ge in Neg.
  destruct (existsb _ _); [discriminate |].
  destruct (docentes.id self) as [k |].
  - destruct (existsb _ _) eqn:Ex; intros H; inversion H; subst; simpl.
    + split; [| eauto].
      apply existsb_exists in Ex. destruct Ex as (r & Hr & Er).
      apply in_map_iff. exists r. rewrite Er. auto.
    + split; [apply in_or_app; right; simpl; auto | eauto].
  - intros H; inversion H; subst; simpl.
    split; [apply in_or_app; right; simpl; auto | eauto].
Qed.

Lemma docente_super_save_falla (self : docentes.fila) (db db' : DB) (e : excepcion) :
  DocenteModel.super_save self db = (Raise e, db') -> db' = db.
Proof.
  unfold DocenteModel.super_save.
  destruct (docentes.experiencia_anos self) as [x |]; [| intros H; inversion H; reflexivity].
  destruct (x <? 0); [intros H; inversion H; reflexivity |].
  destruct (existsb _ _); [intros H; inversion H; reflexivity |].
  destruct (docentes.id self); [destruct (existsb _ _) |]; intros H; inversion H.
Qed.

(** X16.  When [Docente.save] returns, the teacher is a row of the
    table, with years of experience that are not negative; if the user
    it was given was not of type [docente], that user has been saved as
    one, and otherwise the table of users is not written.  The two
    writes are not one: when the user had to be changed and the row of
    the teacher is then refused, the exception leaves the change of the
    user in the table. *)
Theorem docente_save_asegura_tipo {fw : Framework} (self : docentes.fila)
    (self_usuario : usuarios.fila) (db db' : DB) (r : resultado docentes.fila) :
  DocenteModel.save self self_usuario db = (r, db') ->
  (forall d, r = Ok d ->
     In d (t_docentes db')
     /\ (exists e, docentes.experiencia_anos d = Some e /\ 0 <= e)
     /\ (usuarios.tipo_usuario self_usuario = "docente" -> t_usuarios db' = t_usuarios db)
     /\ (usuarios.tipo_usuario self_usuario <> "docente" ->
         exists u, In u (t_usuarios db')
                   /\ usuarios.tipo_usuario u = "docente"
                   /\ usuarios.username u = usuarios.username self_usuario))
  /\ (forall e, r = Raise e ->
        t_docentes db' = t_docentes db
        /\ (db' = db
            \/ (usuarios.tipo_usuario self_usuario <> "docente"
                /\ exists u, In u (t_usuarios db')
                             /\ usuarios.tipo_usuario u = "docente"
                             /\ usuarios.username u = usuarios.username self_usuario))).
Proof.
  unfold DocenteModel.save. unfold bind at 1.
  destruct (String.eqb (usuarios.tipo_usuario self_usuario) "docente") eqn:T;
    cbn [negb].
  - apply String.eqb_eq in T. unfold ret at 1.
    intros H. split.
    + intros d ->. apply docente_super_save_ok in H. destruct H as (I & U & _ & E).
      split; [exact I |]. split; [exact E |]. split; [intros _; exact U |].
      intros N. contradiction.
    + intros e ->. apply docente_super_save_falla in H. subst. auto.
  - apply String.eqb_neq in T. unfold bind. unfold ret at 1.
    destruct (Usuario.save None (usuario_con_tipo "docente" self_usuario) db)
      as [[u | e] db1] eqn:Sv.
    + pose proof (usuario_save_ok _ _ _ _ Sv)
        as (I & _ & Un & _ & _ & _ & _ & _ & _ & Ti & _).
      assert (D1 : t_docentes db1 = t_docentes db).
      { unfold Usuario.save, Usuario.super_save in Sv.
        destruct (existsb (Usuario.choca _) _); [discriminate |].
        destruct (usuarios.id _); [destruct (existsb _ _) |]; inversion Sv; reflexivity. }
      intros H. split.
      * intros d ->. apply docente_super_save_ok in H. destruct H as (Id & U & _ & E).
        split; [exact Id |]. split; [exact E |]. split; [intros; contradiction |].
        intros _. exists u. rewrite U. auto.
      * intros e ->. apply docente_super_save_falla in H. subst db'.
        split; [exact D1 |]. right. split; [exact T |]. exists u. auto.
    + apply usuario_save_falla_sin_cambios in Sv. subst db1.
      intros H. inversion H; subst. split; [discriminate |].
      intros e0 _. auto.
Qed.

(** A teacher without years of experience for the student Ana of the
    example: the row is refused and Ana is left a teacher. *)
Lemma docente_save_asegura_tipo_witness :
  exists e db' u,
    DocenteModel.save (fw := Ejemplo.fw)
      (docentes.mk None 2 "Datos" "Analista" None None None None) Ejemplo.otra_ana
      Ejemplo.db = (Raise e, db')
    /\ t_docentes db' = t_docentes Ejemplo.db
    /\ In u (t_usuarios db')
    /\ usuarios.tipo_usuario u = "docente"
    /\ usuarios.username u = "ana".
Proof.
  destruct (DocenteModel.save (fw := Ejemplo.fw)
              (docentes.mk None 2 "Datos" "Analista" None None None None) Ejemplo.otra_ana
              Ejemplo.db) as [r db'] eqn:E.
  destruct (docente_save_asegura_tipo (fw := Ejemplo.fw) _ _ _ _ _ E) as [_ B].
  assert (R : r = Raise (IntegrityError "NOT NULL constraint failed: docentes.experiencia_anos")).
  { vm_compute in E. inversion E. reflexivity. }
  destruct (B _ R) as (D & [Eq | (_ & u & I & T & U)]).
  - exfalso. vm_compute in E. inversion E as [[E1 E2]]. rewrite Eq in E2.
    discriminate E2.
  - exists (IntegrityError "NOT NULL constraint failed: docentes.experiencia_anos"), db', u.
    rewrite R. auto.
Defined.

(** ** Creating a teacher *)

Lemma solo_valida_no_vacio (nombre value : string) : solo_valida (no_vacio nombre value).
Proof.
  unfold no_vacio. apply solo_valida_if; [apply solo_valida_ret | apply solo_valida_raise].
Qed.

Lemma solo_valida_texto_max (nombre : string) (n : nat) (value : string) :
  solo_valida (DocenteCreate.texto_max nombre n value).
Proof.
  unfold DocenteCreate.texto_max.
  apply solo_valida_bind; [apply solo_valida_no_vacio | intros; apply solo_valida_max_length].
Qed.

Lemma solo_valida_campo_url {fw : Framework} (nombre value : string) :
  solo_valida (campo_url nombre value).
Proof.
  unfold campo_url.
  repeat first [apply solo_valida_if | apply solo_valida_ret | apply solo_valida_raise].
Qed.

Lemma solo_valida_campo_entero (nombre : string) (a b value : Z) :
  solo_valida (campo_entero nombre a b value).
Proof.
  unfold campo_entero.
  repeat first [apply solo_valida_if | apply solo_valida_ret | apply solo_valida_raise].
Qed.

Lemma solo_valida_fecha_docente {fw : Framework} (value : Py.date) :
  solo_valida (DocenteCreate.lift (DocenteCreateSerializer.validate_fecha_nacimiento value)).
Proof.
  intros db. unfold DocenteCreate.lift, DocenteCreateSerializer.validate_fecha_nacimiento.
  destruct (Py.date_gt value today); [right; eauto |].
  destruct (_ <? 18); [right; eauto | left; eauto].
Qed.

Lemma solo_valida_docente_email {fw : Framework} (value : string) :
  solo_valida (value <- no_vacio "email" value ;;
               if EmailField value then DocenteCreate.validate_email value
               else raise (ValidationError "email" "Enter a valid email address.")).
Proof.
  apply solo_valida_bind; [apply solo_valida_no_vacio | intros a].
  apply solo_valida_if; [| apply solo_valida_raise].
  unfold DocenteCreate.validate_email. apply solo_valida_leer. intros db.
  apply solo_valida_if; [apply solo_valida_raise | apply solo_valida_ret].
Qed.

Lemma solo_valida_docente_username (value : string) :
  solo_valida (value <- DocenteCreate.texto_max "username" 150 value ;;
               DocenteCreate.validate_username value).
Proof.
  apply solo_valida_bind; [apply solo_valida_texto_max | intros a].
  unfold DocenteCreate.validate_username. apply solo_valida_leer. intros db.
  apply solo_valida_if; [apply solo_valida_raise | apply solo_valida_ret].
Qed.

Lemma solo_valida_docente_password (value : string) :
  solo_valida (value <- no_vacio "password" value ;; min_length "password" 8 value).
Proof.
  apply solo_valida_bind; [apply solo_valida_no_vacio | intros; apply solo_valida_min_length].
Qed.

Ltac inv_campo_docente H v C :=
  let dbi := fresh "dbi" in
  let Hm := fresh "Hm" in
  apply bind_ok_inv in H; destruct H as (v & dbi & Hm & H);
  apply campo_valida_ok_inv in Hm;
  [ destruct Hm as [-> C]
  | intros;
    first [ apply solo_valida_docente_email
          | apply solo_valida_docente_username
          | apply solo_valida_docente_password
          | apply solo_valida_texto_max
          | apply solo_valida_no_vacio
          | apply solo_valida_fecha_docente
          | apply solo_valida_campo_url
          | apply solo_valida_campo_entero ] ].

(** A required field that passed: its key was there. *)
Lemma campo_requerido_inv (P1 P2 Q : Prop) :
  (P1 /\ P2 /\ (true = false \/ false = true)) \/ Q -> Q.
Proof. intros [(_ & _ & [N | N]) | H]; [discriminate N | discriminate N | exact H]. Qed.

Lemma texto_max_ok_inv (nombre : string) (n : nat) (value y : string) (db db' : DB) :
  DocenteCreate.texto_max nombre n value db = (Ok y, db') ->
  y = value /\ value <> "" /\ db' = db.
Proof.
  unfold DocenteCreate.texto_max. intros H. inv_bind H.
  apply no_vacio_ok_inv in Hm. destruct Hm as (-> & -> & N).
  apply max_length_ok_inv in H. destruct H as (-> & -> & _). auto.
Qed.

Lemma docente_is_valid_ok_inv {fw : Framework} (d v : DocenteCreate.datos) (db db' : DB) :
  DocenteCreate.is_valid d db = (Ok v, db') ->
  db' = db /\ docente_validado d v db.
Proof.
  intros H. unfold DocenteCreate.is_valid in H.
  inv_campo_docente H v1 C1. inv_campo_docente H v2 C2. inv_campo_docente H v3 C3.
  inv_campo_docente H v4 C4. inv_campo_docente H v5 C5. inv_campo_docente H v6 C6.
  inv_campo_docente H v7 C7. inv_campo_docente H v8 C8. inv_campo_docente H v9 C9.
  inv_campo_docente H v10 C10. inv_campo_docente H v11 C11. inv_campo_docente H v12 C12.
  inv_campo_docente H v13 C13. inv_campo_docente H v14 C14. inv_campo_docente H v15 C15.
  inv_campo_docente H v16 C16. inv_campo_docente H v17 C17. inv_campo_docente H v18 C18.
  unfold DocenteCreate.validate in H.
  destruct (negb _); [discriminate |].
  destruct (_ && _); [discriminate |].
  apply ret_ok_inv in H. destruct H as [-> ->].
  split; [reflexivity |].
  apply campo_requerido_inv in C1, C2, C3, C4, C5, C6, C13, C14, C15.
  destruct C1 as (x1 & y1 & D1 & -> & V1), C2 as (x2 & y2 & D2 & -> & V2),
    C3 as (x3 & y3 & D3 & -> & V3), C4 as (x4 & y4 & D4 & -> & V4),
    C5 as (x5 & y5 & D5 & -> & V5), C6 as (x6 & y6 & D6 & -> & V6),
    C13 as (x13 & y13 & D13 & -> & V13), C14 as (x14 & y14 & D14 & -> & V14),
    C15 as (x15 & y15 & D15 & -> & V15).
  constructor; cbn [DocenteCreate.email DocenteCreate.username DocenteCreate.first_name
                    DocenteCreate.last_name DocenteCreate.fecha_nacimiento DocenteCreate.pais
                    DocenteCreate.especialidad DocenteCreate.biografia_extendida
                    DocenteCreate.experiencia_anos].
  - inv_bind V1. apply no_vacio_ok_inv in Hm. destruct Hm as (-> & -> & _).
    destruct (EmailField x1); [| discriminate].
    unfold DocenteCreate.validate_email, bind, leer in V1.
    destruct (existsb _ _); [discriminate |].
    apply ret_ok_inv in V1. destruct V1 as [-> _]. eauto.
  - inv_bind V2. apply texto_max_ok_inv in Hm. destruct Hm as (-> & N & ->).
    unfold DocenteCreate.validate_username, bind, leer in V2.
    fold (RegistroInicialSerializer.username_ocupado db x2) in V2.
    destruct (RegistroInicialSerializer.username_ocupado db x2) eqn:O; [discriminate |].
    apply ret_ok_inv in V2. destruct V2 as [-> _].
    exists x2. repeat split; try assumption.
    intros T. apply username_ocupado_spec in T. congruence.
  - apply texto_max_ok_inv in V3. destruct V3 as (-> & N & _). eauto.
  - apply texto_max_ok_inv in V4. destruct V4 as (-> & N & _). eauto.
  - unfold DocenteCreate.lift in V5.
    assert (Vy : DocenteCreateSerializer.validate_fecha_nacimiento x5 = Ok y5) by congruence.
    unfold DocenteCreateSerializer.validate_fecha_nacimiento in Vy.
    destruct (Py.date_gt x5 today); [discriminate |].
    destruct (_ <? 18) eqn:L; [discriminate |]. apply Z.ltb_ge in L.
    injection Vy as <-. eauto.
  - apply texto_max_ok_inv in V6. destruct V6 as (-> & N & _). eauto.
  - apply texto_max_ok_inv in V13. destruct V13 as (-> & N & _). eauto.
  - unfold DocenteCreate.texto in V14. apply no_vacio_ok_inv in V14.
    destruct V14 as (-> & _ & N). eauto.
  - unfold campo_entero in V15.
    destruct (x15 <? 0) eqn:A; [discriminate |].
    destruct (60 <? x15) eqn:B; [discriminate |].
    apply ret_ok_inv in V15. destruct V15 as [-> _].
    apply Z.ltb_ge in A, B. exists x15. split; [reflexivity | lia].
Qed.

Lemma usuario_save_inserta_ok {fw : Framework} (s u : usuarios.fila) (db db' : DB) :
  usuarios.id s = None ->
  Usuario.save None s db = (Ok u, db') ->
  u = usuarios.set_id (Some (seq_usuarios db + 1)) (Usuario.antes_de_guardar s)
  /\ db' = con_usuarios (t_usuarios db ++ [u]) (seq_usuarios db + 1) db.
Proof.
  intros Hid. unfold Usuario.save, Usuario.super_save.
  destruct (existsb (Usuario.choca _) _); [discriminate |].
  rewrite antes_de_guardar_id, Hid. intros H. inversion H. split; reflexivity.
Qed.

Lemma docente_super_save_inserta (self d : docentes.fila) (db db' : DB) :
  docentes.id self = None ->
  DocenteModel.super_save self db = (Ok d, db') ->
  d = docentes.mk (Some (seq_docentes db + 1)) (docentes.usuario self)
        (docentes.especialidad self) (docentes.biografia_extendida self)
        (docentes.experiencia_anos self) (docentes.titulo_profesional self)
        (docentes.certificaciones self) (docentes.github_url self)
  /\ db' = con_docentes (t_docentes db ++ [d]) (seq_docentes db + 1) db.
Proof.
  intros Hid. unfold DocenteModel.super_save.
  destruct (docentes.experiencia_anos self); [| discriminate].
  destruct (_ <? 0); [discriminate |].
  destruct (existsb _ _); [discriminate |].
  rewrite Hid. intros H. inversion H. split; reflexivity.
Qed.

Lemma solo_valida_falla_db {A : Type} (m : M A) (db db' : DB) (e : excepcion) :
  solo_valida m -> m db = (Raise e, db') -> db' = db.
Proof.
  intros S H. destruct (S db) as [(a0 & E) | (c & msg & E)];
    rewrite E in H; inversion H; reflexivity.
Qed.

Lemma solo_valida_docente_is_valid {fw : Framework} (d : DocenteCreate.datos) :
  solo_valida (DocenteCreate.is_valid d).
Proof.
  unfold DocenteCreate.is_valid.
  repeat (apply solo_valida_bind;
          [apply solo_valida_campo; intros;
           first [ apply solo_valida_docente_email
                 | apply solo_valida_docente_username
                 | apply solo_valida_docente_password
                 | apply solo_valida_texto_max
                 | apply solo_valida_no_vacio
                 | apply solo_valida_fecha_docente
                 | apply solo_valida_campo_url
                 | apply solo_valida_campo_entero ]
          | intros ]).
  unfold DocenteCreate.validate.
  repeat first [apply solo_valida_if | apply solo_valida_ret | apply solo_valida_raise].
Qed.

Lemma lower_no_vacio (s : string) : s <> "" -> Py.lower s <> "".
Proof. destruct s; [contradiction | discriminate]. Qed.

(** X17.  Creating a teacher is all or nothing, and what it creates is
    a teacher in full.  Either an exception is raised and the database
    is as it was, or one user and one teacher are appended, each with
    the next id of its table and the teacher pointing to the user.  The
    user is an active [docente] whose login name and handle are both
    the lower-case login name of the request, of an age of at least 18
    computed from the birth date, and with [perfil_completo] true; the
    teacher has a speciality and a biography that are not empty and
    between 0 and 60 years of experience.  The login name of the
    request is the value as the field of the serializer hands it on,
    that is, without the blanks around it. *)
Theorem docente_create_todo_o_nada {fw : Framework} (d : DocenteCreate.datos)
    (db db' : DB) (r : resultado docentes.fila) :
  DocenteCreateView.create d db = (r, db') ->
  (exists e, r = Raise e /\ db' = db)
  \/ (exists doc u un,
        r = Ok doc
        /\ t_usuarios db' = (t_usuarios db ++ [u])%list
        /\ t_docentes db' = (t_docentes db ++ [doc])%list
        /\ usuarios.id u = Some (seq_usuarios db + 1)
        /\ docentes.id doc = Some (seq_docentes db + 1)
        /\ docentes.usuario doc = seq_usuarios db + 1
        /\ DocenteCreate.username d = Some un
        /\ ~ username_tomado db un
        /\ usuarios.username u = Py.lower un
        /\ usuarios.usuario_unico u = Some (Py.lower un)
        /\ usuarios.tipo_usuario u = "docente"
        /\ usuarios.activo u = true
        /\ usuarios.perfil_completo u = true
        /\ (exists a, usuarios.edad u = Some a /\ 18 <= a)
        /\ docentes.especialidad doc <> ""
        /\ docentes.biografia_extendida doc <> ""
        /\ (exists x, docentes.experiencia_anos doc = Some x /\ 0 <= x <= 60)).
Proof.
  unfold DocenteCreateView.create. unfold bind at 1.
  destruct (DocenteCreate.is_valid d db) as [[v | e] db1] eqn:V.
  2:{ intros H. inversion H; subst. left. exists e. split; [reflexivity |].
      apply (solo_valida_falla_db _ _ _ _ (solo_valida_docente_is_valid d) V). }
  apply docente_is_valid_ok_inv in V. destruct V as [-> Dv].
  unfold DocenteCreate.create, atomic.
  destruct (bind _ _ db) as [[doc | e] db2] eqn:B;
    [| intros H; inversion H; left; eauto].
  intros H. inversion H; subst r db'. clear H. right.
  inv_bind B. rename a into u. rename Hm into Sv.
  apply usuario_save_inserta_ok in Sv; [| reflexivity].
  destruct Sv as [Eu ->].
  destruct Dv as [_ (un & Dun & Vun & Nun & Tun) (fn & Vfn & Nfn) (ln & Vln & Nln)
                    (f & Vf & Af) (p & Vp & Np) (es & _ & Ves & Nes) (be & Vbe & Nbe)
                    (x & Vx & Rx)].
  pose proof (antes_de_guardar_campos (DocenteCreate.usuario_nuevo v)) as F.
  cbv zeta in F.
  destruct F as (_ & Fun & _ & Ffn & Fln & Ffe & Fuu & Fpa & Fti & Fac & Fed).
  pose proof (antes_de_guardar_coherente (DocenteCreate.usuario_nuevo v)) as Co.
  apply (perfil_coherente_set_id (Some (seq_usuarios db + 1))) in Co.
  rewrite <- Eu in Co.
  assert (Nu : usuarios.username (DocenteCreate.usuario_nuevo v) = Py.lower un
               /\ usuarios.usuario_unico (DocenteCreate.usuario_nuevo v) = Some (Py.lower un)
               /\ usuarios.first_name (DocenteCreate.usuario_nuevo v) = fn
               /\ usuarios.last_name (DocenteCreate.usuario_nuevo v) = ln
               /\ usuarios.fecha_nacimiento (DocenteCreate.usuario_nuevo v) = Some f
               /\ usuarios.pais (DocenteCreate.usuario_nuevo v) = Some p).
  { unfold DocenteCreate.usuario_nuevo. simpl. rewrite Vun, Vfn, Vln, Vf, Vp.
    repeat split. }
  destruct Nu as (N1 & N2 & N3 & N4 & N5 & N6).
  rewrite N1 in Fun. rewrite N2 in Fuu. rewrite N3 in Ffn. rewrite N4 in Fln.
  rewrite N5 in Ffe, Fed. rewrite N6 in Fpa.
  change (usuarios.tipo_usuario (DocenteCreate.usuario_nuevo v)) with "docente" in Fti.
  change (usuarios.activo (DocenteCreate.usuario_nuevo v)) with true in Fac.
  set (w := Usuario.antes_de_guardar (DocenteCreate.usuario_nuevo v)) in *.
  assert (Gu : usuarios.id u = Some (seq_usuarios db + 1)
               /\ usuarios.username u = Py.lower un
               /\ usuarios.usuario_unico u = Some (Py.lower un)
               /\ usuarios.tipo_usuario u = "docente"
               /\ usuarios.activo u = true
               /\ usuarios.first_name u = fn
               /\ usuarios.last_name u = ln
               /\ usuarios.fecha_nacimiento u = Some f
               /\ usuarios.pais u = Some p
               /\ usuarios.edad u = Some (Usuario.calcular_edad today f)).
  { rewrite Eu. unfold usuarios.set_id.
    cbn [usuarios.id usuarios.username usuarios.usuario_unico usuarios.tipo_usuario
         usuarios.activo usuarios.first_name usuarios.last_name
         usuarios.fecha_nacimiento usuarios.pais usuarios.edad].
    repeat split; assumption. }
  destruct Gu as (Uid & Uun & Uu & Ti & Ac & Ufn & Uln & Ufe & Upa & Ued).
  unfold DocenteModel.save in B. rewrite Ti in B. simpl in B.
  unfold bind, ret in B.
  apply docente_super_save_inserta in B; [| reflexivity].
  destruct B as [Ed ->].
  exists doc, u, un.
  split; [reflexivity |]. split; [reflexivity |]. split; [reflexivity |].
  split; [exact Uid |]. split; [rewrite Ed; reflexivity |].
  split; [rewrite Ed, Uid; reflexivity |].
  split; [exact Dun |]. split; [exact Tun |]. split; [exact Uun |].
  split; [exact Uu |]. split; [exact Ti |]. split; [exact Ac |].
  split.
  { apply Co. unfold obligatorios_presentes. rewrite Uu, Ufn, Uln, Ufe, Upa.
    split; [exact Nfn |]. split; [exact Nln |]. split; [discriminate |].
    split; [exists (Py.lower un); split; [reflexivity | apply lower_no_vacio; exact Nun] |].
    exists p. auto. }
  split; [exists (Usuario.calcular_edad today f); auto |].
  rewrite Ed. simpl. rewrite Ves, Vbe, Vx. simpl.
  split; [exact Nes |]. split; [exact Nbe |]. exists x. auto.
Qed.

(** Maria Soto is created with the login name [Maria.Soto]. *)
Lemma docente_create_todo_o_nada_witness :
  exists doc u,
    fst (DocenteCreateView.create (fw := Ejemplo.fw) (docente_data "Maria.Soto") Ejemplo.db)
    = Ok doc
    /\ t_usuarios (snd (DocenteCreateView.create (fw := Ejemplo.fw)
                          (docente_data "Maria.Soto") Ejemplo.db))
       = (t_usuarios Ejemplo.db ++ [u])%list
    /\ docentes.usuario doc = 4
    /\ usuarios.usuario_unico u = Some "maria.soto"
    /\ usuarios.perfil_completo u = true.
Proof.
  destruct (DocenteCreateView.create (fw := Ejemplo.fw) (docente_data "Maria.Soto")
              Ejemplo.db) as [r db'] eqn:E.
  destruct (docente_create_todo_o_nada (fw := Ejemplo.fw) _ _ _ _ E)
    as [(e & R & _) | (doc & u & un & R & Tu & _ & _ & _ & Du & Dn & _ & _ & Uu & _ & _ & P & _)].
  - exfalso. vm_compute in E. rewrite R in E. discriminate E.
  - injection Dn as <-. exists doc, u. simpl fst. simpl snd. auto.
Defined.

(** X18.  The login name of a new teacher is compared with the login
    names in use as it was written, and is stored in lower case both as
    login name and as handle.  So a request that passes the validation
    while its login name in lower case is the login name or the handle
    of a user already stored creates nothing: the insertion of the user
    raises an [IntegrityError] and the database is as it was. *)
Theorem docente_create_username_en_uso {fw : Framework} (d v : DocenteCreate.datos)
    (un : string) (r : usuarios.fila) (db : DB) :
  DocenteCreate.is_valid d db = (Ok v, db) ->
  DocenteCreate.username d = Some un ->
  In r (t_usuarios db) ->
  usuarios.id r <> None ->
  usuarios.username r = Py.lower un \/ usuarios.usuario_unico r = Some (Py.lower un) ->
  DocenteCreateView.create d db
  = (Raise (IntegrityError "UNIQUE constraint failed: usuarios"), db).
Proof.
  intros V Dun Hr Nid Col.
  unfold DocenteCreateView.create. unfold bind at 1. rewrite V.
  apply docente_is_valid_ok_inv in V. destruct V as [_ Dv].
  destruct Dv as [_ (un' & Dun' & Vun & _) _ _ _ _ _ _ _].
  rewrite Dun in Dun'. injection Dun' as <-.
  unfold DocenteCreate.create, atomic, bind, Usuario.save, Usuario.super_save.
  replace (existsb _ (t_usuarios db)) with true; [reflexivity |].
  symmetry. apply existsb_exists. exists r. split; [exact Hr |].
  pose proof (antes_de_guardar_campos (DocenteCreate.usuario_nuevo v)) as F.
  cbv zeta in F. destruct F as (Fi & Fn & _ & _ & _ & _ & Fu & _).
  unfold Usuario.choca. rewrite Fi, Fn, Fu.
  unfold DocenteCreate.usuario_nuevo. cbn [usuarios.id usuarios.username usuarios.usuario_unico].
  rewrite Vun. simpl o_.
  apply andb_true_iff. split.
  - apply negb_true_iff. destruct (id_eqb (usuarios.id r) None) eqn:I; [| reflexivity].
    apply id_eqb_eq in I. contradiction.
  - apply orb_true_iff. destruct Col as [C | C].
    + left. apply String.eqb_eq. exact C.
    + right. rewrite C. apply String.eqb_refl.
Qed.

(** [Ana.Gomez] as login name while a user holds the handle
    [ana.gomez]. *)
Lemma docente_create_username_en_uso_witness :
  DocenteCreateView.create (fw := Ejemplo.fw) (docente_data "Ana.Gomez") Ejemplo.db
  = (Raise (IntegrityError "UNIQUE constraint failed: usuarios"), Ejemplo.db).
Proof.
  destruct (DocenteCreate.is_valid (fw := Ejemplo.fw) (docente_data "Ana.Gomez") Ejemplo.db)
    as [[v | e] db1] eqn:V; [| vm_compute in V; discriminate V].
  assert (db1 = Ejemplo.db) by (vm_compute in V; inversion V; reflexivity).
  subst db1.
  apply (docente_create_username_en_uso (fw := Ejemplo.fw) (docente_data "Ana.Gomez") v
           "Ana.Gomez" Ejemplo.otra_ana Ejemplo.db V).
  - reflexivity.
  - simpl. auto.
  - discriminate.
  - right. reflexivity.
Defined.

(** ** The teacher and the category of a course that is created *)

Lemma no_escribe_bind {A B : Type} (m : M A) (k : A -> M B) :
  no_escribe m -> (forall a, no_escribe (k a)) -> no_escribe (bind m k).
Proof.
  intros Hm Hk db. unfold bind. specialize (Hm db).
  destruct (m db) as [[a | e] db1]; simpl in Hm; subst; [apply Hk | reflexivity].
Qed.

Lemma no_escribe_solo_valida {A : Type} (m : M A) : solo_valida m -> no_escribe m.
Proof. intros S db. destruct (S db) as [(a & ->) | (c & msg & ->)]; reflexivity. Qed.

Lemma no_escribe_campo {A : Type} (nombre : string) (requerido parcial : bool)
    (valor : option A) (validar : A -> M A) :
  (forall x, no_escribe (validar x)) ->
  no_escribe (campo nombre requerido parcial valor validar).
Proof.
  intros H. unfold campo. destruct valor as [x |].
  - apply no_escribe_bind; [apply H | intros a db; reflexivity].
  - destruct (requerido && negb parcial); intros db; reflexivity.
Qed.

Lemma no_escribe_docente_principal (value : Z) :
  no_escribe (CursoCreateSerializer.campo_docente_principal value).
Proof.
  intros db. unfold CursoCreateSerializer.campo_docente_principal,
    CursoCreateSerializer.validate_docente_principal, bind, leer, ret, raise.
  destruct (find _ _) as [d |]; [| reflexivity].
  destruct (Docente.usuario_de d db) as [u |]; [| reflexivity].
  destruct (negb (usuarios.activo u)); [reflexivity |].
  destruct (negb (usuarios.perfil_completo u)); [reflexivity |].
  destruct (negb (Docente.perfil_docente_completo d db)); reflexivity.
Qed.

Lemma no_escribe_categoria (value : Z) :
  no_escribe (CursoCreateSerializer.campo_categoria value).
Proof.
  intros db. unfold CursoCreateSerializer.campo_categoria, bind, leer, ret, raise.
  destruct (existsb _ _); reflexivity.
Qed.

Lemma no_escribe_ok {A : Type} (m : M A) (db db' : DB) (a : A) :
  no_escribe m -> m db = (Ok a, db') -> db' = db.
Proof. intros N H. specialize (N db). rewrite H in N. exact N. Qed.

(** What a course payload that passed the validation of a creation is
    known to name. *)
Lemma curso_is_valid_docente {fw : Framework} (d v : CursoCreateSerializer.datos)
    (db db' : DB) :
  CursoCreateSerializer.is_valid false d db = (Ok v, db') ->
  exists cat k doc u,
    CursoCreateSerializer.categoria v = Some cat
    /\ (exists c, In c (t_categorias db) /\ categorias.id c = Some cat)
    /\ CursoCreateSerializer.docente_principal v = Some k
    /\ In doc (t_docentes db)
    /\ docentes.id doc = Some k
    /\ Docente.usuario_de doc db = Some u
    /\ usuarios.activo u = true
    /\ usuarios.perfil_completo u = true
    /\ Docente.perfil_docente_completo doc db = true.
Proof.
  intros H. unfold CursoCreateSerializer.is_valid in H.
  inv_bind H. rename a into v1. rename Hm into F1.
  apply no_escribe_ok in F1 as E1;
    [| apply no_escribe_campo; intros; apply no_escribe_solo_valida;
       apply solo_valida_bind; [apply solo_valida_no_vacio | intros; apply solo_valida_max_length]].
  subst dbi.
  inv_bind H. rename a into v2. rename Hm into F2.
  apply no_escribe_ok in F2 as E2;
    [| apply no_escribe_campo; intros; apply no_escribe_solo_valida;
       apply solo_valida_no_vacio].
  subst dbi.
  inv_bind H. rename a into v3. rename Hm into F3.
  apply no_escribe_ok in F3 as E3;
    [| apply no_escribe_campo; intros; apply no_escribe_solo_valida;
       apply solo_valida_max_length].
  subst dbi.
  inv_bind H. rename a into v4. rename Hm into F4.
  apply no_escribe_ok in F4 as E4;
    [| apply no_escribe_campo; intros; apply no_escribe_categoria].
  subst dbi.
  inv_bind H. rename a into v5. rename Hm into F5.
  apply no_escribe_ok in F5 as E5;
    [| apply no_escribe_campo; intros; apply no_escribe_docente_principal].
  subst dbi.
  repeat (inv_bind H; clear Hm). apply ret_ok_inv in H. destruct H as [-> _].
  cbn [CursoCreateSerializer.categoria CursoCreateSerializer.docente_principal].
  apply campo_ok_inv in F4.
  destruct F4 as [(_ & _ & _ & [N | N]) | (cat & y & _ & -> & F4)]; try discriminate.
  apply campo_ok_inv in F5.
  destruct F5 as [(_ & _ & _ & [N | N]) | (k & y5 & _ & -> & F5)]; try discriminate.
  unfold CursoCreateSerializer.campo_categoria, bind, leer in F4.
  destruct (existsb _ (t_categorias db)) eqn:Ex; [| discriminate].
  apply ret_ok_inv in F4. destruct F4 as [-> _].
  apply existsb_exists in Ex. destruct Ex as (c & Hc & Ec). apply id_eqb_eq in Ec.
  unfold CursoCreateSerializer.campo_docente_principal, bind, leer in F5.
  destruct (find _ (t_docentes db)) as [doc |] eqn:Fd; [| discriminate].
  apply find_some in Fd. destruct Fd as [Hdoc Edoc].
  apply andb_true_iff in Edoc. destruct Edoc as [Eid _]. apply id_eqb_eq in Eid.
  unfold CursoCreateSerializer.validate_docente_principal, bind, leer in F5.
  destruct (Docente.usuario_de doc db) as [u |] eqn:Ud; [| discriminate].
  destruct (usuarios.activo u) eqn:Ac; [| discriminate].
  destruct (usuarios.perfil_completo u) eqn:Pc; [| discriminate].
  destruct (Docente.perfil_docente_completo doc db) eqn:Pd; [| discriminate].
  simpl in F5. apply ret_ok_inv in F5. destruct F5 as [-> _].
  exists cat, k, doc, u.
  split; [reflexivity |]. split; [exists c; auto |]. split; [reflexivity |].
  split; [exact Hdoc |]. split; [exact Eid |]. split; [exact Ud |].
  split; [exact Ac |]. split; [exact Pc | exact Pd].
Qed.

(** X19.  A course is created by [crear_completo] only for a category
    that exists and for a teacher who is a row of the table, whose user
    is active with a complete profile, and who has a speciality, a
    biography and years of experience: when the answer is 201 the
    course added names such a teacher and such a category. *)
Theorem crear_completo_201_docente_apto {fw : Framework}
    (request_data : data.request) (db db' : DB) (resp : Response) :
  CursoViewSet.crear_completo request_data db = (Ok resp, db') ->
  status resp = HTTP_201_CREATED ->
  exists c cat doc u,
    In c (t_cursos db')
    /\ cursos.id c = Some (seq_cursos db + 1)
    /\ In cat (t_categorias db')
    /\ categorias.id cat = Some (cursos.categoria c)
    /\ In doc (t_docentes db')
    /\ docentes.id doc = Some (cursos.docente_principal c)
    /\ Docente.usuario_de doc db' = Some u
    /\ usuarios.activo u = true
    /\ usuarios.perfil_completo u = true
    /\ docentes.especialidad doc <> ""
    /\ docentes.biografia_extendida doc <> ""
    /\ docentes.experiencia_anos doc <> None.
Proof.
  unfold CursoViewSet.crear_completo, try_except, atomic.
  destruct (CursoViewSet.crear_completo_atomic request_data db) as [[r | e] db1] eqn:E;
    [| intros H S; inversion H; subst; discriminate S].
  intros H S. inversion H; subst. clear H.
  unfold CursoViewSet.crear_completo_atomic in E.
  destruct (data.curso request_data) as [curso_data |];
    [| inversion E; subst; discriminate S].
  destruct (data.modulos request_data) as [modulos_data |];
    [| inversion E; subst; discriminate S].
  inv_bind E. rename a into v. rename Hm into V.
  inv_bind E. rename a into c. rename Hm into C.
  inv_bind E. rename Hm into Ms.
  inv_bind E. rename Hm into R.
  apply ret_ok_inv in E. destruct E as [_ ->].
  pose proof (solo_valida_curso_is_valid_conserva false curso_data db) as Vdb.
  rewrite V in Vdb. simpl in Vdb. subst dbi.
  destruct modulos_data as [| m resto];
    [| destruct (crear_modulos_falla c (m :: resto) dbi0) as (e & F);
       [discriminate | rewrite F in Ms; discriminate]].
  simpl in Ms. apply ret_ok_inv in Ms. destruct Ms as [_ ->].
  pose proof (respuesta_sin_escribir c dbi0) as Rdb. rewrite R in Rdb. simpl in Rdb.
  subst dbi2.
  apply curso_is_valid_docente in V.
  destruct V as (cat & k & doc & u & Vc & (ca & Hca & Eca) & Vd & Hdoc & Edoc & Ud & Ac & Pc & Pd).
  unfold CursoCreateSerializer.create, bind, leer in C.
  unfold Curso.save in C.
  apply curso_super_save_ok in C;
    [| unfold Curso.antes_de_guardar; destruct (o_ _ true); reflexivity].
  destruct C as [-> ->].
  eexists. exists ca, doc, u.
  split; [simpl; apply in_or_app; right; simpl; left; reflexivity |].
  split; [reflexivity |].
  split; [exact Hca |].
  split.
  { rewrite Eca. unfold Curso.antes_de_guardar. rewrite Vc.
    destruct (o_ (CursoCreateSerializer.es_gratuito v) true); reflexivity. }
  split; [exact Hdoc |].
  split.
  { rewrite Edoc. unfold Curso.antes_de_guardar. rewrite Vd.
    destruct (o_ (CursoCreateSerializer.es_gratuito v) true); reflexivity. }
  split; [exact Ud |]. split; [exact Ac |]. split; [exact Pc |].
  unfold Docente.perfil_docente_completo in Pd.
  apply andb_true_iff in Pd. destruct Pd as [Pd _]. simpl in Pd.
  rewrite !andb_true_iff in Pd. destruct Pd as (A & B & C & _).
  apply truthy_str_spec in A, B. apply truthy_opt_spec in C.
  auto.
Qed.

(** The course of the example is created for the teacher Lucia and the
    category of web development. *)
Lemma crear_completo_201_docente_apto_witness :
  exists c doc u,
    In c (t_cursos (snd (CursoViewSet.crear_completo (fw := Ejemplo.fw)
                           (data.mk (Some Ejemplo.curso_data) (Some [])) Ejemplo.db)))
    /\ cursos.id c = Some 2
    /\ docentes.id doc = Some (cursos.docente_principal c)
    /\ Docente.usuario_de doc
         (snd (CursoViewSet.crear_completo (fw := Ejemplo.fw)
                 (data.mk (Some Ejemplo.curso_data) (Some [])) Ejemplo.db)) = Some u
    /\ usuarios.activo u = true
    /\ usuarios.perfil_completo u = true.
Proof.
  pose proof (crear_completo_201_docente_apto (fw := Ejemplo.fw)
                (data.mk (Some Ejemplo.curso_data) (Some [])) Ejemplo.db
                (snd (CursoViewSet.crear_completo (fw := Ejemplo.fw)
                        (data.mk (Some Ejemplo.curso_data) (Some [])) Ejemplo.db))
                (mkResponse HTTP_201_CREATED (CuerpoCurso "creado exitosamente" 2))) as H.
  destruct H as (c & cat & doc & u & A & B & _ & _ & _ & D & E & F & G & _);
    [vm_compute; reflexivity | reflexivity |].
  exists c, doc, u.
  split; [exact A |]. split; [exact B |]. split; [exact D |]. split; [exact E |].
  split; [exact F | exact G].
Defined.

(** ** The short description of the admin *)

Lemma length_app_str (a b : string) :
  String.length (a ++ b) = (String.length a + String.length b)%nat.
Proof. induction a as [| c a IH]; simpl; [reflexivity | rewrite IH; reflexivity]. Qed.

Lemma hasta_largo (n : nat) (s : string) :
  String.length (PyStr.hasta n s) = Nat.min n (String.length s).
Proof.
  unfold PyStr.hasta. revert s. induction n as [| n IH]; intros s.
  - destruct s; reflexivity.
  - destruct s as [| c s]; simpl; [reflexivity | rewrite IH; reflexivity].
Qed.

Lemma hasta_prefijo (n : nat) (s : string) :
  exists resto, s = PyStr.hasta n s ++ resto.
Proof.
  unfold PyStr.hasta. revert s. induction n as [| n IH]; intros s.
  - exists s. destruct s; reflexivity.
  - destruct s as [| c s]; simpl; [exists ""; reflexivity |].
    destruct (IH s) as (resto & E). exists resto. rewrite <- E. reflexivity.
Qed.

(** X20.  The short description shown for a category is never empty
    and never longer than 53 characters.  It is the description itself
    when that has from 1 to 50 characters, the first 50 characters of
    the description followed by three dots when it has more, and a
    dash when there is none or it is empty. *)
Theorem descripcion_corta_acotada (obj : categorias.fila) :
  let corta := CategoriaAdmin.descripcion_corta obj in
  (1 <= String.length corta <= 53)%nat
  /\ (forall d, categorias.descripcion obj = Some d ->
        (d <> "" -> (String.length d <= 50)%nat -> corta = d)
        /\ ((50 < String.length d)%nat ->
            exists cabeza resto,
              d = cabeza ++ resto /\ String.length cabeza = 50%nat
              /\ corta = cabeza ++ "..."))
  /\ (categorias.descripcion obj = None \/ categorias.descripcion obj = Some "" ->
      corta = "-").
Proof.
  cbv zeta. unfold CategoriaAdmin.descripcion_corta.
  destruct (categorias.descripcion obj) as [d |]; [| simpl; repeat split; try lia; discriminate].
  destruct (Py.truthy_str d) eqn:T.
  - assert (Nd : d <> "") by (apply truthy_str_spec; exact T).
    assert (Ld : (1 <= String.length d)%nat) by (destruct d; [contradiction | simpl; lia]).
    destruct (50 <? String.length d)%nat eqn:L.
    + apply Nat.ltb_lt in L.
      pose proof (hasta_largo 50 d) as Hl. rewrite Nat.min_l in Hl by lia.
      split; [rewrite length_app_str, Hl; simpl; lia |].
      split.
      * intros d' E. injection E as <-. split; [intros _ Le; lia |].
        intros _. destruct (hasta_prefijo 50 d) as (resto & E).
        exists (PyStr.hasta 50 d), resto. auto.
      * intros [E | E]; [discriminate | congruence].
    + apply Nat.ltb_ge in L. split; [lia |]. split.
      * intros d' E. injection E as <-. split; [reflexivity | lia].
      * intros [E | E]; [discriminate | congruence].
  - assert (d = "").
    { destruct d; [reflexivity |]. exfalso.
      assert (N : String a d <> "") by discriminate.
      apply truthy_str_spec in N. congruence. }
    subst d. simpl. split; [lia |]. split; [| reflexivity].
    intros d' E. injection E as <-. split; [intros N; contradiction | simpl; lia].
Qed.

(** ** Modules and lessons through their own endpoints *)

Lemma solo_valida_leccion_is_valid {fw : Framework} (d : LeccionSerializer.datos) :
  solo_valida (LeccionSerializer.is_valid d).
Proof.
  unfold LeccionSerializer.is_valid.
  repeat (apply solo_valida_bind; [apply solo_valida_campo; intros | intros]);
    try apply solo_valida_ret.
  - apply solo_valida_bind; [apply solo_valida_no_vacio | intros; apply solo_valida_max_length].
  - unfold opcion. apply solo_valida_if; [apply solo_valida_ret | apply solo_valida_raise].
  - unfold LeccionSerializer.url.
    repeat first [apply solo_valida_if | apply solo_valida_ret | apply solo_valida_raise
                 | apply solo_valida_max_length].
  - unfold no_negativo. apply solo_valida_if; [apply solo_valida_raise | apply solo_valida_ret].
  - unfold no_negativo. apply solo_valida_if; [apply solo_valida_raise | apply solo_valida_ret].
Qed.

Lemma leccion_serializer_save_falla (v : LeccionSerializer.validados) (db : DB) :
  LeccionSerializer.save v db
  = (Raise (IntegrityError "NOT NULL constraint failed: lecciones.modulo_id"), db).
Proof.
  unfold LeccionSerializer.save, LeccionSerializer.create, Leccion.save,
    Leccion.antes_de_guardar.
  destruct (_ && _); reflexivity.
Qed.

(** X21.  No module and no lesson is ever created through the
    endpoints of their own view sets.  The serializers used there have
    neither the course of a module nor the module of a lesson among
    their fields, so whatever the request, a payload that does not pass
    the validation raises its [ValidationError], and one that passes is
    refused by the table as a row without its parent: an
    [IntegrityError] that nothing catches.  The database is as it was
    in both cases. *)
Theorem modulos_y_lecciones_no_se_crean {fw : Framework} (db : DB) :
  (forall d, exists e,
     ModuloViewSet.create d db = (Raise e, db)
     /\ ((exists c msg, e = ValidationError c msg)
         \/ e = IntegrityError "NOT NULL constraint failed: modulos.curso_id"))
  /\ (forall d, exists e,
        LeccionViewSet.create d db = (Raise e, db)
        /\ ((exists c msg, e = ValidationError c msg)
            \/ e = IntegrityError "NOT NULL constraint failed: lecciones.modulo_id")).
Proof.
  split; intros d.
  - unfold ModuloViewSet.create, bind.
    destruct (solo_valida_modulo_is_valid d db) as [(v & ->) | (c & msg & ->)].
    + rewrite modulo_serializer_save_falla. eauto.
    + eauto 6.
  - unfold LeccionViewSet.create, bind.
    destruct (solo_valida_leccion_is_valid d db) as [(v & ->) | (c & msg & ->)].
    + rewrite leccion_serializer_save_falla. eauto.
    + eauto 6.
Qed.

(** ** The count of courses of a category *)

Lemma total_cursos_uno_mas (obj : categorias.fila) (c : cursos.fila) (db db' : DB) :
  t_cursos db' = (t_cursos db ++ [c])%list ->
  cursos.activo c = true ->
  CategoriaAdmin.total_cursos obj db'
  = (CategoriaAdmin.total_cursos obj db
     + (if id_eqb (Some (cursos.categoria c)) (categorias.id obj) then 1 else 0))%nat.
Proof.
  intros T A. unfold CategoriaAdmin.total_cursos. rewrite T.
  rewrite !filter_app, length_app. f_equal. cbn [filter].
  destruct (id_eqb (Some (cursos.categoria c)) (categorias.id obj)); cbn [filter];
    [rewrite A |]; reflexivity.
Qed.

(** X22.  A course created by [crear_completo] is counted at once, and
    only where it belongs: when the answer is 201, the number of active
    courses shown for the category of the new course is one more than
    before, that category is a row of the table, and the number shown
    for every category with another id is what it was. *)
Theorem crear_completo_201_cuenta_en_su_categoria {fw : Framework}
    (request_data : data.request) (db db' : DB) (resp : Response) :
  CursoViewSet.crear_completo request_data db = (Ok resp, db') ->
  status resp = HTTP_201_CREATED ->
  exists c cat,
    t_cursos db' = (t_cursos db ++ [c])%list
    /\ In cat (t_categorias db)
    /\ categorias.id cat = Some (cursos.categoria c)
    /\ t_categorias db' = t_categorias db
    /\ (forall obj, categorias.id obj = Some (cursos.categoria c) ->
          CategoriaAdmin.total_cursos obj db'
          = S (CategoriaAdmin.total_cursos obj db))
    /\ (forall obj, categorias.id obj <> Some (cursos.categoria c) ->
          CategoriaAdmin.total_cursos obj db' = CategoriaAdmin.total_cursos obj db).
Proof.
  unfold CursoViewSet.crear_completo, try_except, atomic.
  destruct (CursoViewSet.crear_completo_atomic request_data db) as [[r | e] db1] eqn:E;
    [| intros H S; inversion H; subst; discriminate S].
  intros H S. inversion H; subst. clear H.
  unfold CursoViewSet.crear_completo_atomic in E.
  destruct (data.curso request_data) as [curso_data |];
    [| inversion E; subst; discriminate S].
  destruct (data.modulos request_data) as [modulos_data |];
    [| inversion E; subst; discriminate S].
  inv_bind E. rename a into v. rename Hm into V.
  inv_bind E. rename a into c. rename Hm into C.
  inv_bind E. rename Hm into Ms.
  inv_bind E. rename Hm into R.
  apply ret_ok_inv in E. destruct E as [_ ->].
  pose proof (solo_valida_curso_is_valid_conserva false curso_data db) as Vdb.
  rewrite V in Vdb. simpl in Vdb. subst dbi.
  destruct modulos_data as [| m resto];
    [| destruct (crear_modulos_falla c (m :: resto) dbi0) as (e & F);
       [discriminate | rewrite F in Ms; discriminate]].
  simpl in Ms. apply ret_ok_inv in Ms. destruct Ms as [_ ->].
  pose proof (respuesta_sin_escribir c dbi0) as Rdb. rewrite R in Rdb. simpl in Rdb.
  subst dbi2.
  apply curso_is_valid_docente in V.
  destruct V as (cat & k & doc & u & Vc & (ca & Hca & Eca) & _).
  unfold CursoCreateSerializer.create, bind, leer in C.
  unfold Curso.save in C.
  apply curso_super_save_ok in C;
    [| unfold Curso.antes_de_guardar; destruct (o_ _ true); reflexivity].
  destruct C as [Ec ->].
  assert (Cc : cursos.categoria c = cat).
  { rewrite Ec. unfold Curso.antes_de_guardar. rewrite Vc.
    destruct (o_ (CursoCreateSerializer.es_gratuito v) true); reflexivity. }
  assert (Ac : cursos.activo c = true).
  { rewrite Ec. unfold Curso.antes_de_guardar.
    destruct (o_ (CursoCreateSerializer.es_gratuito v) true); reflexivity. }
  set (db' := con_cursos (t_cursos db ++ [c]) (seq_cursos db + 1) db).
  assert (Tot : forall obj,
            CategoriaAdmin.total_cursos obj db'
            = (CategoriaAdmin.total_cursos obj db
               + (if id_eqb (Some (cursos.categoria c)) (categorias.id obj)
                  then 1 else 0))%nat).
  { intros obj. apply total_cursos_uno_mas; [reflexivity | exact Ac]. }
  exists c, ca.
  split; [reflexivity |]. split; [exact Hca |].
  split; [rewrite Cc; exact Eca |]. split; [reflexivity |].
  split; intros obj Hobj; rewrite Tot.
  - rewrite <- Hobj, id_eqb_refl. lia.
  - destruct (id_eqb (Some (cursos.categoria c)) (categorias.id obj)) eqn:I; [| lia].
    apply id_eqb_eq in I. congruence.
Qed.

(** The category of the example goes from one active course to two. *)
Lemma crear_completo_201_cuenta_en_su_categoria_witness :
  CategoriaAdmin.total_cursos Ejemplo.categoria_web Ejemplo.db = 1%nat
  /\ CategoriaAdmin.total_cursos Ejemplo.categoria_web
       (snd (CursoViewSet.crear_completo (fw := Ejemplo.fw)
               (data.mk (Some Ejemplo.curso_data) (Some [])) Ejemplo.db)) = 2%nat.
Proof.
  split; [reflexivity |].
  pose proof (crear_completo_201_cuenta_en_su_categoria (fw := Ejemplo.fw)
                (data.mk (Some Ejemplo.curso_data) (Some [])) Ejemplo.db
                (snd (CursoViewSet.crear_completo (fw := Ejemplo.fw)
                        (data.mk (Some Ejemplo.curso_data) (Some [])) Ejemplo.db))
                (mkResponse HTTP_201_CREATED (CuerpoCurso "creado exitosamente" 2))) as H.
  destruct H as (c & cat & T & _ & _ & _ & A & _);
    [vm_compute; reflexivity | reflexivity |].
  rewrite (A Ejemplo.categoria_web).
  - reflexivity.
  - assert (E : c = cursos.set_id (Some 2)
                      (cursos.mk None "React" "Interfaces con React" None 1 1 None None
                         "asincrono" "principiante" None 24999 false None false true "uuid-2")).
    { vm_compute in T. injection T as T. symmetry. exact T. }
    rewrite E. reflexivity.
Defined.

(** ** Login *)

Lemma filtro_unico {A : Type} (p : A -> bool) (l : list A) (u x : A) :
  filter p l = [u] -> In x l -> p x = true -> x = u.
Proof.
  intros F Hx Px.
  assert (I : In x (filter p l)) by (apply filter_In; auto).
  rewrite F in I. simpl in I. destruct I as [E | []]. symmetry. exact E.
Qed.

(** What a login that was answered 200 has checked. *)
Lemma login_ok_inv {fw : Framework} {au : Autenticacion}
    (d : CustomTokenObtainPairSerializer.datos) (db : DB) (u : usuarios.fila)
    (pc : bool) (sp : option string) :
  CustomTokenObtainPairView.post d db = CustomTokenObtainPairView.Login u pc sp ->
  exists e p,
    CustomTokenObtainPairSerializer.email d = Some e
    /\ CustomTokenObtainPairSerializer.password d = Some p
    /\ In u (t_usuarios db)
    /\ usuarios.email u = e
    /\ (forall r, In r (t_usuarios db) -> usuarios.email r = e -> r = u)
    /\ check_password p (usuarios.password u) = true
    /\ is_active u = true
    /\ usuarios.activo u = true
    /\ pc = usuarios.perfil_completo u
    /\ (sp = None <-> usuarios.perfil_completo u = true)
    /\ (sp = Some "completar_perfil" <-> usuarios.perfil_completo u = false).
Proof.
  unfold CustomTokenObtainPairView.post, CustomTokenObtainPairSerializer.is_valid,
    CustomTokenObtainPairSerializer.validate.
  destruct (CustomTokenObtainPairSerializer.email d) as [e |]; [| discriminate].
  destruct (negb (Py.truthy_str e)); [discriminate |].
  destruct (negb (EmailField e)); [discriminate |].
  destruct (CustomTokenObtainPairSerializer.password d) as [p |]; [| discriminate].
  destruct (negb (Py.truthy_str p)); [discriminate |]. simpl orb. cbv iota.
  destruct (filter _ (t_usuarios db)) as [| user [| otro resto]] eqn:F; try discriminate.
  destruct (check_password p (usuarios.password user)) eqn:C; [| discriminate].
  destruct (is_active user) eqn:I; [| discriminate].
  destruct (usuarios.activo user) eqn:A; [| discriminate].
  simpl. intros H. inversion H; subst. clear H.
  assert (Iu : In u (filter (fun r => String.eqb (usuarios.email r) e) (t_usuarios db)))
    by (rewrite F; simpl; auto).
  apply filter_In in Iu. destruct Iu as [Iu Eu]. apply String.eqb_eq in Eu.
  exists e, p. repeat (split; [first [reflexivity | assumption] |]).
  split.
  { intros r Hr Er. apply (filtro_unico _ _ _ _ F Hr). apply String.eqb_eq. exact Er. }
  repeat (split; [first [reflexivity | assumption] |]).
  destruct (usuarios.perfil_completo u); split; split; intros H;
    first [reflexivity | discriminate H].
Qed.

(** X23.  A login is answered 200 only for the one user stored with
    exactly the e-mail that was sent, capitals included, whose password
    check passes and whose account is active on both flags; the answer
    carries the flag [perfil_completo] of that user and asks for the
    profile to be completed exactly when the flag is false. *)
Theorem login_solo_credenciales_validas {fw : Framework} {au : Autenticacion}
    (d : CustomTokenObtainPairSerializer.datos) (db : DB) (u : usuarios.fila)
    (pc : bool) (sp : option string) :
  CustomTokenObtainPairView.post d db = CustomTokenObtainPairView.Login u pc sp ->
  exists e p,
    CustomTokenObtainPairSerializer.email d = Some e
    /\ CustomTokenObtainPairSerializer.password d = Some p
    /\ In u (t_usuarios db)
    /\ usuarios.email u = e
    /\ (forall r, In r (t_usuarios db) -> usuarios.email r = e -> r = u)
    /\ check_password p (usuarios.password u) = true
    /\ is_active u = true
    /\ usuarios.activo u = true
    /\ pc = usuarios.perfil_completo u
    /\ (sp = None <-> usuarios.perfil_completo u = true)
    /\ (sp = Some "completar_perfil" <-> usuarios.perfil_completo u = false).
Proof.
  unfold CustomTokenObtainPairView.post, CustomTokenObtainPairSerializer.is_valid,
    CustomTokenObtainPairSerializer.validate.
  destruct (CustomTokenObtainPairSerializer.email d) as [e |]; [| discriminate].
  destruct (negb (Py.truthy_str e)); [discriminate |].
  destruct (negb (EmailField e)); [discriminate |].
  destruct (CustomTokenObtainPairSerializer.password d) as [p |]; [| discriminate].
  destruct (negb (Py.truthy_str p)); [discriminate |]. simpl orb. cbv iota.
  destruct (filter _ (t_usuarios db)) as [| user [| otro resto]] eqn:F; try discriminate.
  destruct (check_password p (usuarios.password user)) eqn:C; [| discriminate].
  destruct (is_active user) eqn:I; [| discriminate].
  destruct (usuarios.activo user) eqn:A; [| discriminate].
  simpl. intros H. inversion H; subst. clear H.
  assert (Iu : In u (filter (fun r => String.eqb (usuarios.email r) e) (t_usuarios db)))
    by (rewrite F; simpl; auto).
  apply filter_In in Iu. destruct Iu as [Iu Eu]. apply String.eqb_eq in Eu.
  exists e, p. repeat (split; [first [reflexivity | assumption] |]).
  split.
  { intros r Hr Er. apply (filtro_unico _ _ _ _ F Hr). apply String.eqb_eq. exact Er. }
  repeat (split; [first [reflexivity | assumption] |]).
  destruct (usuarios.perfil_completo u); split; split; intros H;
    first [reflexivity | discriminate H].
Qed.

(** The teacher of the example logs in with her address and not with
    another spelling of it. *)
Lemma login_solo_credenciales_validas_witness :
  CustomTokenObtainPairView.post (fw := Ejemplo.fw) (au := autenticacion_ejemplo)
    (CustomTokenObtainPairSerializer.mk (Some "lucia@codea.pe") (Some "x")) Ejemplo.db
  = CustomTokenObtainPairView.Login Ejemplo.profesora true None
  /\ usuarios.email Ejemplo.profesora = "lucia@codea.pe"
  /\ usuarios.activo Ejemplo.profesora = true.
Proof.
  assert (P : CustomTokenObtainPairView.post (fw := Ejemplo.fw) (au := autenticacion_ejemplo)
                (CustomTokenObtainPairSerializer.mk (Some "lucia@codea.pe") (Some "x"))
                Ejemplo.db
              = CustomTokenObtainPairView.Login Ejemplo.profesora true None)
    by (vm_compute; reflexivity).
  destruct (login_solo_credenciales_validas (fw := Ejemplo.fw) (au := autenticacion_ejemplo)
              _ _ _ _ _ P) as (e & p & E & _ & _ & Em & _ & _ & _ & A & _).
  injection E as <-. split; [exact P |]. split; [exact Em | exact A].
Defined.

Lemma filtro_email_vacio (x : string) (t : list usuarios.fila) :
  (forall r, In r t -> usuarios.email r <> x) ->
  filter (fun r => String.eqb (usuarios.email r) x) t = [].
Proof.
  intros Hx. induction t as [| r t IH]; simpl; [reflexivity |].
  destruct (String.eqb (usuarios.email r) x) eqn:X.
  - apply String.eqb_eq in X. exfalso. apply (Hx r); simpl; auto.
  - apply IH. intros r' Hr'. apply Hx. simpl. auto.
Qed.

(** X24.  The e-mail of a registration is stored in lower case, and
    the login looks it up as it is typed.  So a user registered with an
    address that has capitals logs in with its lower-case form, and is
    told that the credentials are invalid when typing the address as
    at registration, with the right password. *)
Theorem login_tras_registro {fw : Framework} {au : Autenticacion}
    (e p : string) (db db' : DB) (resp : Response) :
  (forall raw, check_password raw (make_password raw) = true) ->
  (forall r, is_active r = true) ->
  e <> "" ->
  EmailField (Py.lower e) = true ->
  (forall r, In r (t_usuarios db) -> usuarios.email r <> Py.lower e) ->
  RegistroInicialView.create (RegistroInicialSerializer.mk (Some e) (Some p) (Some p)) db
  = (Ok resp, db') ->
  (exists u,
     In u (t_usuarios db')
     /\ CustomTokenObtainPairView.post
          (CustomTokenObtainPairSerializer.mk (Some (Py.lower e)) (Some p)) db'
        = CustomTokenObtainPairView.Login u false (Some "completar_perfil"))
  /\ (e <> Py.lower e ->
      CustomTokenObtainPairView.post
        (CustomTokenObtainPairSerializer.mk (Some e) (Some p)) db'
      = CustomTokenObtainPairView.Error400 "non_field_errors" "Credenciales inválidas.").
Proof.
  intros Hc Ha Ne Ef Nl R.
  destruct (registro_resultados
              (RegistroInicialSerializer.mk (Some e) (Some p) (Some p)) db)
    as [(c & msg & R') | (e' & p' & u & E1 & E2 & R' & Hid & Hem & Hpw & _ & _ & _ & _ & _
                          & _ & Hac & Hpc)];
    [rewrite R' in R; discriminate |].
  simpl in E1, E2. injection E1 as <-. injection E2 as <-.
  rewrite R' in R. inversion R; subst resp db'. clear R.
  (* what the validation of the registration knew *)
  assert (V : EmailField e = true
              /\ (forall r, In r (t_usuarios db) -> usuarios.email r <> e)
              /\ p <> "").
  { unfold RegistroInicialView.create in R'. inv_bind R'.
    apply registro_is_valid_ok_inv in Hm.
    destruct Hm as (e1 & p1 & E1 & E2 & _ & Ev & Nv & Lp & _).
    simpl in E1, E2. injection E1 as <-. injection E2 as <-.
    split; [exact Ev |]. split; [exact Nv |].
    intros ->. simpl in Lp. lia. }
  destruct V as (Ev & Nv & Np).
  assert (Fl : forall x, (forall r, In r (t_usuarios db) -> usuarios.email r <> x) ->
                         filter (fun r => String.eqb (usuarios.email r) x) (t_usuarios db) = [])
    by (intros x; apply filtro_email_vacio).
  split.
  - exists u. split; [simpl; apply in_or_app; right; simpl; auto |].
    unfold CustomTokenObtainPairView.post, CustomTokenObtainPairSerializer.is_valid,
      CustomTokenObtainPairSerializer.validate.
    cbn [CustomTokenObtainPairSerializer.email CustomTokenObtainPairSerializer.password].
    rewrite lower_vacio.
    apply truthy_str_spec in Ne, Np. rewrite Ne, Np, Ef. simpl negb. cbv iota. simpl orb.
    cbv iota. simpl t_usuarios. rewrite filter_app, (Fl _ Nl). simpl.
    rewrite Hem, String.eqb_refl, Hpw, Hc, Ha, Hac. simpl. rewrite Hpc. reflexivity.
  - intros Dif.
    unfold CustomTokenObtainPairView.post, CustomTokenObtainPairSerializer.is_valid,
      CustomTokenObtainPairSerializer.validate.
    cbn [CustomTokenObtainPairSerializer.email CustomTokenObtainPairSerializer.password].
    apply truthy_str_spec in Ne, Np. rewrite Ne, Np, Ev. simpl negb. cbv iota. simpl orb.
    cbv iota. simpl t_usuarios. rewrite filter_app, (Fl _ Nv). simpl.
    rewrite Hem.
    replace (String.eqb (Py.lower e) e) with false; [reflexivity |].
    symmetry. apply String.eqb_neq. congruence.
Qed.

(** Nina registers as [Nina@Codea.pe]. *)
Lemma login_tras_registro_witness :
  (exists u,
     CustomTokenObtainPairView.post (fw := Ejemplo.fw) (au := autenticacion_ejemplo)
       (CustomTokenObtainPairSerializer.mk (Some "nina@codea.pe") (Some "Secreta123"))
       (snd (RegistroInicialView.create (fw := Ejemplo.fw)
               (RegistroInicialSerializer.mk (Some "Nina@Codea.pe") (Some "Secreta123")
                  (Some "Secreta123")) Ejemplo.db))
     = CustomTokenObtainPairView.Login u false (Some "completar_perfil"))
  /\ CustomTokenObtainPairView.post (fw := Ejemplo.fw) (au := autenticacion_ejemplo)
       (CustomTokenObtainPairSerializer.mk (Some "Nina@Codea.pe") (Some "Secreta123"))
       (snd (RegistroInicialView.create (fw := Ejemplo.fw)
               (RegistroInicialSerializer.mk (Some "Nina@Codea.pe") (Some "Secreta123")
                  (Some "Secreta123")) Ejemplo.db))
     = CustomTokenObtainPairView.Error400 "non_field_errors" "Credenciales inválidas.".
Proof.
  destruct (RegistroInicialView.create (fw := Ejemplo.fw)
              (RegistroInicialSerializer.mk (Some "Nina@Codea.pe") (Some "Secreta123")
                 (Some "Secreta123")) Ejemplo.db) as [[resp | ex] db'] eqn:R;
    [| vm_compute in R; discriminate R].
  destruct (login_tras_registro (fw := Ejemplo.fw) (au := autenticacion_ejemplo)
              "Nina@Codea.pe" "Secreta123" Ejemplo.db db' resp) as [(u & _ & A) B].
  - intros raw. simpl. apply String.eqb_refl.
  - reflexivity.
  - discriminate.
  - reflexivity.
  - intros r Hr. simpl in Hr. destruct Hr as [<- | [<- | [<- | []]]]; discriminate.
  - exact R.
  - split; [exists u; exact A | apply B; discriminate].
Defined.

Lemma docente_delete_ok_inv {fw : Framework} (id : Z) (db db' : DB) (msg : string) :
  DocenteDetailView.delete id db = (Ok msg, db') ->
  exists doc,
    In doc (t_docentes db)
    /\ docentes.id doc = Some id
    /\ (forall r, In r (t_usuarios db') ->
                  usuarios.id r = Some (docentes.usuario doc) -> usuarios.activo r = false).
Proof.
  unfold DocenteDetailView.delete, DocenteDetailView.get_object.
  unfold bind at 1. unfold bind at 1. unfold leer.
  destruct (find (fun d => id_eqb (docentes.id d) (Some id)) (t_docentes db))
    as [docente |] eqn:Fd; [| discriminate].
  apply find_some in Fd. destruct Fd as [Hdoc Edoc]. apply id_eqb_eq in Edoc.
  destruct (Docente.usuario_de docente db) as [usuario |] eqn:Ud; [| discriminate].
  unfold Docente.usuario_de in Ud.
  apply find_some in Ud. destruct Ud as [Hus Eus]. apply id_eqb_eq in Eus.
  unfold ret at 1. unfold bind. cbn [snd].
  destruct (Usuario.save None (usuarios.set_activo false usuario) db)
    as [[u | e] db1] eqn:Sv; [| discriminate].
  apply (usuario_save_reemplaza _ _ (docentes.usuario docente)) in Sv;
    [| exact Eus | exists usuario; auto].
  destruct Sv as [Eu ->].
  cbv beta iota. intros H. unfold ret in H. inversion H; subst. clear H.
  exists docente. split; [exact Hdoc |]. split; [exact Edoc |].
  intros r Hr Er. simpl in Hr. apply in_map_iff in Hr. destruct Hr as (r0 & E0 & H0).
  destruct (id_eqb (usuarios.id r0) (Some (docentes.usuario docente))) eqn:I.
  - subst r. apply antes_de_guardar_activo.
  - subst r0. apply id_eqb_eq in Er. congruence.
Qed.

(** X25.  A teacher removed with [delete] can no longer log in: in the
    database that the removal leaves, no login is answered 200 for the
    user of that teacher, whatever e-mail and password are sent. *)
Theorem login_tras_delete {fw : Framework} {au : Autenticacion} (id : Z) (db db' : DB)
    (msg : string) :
  DocenteDetailView.delete id db = (Ok msg, db') ->
  exists doc,
    In doc (t_docentes db)
    /\ docentes.id doc = Some id
    /\ (forall d u pc sp,
          CustomTokenObtainPairView.post d db' = CustomTokenObtainPairView.Login u pc sp ->
          usuarios.id u <> Some (docentes.usuario doc)).
Proof.
  intros H. apply docente_delete_ok_inv in H.
  destruct H as (doc & Hdoc & Edoc & In_act).
  exists doc. split; [exact Hdoc |]. split; [exact Edoc |].
  intros d u pc sp L Hid.
  apply login_ok_inv in L.
  destruct L as (e & p & _ & _ & Iu & _ & _ & _ & _ & A & _).
  rewrite (In_act u Iu Hid) in A. discriminate A.
Qed.

(** The teacher Lucia of the example logs in before the removal and
    is told afterwards that the account is switched off. *)
Lemma login_tras_delete_witness :
  CustomTokenObtainPairView.post (fw := Ejemplo.fw) (au := autenticacion_ejemplo)
    (CustomTokenObtainPairSerializer.mk (Some "lucia@codea.pe") (Some "x")) Ejemplo.db
  = CustomTokenObtainPairView.Login Ejemplo.profesora true None
  /\ CustomTokenObtainPairView.post (fw := Ejemplo.fw) (au := autenticacion_ejemplo)
       (CustomTokenObtainPairSerializer.mk (Some "lucia@codea.pe") (Some "x"))
       (snd (DocenteDetailView.delete (fw := Ejemplo.fw) 1 Ejemplo.db))
     = CustomTokenObtainPairView.Error400 "non_field_errors" "Esta cuenta está desactivada.".
Proof.
  split; [vm_compute; reflexivity |].
  destruct (DocenteDetailView.delete (fw := Ejemplo.fw) 1 Ejemplo.db) as [[msg | e] db'] eqn:E;
    [| vm_compute in E; discriminate E].
  destruct (login_tras_delete (fw := Ejemplo.fw) (au := autenticacion_ejemplo)
              1 Ejemplo.db db' msg E) as (doc & _ & _ & N).
  simpl snd.
  destruct (CustomTokenObtainPairView.post (fw := Ejemplo.fw) (au := autenticacion_ejemplo)
              (CustomTokenObtainPairSerializer.mk (Some "lucia@codea.pe") (Some "x")) db')
    as [u pc sp | c m |] eqn:P.
  - exfalso. vm_compute in E. inversion E as [[E1 E2]]. subst db'.
    vm_compute in P. discriminate P.
  - vm_compute in E. inversion E as [[E1 E2]]. subst db'.
    vm_compute in P. inversion P. reflexivity.
  - exfalso. vm_compute in E. inversion E as [[E1 E2]]. subst db'.
    vm_compute in P. discriminate P.
Defined.

(** ** The teachers on offer *)

Lemma insertar_en (db : DB) (x y : docentes.fila) (l : list docentes.fila) :
  In y (DocenteListView.insertar db x l) <-> y = x \/ In y l.
Proof.
  induction l as [| z l IH]; simpl.
  - split; [intros [E | []]; auto | intros [E | []]; auto].
  - destruct (DocenteListView.antes _ _); simpl.
    + split; [intros [E | H]; auto | intros [E | H]; auto].
    + rewrite IH. split; [intros [E | [E | H]]; auto | intros [E | [E | H]]; auto].
Qed.

Lemma order_by_en (db : DB) (y : docentes.fila) (l : list docentes.fila) :
  In y (DocenteListView.order_by db l) <-> In y l.
Proof.
  induction l as [| x l IH]; simpl; [tauto |].
  rewrite insertar_en, IH. split; [intros [E | H]; auto | intros [E | H]; auto].
Qed.

Lemma insertar_largo (db : DB) (x : docentes.fila) (l : list docentes.fila) :
  List.length (DocenteListView.insertar db x l) = S (List.length l).
Proof.
  induction l as [| z l IH]; simpl; [reflexivity |].
  destruct (DocenteListView.antes _ _); simpl; [reflexivity | rewrite IH; reflexivity].
Qed.

Lemma order_by_largo (db : DB) (l : list docentes.fila) :
  List.length (DocenteListView.order_by db l) = List.length l.
Proof.
  induction l as [| x l IH]; simpl; [reflexivity |].
  rewrite insertar_largo, IH. reflexivity.
Qed.

Lemma antes_total (a b : string * string) :
  DocenteListView.antes a b = false -> DocenteListView.antes b a = true.
Proof.
  unfold DocenteListView.antes.
  rewrite (String.compare_antisym (fst b) (fst a)).
  destruct (String.compare (fst a) (fst b)) eqn:C; simpl.
  - intros L. destruct (String.leb_total (snd a) (snd b)) as [T | T]; congruence.
  - discriminate.
  - reflexivity.
Qed.

Lemma insertar_ordenada (db : DB) (x : docentes.fila) (l : list docentes.fila) :
  ordenada db l -> ordenada db (DocenteListView.insertar db x l).
Proof.
  induction l as [| y l IH]; [simpl; auto |].
  intros O. cbn [DocenteListView.insertar].
  destruct (DocenteListView.antes (DocenteListView.clave db x) (DocenteListView.clave db y))
    eqn:A.
  - split; [exact A | exact O].
  - apply antes_total in A.
    destruct l as [| z l].
    + simpl. auto.
    + destruct O as [Oyz O]. specialize (IH O).
      cbn [DocenteListView.insertar] in *.
      destruct (DocenteListView.antes (DocenteListView.clave db x)
                  (DocenteListView.clave db z)); split; assumption.
Qed.

Lemma order_by_ordenada (db : DB) (l : list docentes.fila) :
  ordenada db (DocenteListView.order_by db l).
Proof.
  induction l as [| x l IH]; [exact I |].
  simpl. apply insertar_ordenada. exact IH.
Qed.

(** X26.  The three lists of teachers (for the admins, for the public
    and [docentes_disponibles]) hold exactly the teachers whose user is
    active with a complete profile, each once, in the order of first
    and last name; and they agree with the field [docente_principal]
    of a course: an id that no listed teacher has is rejected as
    unknown, and, ids being distinct, the id of a listed teacher is
    accepted when the teacher has a speciality, a biography and years
    of experience, and is otherwise rejected for its professional
    profile. *)
Theorem docentes_listados_y_aceptados (db : DB) :
  (forall d, In d (DocenteListView.get_queryset db)
             <-> In d (t_docentes db)
                 /\ exists u, Docente.usuario_de d db = Some u
                              /\ usuarios.activo u = true
                              /\ usuarios.perfil_completo u = true)
  /\ List.length (DocenteListView.get_queryset db)
     = List.length (filter (CursoCreateSerializer.docente_elegible db) (t_docentes db))
  /\ ordenada db (DocenteListView.get_queryset db)
  /\ (forall k,
        (forall d, In d (DocenteListView.get_queryset db) -> docentes.id d <> Some k) ->
        CursoCreateSerializer.campo_docente_principal k db
        = (Raise (ValidationError "docente_principal"
                    "Invalid pk - object does not exist."), db))
  /\ (NoDup (map docentes.id (t_docentes db)) ->
      forall d k,
        In d (DocenteListView.get_queryset db) ->
        docentes.id d = Some k ->
        CursoCreateSerializer.campo_docente_principal k db
        = if Docente.perfil_docente_completo d db
          then (Ok k, db)
          else (Raise (ValidationError "docente_principal"
                         "El docente debe tener su perfil profesional completo"), db)).
Proof.
  assert (M : forall d, In d (DocenteListView.get_queryset db)
                        <-> In d (t_docentes db)
                            /\ CursoCreateSerializer.docente_elegible db d = true).
  { intros d. unfold DocenteListView.get_queryset. rewrite order_by_en, filter_In. tauto. }
  assert (E : forall d, CursoCreateSerializer.docente_elegible db d = true
                        <-> exists u, Docente.usuario_de d db = Some u
                                      /\ usuarios.activo u = true
                                      /\ usuarios.perfil_completo u = true).
  { intros d. unfold CursoCreateSerializer.docente_elegible.
    destruct (Docente.usuario_de d db) as [u |].
    - rewrite andb_true_iff. split.
      + intros [A B]. exists u. auto.
      + intros (u' & Eu & A & B). injection Eu as <-. auto.
    - split; [discriminate | intros (u' & Eu & _); discriminate]. }
  split; [intros d; rewrite M, E; tauto |].
  split; [apply order_by_largo |].
  split; [apply order_by_ordenada |].
  split.
  - intros k N. unfold CursoCreateSerializer.campo_docente_principal, bind, leer.
    rewrite find_ninguno; [reflexivity |].
    intros d Hd.
    destruct (id_eqb (docentes.id d) (Some k)) eqn:I; [| reflexivity].
    destruct (CursoCreateSerializer.docente_elegible db d) eqn:El; [| reflexivity].
    exfalso. apply id_eqb_eq in I. apply (N d); [apply M; auto | exact I].
  - intros Nd d k Hd Hk. apply M in Hd. destruct Hd as [Hd El].
    unfold CursoCreateSerializer.campo_docente_principal, bind, leer.
    destruct (find _ (t_docentes db)) as [d' |] eqn:F.
    + apply find_some in F. destruct F as [Hd' C].
      apply andb_true_iff in C. destruct C as [I' _]. apply id_eqb_eq in I'.
      assert (d' = d) by (apply (docente_unico_por_id (t_docentes db)); congruence).
      subst d'.
      apply E in El. destruct El as (u & Eu & A & B).
      unfold CursoCreateSerializer.validate_docente_principal, bind, leer.
      rewrite Eu, A, B. simpl negb. cbv iota.
      destruct (Docente.perfil_docente_completo d db); reflexivity.
    + exfalso. apply (find_none _ _ F) in Hd.
      rewrite El, andb_true_r in Hd.
      assert (T : id_eqb (docentes.id d) (Some k) = true) by (apply id_eqb_eq; exact Hk).
      congruence.
Qed.

(** In the example the teacher Lucia is listed and accepted. *)
Lemma docentes_listados_y_aceptados_witness :
  DocenteListView.get_queryset Ejemplo.db = [Ejemplo.docente_lucia]
  /\ CursoCreateSerializer.campo_docente_principal 1 Ejemplo.db = (Ok 1, Ejemplo.db).
Proof.
  split; [reflexivity |].
  destruct (docentes_listados_y_aceptados Ejemplo.db) as (_ & _ & _ & _ & A).
  assert (N : NoDup (map docentes.id (t_docentes Ejemplo.db))).
  { simpl. apply NoDup_cons; [simpl; tauto | apply NoDup_nil]. }
  rewrite (A N Ejemplo.docente_lucia 1); [reflexivity | simpl; auto | reflexivity].
Defined.

(** ** The courses of a teacher *)

Lemma docente_delete_tablas {fw : Framework} (id : Z) (db db' : DB) (r : resultado string) :
  DocenteDetailView.delete id db = (r, db') ->
  t_docentes db' = t_docentes db /\ t_cursos db' = t_cursos db.
Proof.
  unfold DocenteDetailView.delete, DocenteDetailView.get_object.
  unfold bind at 1. unfold bind at 1. unfold leer.
  destruct (find (fun d => id_eqb (docentes.id d) (Some id)) (t_docentes db))
    as [docente |]; [| intros H; inversion H; auto].
  destruct (Docente.usuario_de docente db) as [usuario |]; [| intros H; inversion H; auto].
  unfold ret at 1. unfold bind. cbn [snd].
  destruct (Usuario.save None (usuarios.set_activo false usuario) db)
    as [[u | e] db1] eqn:Sv.
  - unfold Usuario.save, Usuario.super_save in Sv.
    destruct (existsb (Usuario.choca _) _); [discriminate |].
    cbv beta iota. unfold ret. intros H. inversion H; subst. clear H.
    destruct (usuarios.id _); [destruct (existsb _ _) |]; inversion Sv; auto.
  - apply usuario_save_falla_sin_cambios in Sv. subst db1.
    cbv beta iota. intros H. inversion H; auto.
Qed.

(** X27.  [por_docente] answers with a teacher only when a teacher of
    that id has a user that is active, and then counts the active
    courses of that teacher.  So after a teacher is removed with
    [delete] (ids being distinct), its id is answered 404, while the
    courses on offer are what they were: those of the removed teacher
    are still among them. *)
Theorem por_docente_tras_delete {fw : Framework} (id : Z) (db db' : DB)
    (r : resultado string) :
  NoDup (map docentes.id (t_docentes db)) ->
  DocenteDetailView.delete id db = (r, db') ->
  (forall d n,
     PorDocente.por_docente id db = PorDocente.Encontrado d n ->
     In d (t_docentes db)
     /\ docentes.id d = Some id
     /\ (exists u, Docente.usuario_de d db = Some u /\ usuarios.activo u = true)
     /\ n = List.length
              (filter (fun c => cursos.activo c && (cursos.docente_principal c =? id))
                      (t_cursos db)))
  /\ PorDocente.get_queryset db' = PorDocente.get_queryset db
  /\ (forall msg, r = Ok msg ->
        PorDocente.por_docente id db' = PorDocente.NoEncontrado "Docente no encontrado").
Proof.
  intros Nd H.
  pose proof (docente_delete_tablas id db db' r H) as [Td Tc].
  split; [| split].
  - clear H. intros d n. unfold PorDocente.por_docente, PorDocente.docente_activo.
    destruct (find _ (t_docentes db)) as [doc |] eqn:F; [| discriminate].
    intros P. inversion P; subst. clear P.
    apply find_some in F. destruct F as [Hd C].
    apply andb_true_iff in C. destruct C as [I A]. apply id_eqb_eq in I.
    split; [exact Hd |]. split; [exact I |]. split.
    + destruct (Docente.usuario_de d db) as [u |]; [eauto | discriminate].
    + unfold PorDocente.get_queryset. f_equal.
      rewrite filtro_de_filtro. apply filter_ext. intros c.
      rewrite I. reflexivity.
  - unfold PorDocente.get_queryset. rewrite Tc. reflexivity.
  - intros msg ->.
    pose proof (docente_delete_ok_inv id db db' msg H) as (doc & Hdoc & Edoc & In_act).
    unfold PorDocente.por_docente, PorDocente.docente_activo.
    rewrite find_ninguno; [reflexivity |].
    intros d Hd. rewrite Td in Hd.
    destruct (id_eqb (docentes.id d) (Some id)) eqn:I; [| reflexivity].
    apply id_eqb_eq in I. simpl.
    assert (d = doc) by (apply (docente_unico_por_id (t_docentes db)); congruence).
    subst d.
    destruct (Docente.usuario_de doc db') as [u |] eqn:Ud; [| reflexivity].
    unfold Docente.usuario_de in Ud. apply find_some in Ud. destruct Ud as [Hu Eu].
    apply id_eqb_eq in Eu. apply In_act; assumption.
Qed.

(** The teacher Lucia of the example has one course on offer; once
    she is removed her id is answered 404 and the course is still on
    offer. *)
Lemma por_docente_tras_delete_witness :
  PorDocente.por_docente 1 Ejemplo.db = PorDocente.Encontrado Ejemplo.docente_lucia 1
  /\ PorDocente.por_docente 1 (snd (DocenteDetailView.delete (fw := Ejemplo.fw) 1 Ejemplo.db))
     = PorDocente.NoEncontrado "Docente no encontrado"
  /\ PorDocente.get_queryset (snd (DocenteDetailView.delete (fw := Ejemplo.fw) 1 Ejemplo.db))
     = [Ejemplo.curso_django].
Proof.
  split; [reflexivity |].
  destruct (DocenteDetailView.delete (fw := Ejemplo.fw) 1 Ejemplo.db) as [r db'] eqn:E.
  assert (N : NoDup (map docentes.id (t_docentes Ejemplo.db))).
  { simpl. apply NoDup_cons; [simpl; tauto | apply NoDup_nil]. }
  destruct (por_docente_tras_delete (fw := Ejemplo.fw) 1 Ejemplo.db db' r N E)
    as (_ & Q & A).
  assert (R : r = Ok "Docente desactivado exitosamente").
  { vm_compute in E. inversion E. reflexivity. }
  simpl snd. split; [exact (A _ R) | rewrite Q; reflexivity].
Defined.
